(** * O2O Laravel analyzer (MCP server): a shallow embedding of src/index.ts

    The server is a dispatch table of read-only lookups over a Laravel code
    base.  Its collaborators (the filesystem, the glob facility, child
    processes, the clock, and the JavaScript builtins JSON.parse, path and
    RegExp) are gathered in a record [World]; a handler is a function of
    the world and of the two module-level variables [routeCache] and
    [routeCacheTime].  Exceptions are explicit: a computation yields
    [Return a] or [Throw e]. *)

From Stdlib Require Import String Ascii List ZArith Bool Lia PeanoNat.
From Stdlib Require Import Floats.
Import ListNotations.
Open Scope list_scope.
Open Scope string_scope.

Set Implicit Arguments.
Set Warnings "-register-all".

(** ** JavaScript values *)

(** The numbers this program builds are array lengths, counters and the
    results of Math.round: an integer, NaN or an infinity. *)
Inductive JSNumber : Type :=
| JNaN
| JInfinity (negative : bool)
| JInteger (z : Z).

Inductive JSValue : Type :=
| VUndefined
| VNull
| VBool (b : bool)
| VNum (n : JSNumber)
| VStr (s : string)
| VArr (items : list JSValue)
| VObj (fields : list (string * JSValue)).

Definition VInt (n : nat) : JSValue := VNum (JInteger (Z.of_nat n)).

Definition VStrings (l : list string) : JSValue := VArr (map VStr l).

(** ToBoolean: what [if (v)], [v && ...] and [v || ...] test. *)
Definition truthy (v : JSValue) : bool :=
  match v with
  | VUndefined | VNull => false
  | VBool b => b
  | VNum JNaN => false
  | VNum (JInteger z) => negb (z =? 0)%Z
  | VNum (JInfinity _) => true
  | VStr EmptyString => false
  | VStr (String _ _) => true
  | VArr _ | VObj _ => true
  end.

(** [a || b] *)
Definition js_or (a b : JSValue) : JSValue := if truthy a then a else b.

(** ** Exceptions *)

(** A thrown value is an Error object (with its name and message) or, in
    principle, any other value, kept by its String() rendering. *)
Inductive Exception : Type :=
| ErrorObject (name message : string)
| NonError (rendered : string).

Definition new_Error (message : string) : Exception := ErrorObject "Error" message.
Definition new_TypeError (message : string) : Exception := ErrorObject "TypeError" message.

Definition is_empty (s : string) : bool :=
  match s with EmptyString => true | String _ _ => false end.

(** String(error), which a template literal applies: Error.prototype.toString
    for an Error object. *)
Definition String_of_exception (e : Exception) : string :=
  match e with
  | ErrorObject name message =>
      if is_empty name then message
      else if is_empty message then name
      else name ++ ": " ++ message
  | NonError rendered => rendered
  end.

(** [error instanceof Error ? error.message : String(error)] *)
Definition error_message (e : Exception) : string :=
  match e with
  | ErrorObject _ message => message
  | NonError rendered => rendered
  end.

Inductive Outcome (A : Type) : Type :=
| Return (a : A)
| Throw (e : Exception).
Arguments Return {A} a.
Arguments Throw {A} e.

Definition obind {A B} (o : Outcome A) (k : A -> Outcome B) : Outcome B :=
  match o with
  | Return a => k a
  | Throw e => Throw e
  end.

(** ** Strings *)

Fixpoint startsWith (prefix s : string) : bool :=
  match prefix, s with
  | EmptyString, _ => true
  | String a p, String b s' => Ascii.eqb a b && startsWith p s'
  | String _ _, EmptyString => false
  end.

(** [s.includes(sub)] *)
Fixpoint includes (s sub : string) : bool :=
  startsWith sub s ||
  match s with
  | EmptyString => false
  | String _ s' => includes s' sub
  end.

Fixpoint drop (n : nat) (s : string) : string :=
  match n, s with
  | O, _ => s
  | S n', String _ s' => drop n' s'
  | S _, EmptyString => EmptyString
  end.

(** [s.replace(pattern, replacement)] for a string pattern: the first
    occurrence only.  (The replacement strings of this program hold no "$".) *)
Fixpoint replace (s pattern replacement : string) : string :=
  if startsWith pattern s then replacement ++ drop (String.length pattern) s
  else
    match s with
    | EmptyString => EmptyString
    | String c s' => String c (replace s' pattern replacement)
    end.

Definition newline : ascii := "010"%char.

(** [content.split(newline).length] *)
Fixpoint split_newline_length (content : string) : nat :=
  match content with
  | EmptyString => 1
  | String c s' =>
      (if Ascii.eqb c newline then 1 else 0) + split_newline_length s'
  end.

(** The text of an optional argument inside a template literal. *)
Definition template (v : option string) : string :=
  match v with
  | Some s => s
  | None => "undefined"
  end.

(** [arr.join(", ")] *)
Fixpoint join_comma (l : list string) : string :=
  match l with
  | [] => EmptyString
  | [x] => x
  | x :: rest => x ++ ", " ++ join_comma rest
  end.

(** ** The collaborators *)

Record GlobOptions : Type := mkGlobOptions {
  glob_cwd : option string;
  glob_absolute : bool;
  glob_ignore : list string
}.

Record World : Type := mkWorld {
  O2O_BASE_PATH : string;
  Date_now : Z;
  existsSync : string -> bool;
  globSync : string -> GlobOptions -> list string;
  readFileSync : string -> Outcome string;
  (* command, cwd, timeout in ms *)
  execSync : string -> string -> Z -> Outcome string;
  JSON_parse : string -> Outcome JSValue;
  path_join : list string -> string;
  path_basename : string -> string -> string;
  path_extname : string -> string;
  (* new RegExp(source, flags).test(subject) *)
  RegExp_test : string -> string -> string -> Outcome bool;
  (* subject.match(new RegExp(source, flags)) with the g flag: the matched
     substrings, [] standing for null *)
  RegExp_match_all : string -> string -> string -> Outcome (list string)
}.

(** ** Module state *)

Definition VALID_DOMAINS : list string := ["Core"; "Customer"; "Dealer"; "Employer"].

Definition ROUTE_CACHE_TTL : Z := 5 * 60 * 1000.

(** [routeCache] and [routeCacheTime], and the commands handed to execSync
    so far (most recent last), by which external invocations are counted. *)
Record ServerState : Type := mkState {
  routeCache : JSValue;
  routeCacheTime : Z;
  execLog : list string
}.

Definition initial_state : ServerState := mkState VNull 0 [].

(** Computations that read the world and may update the module state. *)
Definition M (A : Type) : Type := World -> ServerState -> Outcome A * ServerState.

Definition ret {A} (a : A) : M A := fun _ st => (Return a, st).

Definition throw {A} (e : Exception) : M A := fun _ st => (Throw e, st).

Definition bind {A B} (m : M A) (k : A -> M B) : M B :=
  fun w st =>
    match m w st with
    | (Return a, st') => k a w st'
    | (Throw e, st') => (Throw e, st')
    end.

Definition try_catch {A} (m : M A) (handler : Exception -> M A) : M A :=
  fun w st =>
    match m w st with
    | (Return a, st') => (Return a, st')
    | (Throw e, st') => handler e w st'
    end.

Definition lift {A} (f : World -> Outcome A) : M A := fun w st => (f w, st).

Definition ask {A} (f : World -> A) : M A := fun w st => (Return (f w), st).

Definition read {A} (f : ServerState -> A) : M A := fun _ st => (Return (f st), st).

Definition set_routeCache (v : JSValue) : M unit :=
  fun _ st => (Return tt, mkState v (routeCacheTime st) (execLog st)).

Definition set_routeCacheTime (t : Z) : M unit :=
  fun _ st => (Return tt, mkState (routeCache st) t (execLog st)).

Definition exec (command : string) (timeout : Z) : M string :=
  fun w st =>
    (execSync w command (O2O_BASE_PATH w) timeout,
     mkState (routeCache st) (routeCacheTime st) (execLog st ++ [command])%list).

Notation "x <- m ;; k" := (bind m (fun x => k))
  (at level 61, m at next level, right associativity).
Notation "m ;;; k" := (bind m (fun _ => k))
  (at level 61, right associativity).

(** ** getRoutes *)

Definition route_list_command : string := "php artisan route:list --json".

Definition getRoutes : M JSValue :=
  now <- ask Date_now ;;
  cache <- read routeCache ;;
  cacheTime <- read routeCacheTime ;;
  if truthy cache && (now - cacheTime <? ROUTE_CACHE_TTL)%Z then ret cache
  else
    try_catch
      (output <- exec route_list_command 15000 ;;
       parsed <- lift (fun w => JSON_parse w output) ;;
       set_routeCache parsed ;;;
       set_routeCacheTime now ;;;
       read routeCache)
      (fun error =>
         throw (new_Error ("Failed to get routes: " ++ String_of_exception error))).

(** The number of route-listing invocations recorded in a log. *)
Definition route_invocations (st : ServerState) : nat :=
  List.length (filter (String.eqb route_list_command) (execLog st)).

(** ** Objects, arrays and arguments *)

Fixpoint lookup (key : string) (fields : list (string * JSValue)) : option JSValue :=
  match fields with
  | [] => None
  | (k, v) :: rest => if String.eqb k key then Some v else lookup key rest
  end.

(** [v.key]: a TypeError on undefined and null, undefined where the
    property is missing.  (Never asked for length, the one property arrays
    and strings own among those this program reads.) *)
Definition getprop (v : JSValue) (key : string) : Outcome JSValue :=
  match v with
  | VUndefined =>
      Throw (new_TypeError ("Cannot read properties of undefined (reading '" ++ key ++ "')"))
  | VNull =>
      Throw (new_TypeError ("Cannot read properties of null (reading '" ++ key ++ "')"))
  | VObj fields =>
      match lookup key fields with
      | Some x => Return x
      | None => Return VUndefined
      end
  | _ => Return VUndefined
  end.

(** [value === s] against an argument that is a string or undefined. *)
Definition strict_equal (value : JSValue) (s : option string) : bool :=
  match value, s with
  | VStr a, Some b => String.eqb a b
  | VUndefined, None => true
  | _, _ => false
  end.

Fixpoint find_item (p : JSValue -> Outcome bool) (items : list JSValue) : Outcome JSValue :=
  match items with
  | [] => Return VUndefined
  | x :: rest =>
      obind (p x) (fun hit => if hit then Return x else find_item p rest)
  end.

(** [arr.find(p)] *)
Definition array_find (arr : JSValue) (p : JSValue -> Outcome bool) : Outcome JSValue :=
  match arr with
  | VArr items => find_item p items
  | VUndefined => Throw (new_TypeError "Cannot read properties of undefined (reading 'find')")
  | VNull => Throw (new_TypeError "Cannot read properties of null (reading 'find')")
  | _ => Throw (new_TypeError "routes.find is not a function")
  end.

Fixpoint map_items (f : JSValue -> Outcome JSValue) (items : list JSValue)
  : Outcome (list JSValue) :=
  match items with
  | [] => Return []
  | x :: rest =>
      obind (f x) (fun y => obind (map_items f rest) (fun ys => Return (y :: ys)))
  end.

(** [arr.map(f)] *)
Definition array_map (arr : JSValue) (f : JSValue -> Outcome JSValue) : Outcome JSValue :=
  match arr with
  | VArr items => obind (map_items f items) (fun ys => Return (VArr ys))
  | VUndefined => Throw (new_TypeError "Cannot read properties of undefined (reading 'map')")
  | VNull => Throw (new_TypeError "Cannot read properties of null (reading 'map')")
  | _ => Throw (new_TypeError "schema.map is not a function")
  end.

(** The arguments of a call: the string-valued fields the tool schemas
    declare, by name.  A field that is missing reads as undefined. *)
Definition Arguments : Type := list (string * string).

Fixpoint field (key : string) (args : Arguments) : option string :=
  match args with
  | [] => None
  | (k, v) :: rest => if String.eqb k key then Some v else field key rest
  end.

(** [const { first, ... } = args], where the request may carry no
    arguments at all. *)
Definition destructure (first : string) (args : option Arguments) : Outcome Arguments :=
  match args with
  | Some a => Return a
  | None =>
      Throw (new_TypeError ("Cannot destructure property '" ++ first
                            ++ "' of 'args' as it is undefined."))
  end.

Definition VOpt (v : option string) : JSValue :=
  match v with
  | Some s => VStr s
  | None => VUndefined
  end.

Definition dquote : string := String "034"%char EmptyString.

(** [path.join(...)], which refuses an argument that is not a string. *)
Definition js_path_join (w : World) (parts : list (option string)) : Outcome string :=
  if forallb (fun p => match p with Some _ => true | None => false end) parts
  then Return (path_join w (map template parts))
  else Throw (new_TypeError
                ("The " ++ dquote ++ "path" ++ dquote
                 ++ " argument must be of type string. Received undefined")).

(** ** The response envelope *)

(** The text of a response: a plain string, or JSON.stringify(v, null, 2). *)
Inductive Text : Type :=
| Plain (s : string)
| Stringified (v : JSValue).

(** [{ content: [{ type: "text", text }], isError }]; a reply without the
    isError property has [isError = false]. *)
Record Envelope : Type := mkEnvelope {
  text : Text;
  isError : bool
}.

Definition reply (t : Text) : Envelope := mkEnvelope t false.

(** ** Helpers *)

Definition backslash : string := String "092"%char EmptyString.

(** The alternation (Core|Customer|Dealer|Employer) of the pattern. *)
Definition domain_alternatives : list string := ["Core"; "Customer"; "Dealer"; "Employer"].

Definition match_domain_here (s : string) : option string :=
  List.find (fun d => startsWith ("App" ++ backslash ++ d ++ backslash) s) domain_alternatives.

(** [controllerPath.match(/App\\(Core|Customer|Dealer|Employer)\\/)]: the
    leftmost place where App, a backslash, a token and a backslash follow one
    another; the captured token, or null. *)
Fixpoint extractDomain (controllerPath : string) : option string :=
  match match_domain_here controllerPath with
  | Some d => Some d
  | None =>
      match controllerPath with
      | EmptyString => None
      | String _ rest => extractDomain rest
      end
  end.

Definition VDomain (d : option string) : JSValue :=
  match d with
  | Some s => VStr s
  | None => VNull
  end.

(** extractDomain applied to a value that need not be a string. *)
Definition call_extractDomain (v : JSValue) : Outcome (option string) :=
  match v with
  | VStr s => Return (extractDomain s)
  | VUndefined =>
      Throw (new_TypeError "Cannot read properties of undefined (reading 'match')")
  | VNull =>
      Throw (new_TypeError "Cannot read properties of null (reading 'match')")
  | _ => Throw (new_TypeError "controllerPath.match is not a function")
  end.

Definition relativePath (w : World) (absolutePath : string) : string :=
  replace absolutePath (O2O_BASE_PATH w ++ "/") EmptyString.

Definition relativizeArray (w : World) (arr : list string) : list string :=
  map (relativePath w) arr.

Definition countLines (w : World) (filePath : string) : nat :=
  match readFileSync w filePath with
  | Return content => split_newline_length content
  | Throw _ => 0
  end.

Definition extractClassName (w : World) (filePath : string) : string :=
  path_basename w filePath (path_extname w filePath).

(** ** Numbers *)

(** A count as a JavaScript number (a double).  Array lengths stay below
    2^32, far inside the range where the conversion is exact. *)
Definition Number_of_nat (n : nat) : float :=
  PrimFloat.of_uint63 (Uint63.of_Z (Z.of_nat n)).

(** [Math.round(x)]: the integer nearest to x, the one closer to +infinity
    when two are as near: floor(x + 1/2) computed exactly on the double's
    mantissa and exponent. *)
Definition Math_round (x : float) : JSNumber :=
  match Prim2SF x with
  | S754_nan => JNaN
  | S754_infinity s => JInfinity s
  | S754_zero _ => JInteger 0
  | S754_finite s m e =>
      let n := (if s then Z.neg m else Z.pos m) in
      JInteger (if (0 <=? e)%Z then n * 2 ^ e
                else (2 * n + 2 ^ (- e)) / 2 ^ (- e + 1))%Z
  end.

(** [Math.round((testedCount / total) * 100) || 0] *)
Definition coverage_percentage (testedCount total : nat) : JSValue :=
  js_or (VNum (Math_round ((Number_of_nat testedCount / Number_of_nat total)
                           * Number_of_nat 100)%float))
        (VNum (JInteger 0)).

(** ** query_domain_structure *)

Definition php_ignore : list string := ["**/vendor/**"; "**/node_modules/**"].

Definition includes_domain (domain : option string) : bool :=
  match domain with
  | Some d => existsb (String.eqb d) VALID_DOMAINS
  | None => false
  end.

(** The category filters, in the order of the [files] object. *)
Definition bucket_rules : list (string * (string -> bool)) :=
  [ ("controllers", fun f => includes f "Controller");
    ("repositories", fun f => includes f "Repository" && negb (includes f "Interface"));
    ("repository_interfaces", fun f => includes f "Repository" && includes f "Interface");
    ("transformers", fun f => includes f "Transformer");
    ("requests", fun f => includes f "Request");
    ("models", fun f => includes f "/Models/");
    ("entities", fun f => includes f "/Entities/");
    ("services", fun f => includes f "Service");
    ("exceptions", fun f => includes f "Exception") ].

(** The [files] object of the structure: every filter runs over the whole
    glob result. *)
Definition domain_buckets (files : list string) : list (string * list string) :=
  map (fun rule => (fst rule, filter (snd rule) files)) bucket_rules.

Definition buckets_object (f : list string -> list string)
  (buckets : list (string * list string)) : JSValue :=
  VObj (map (fun b => (fst b, VStrings (f (snd b)))) buckets).

(** [{ ...obj, key: value }] *)
Fixpoint override (key : string) (value : JSValue) (fields : list (string * JSValue))
  : list (string * JSValue) :=
  match fields with
  | [] => [(key, value)]
  | (k, v) :: rest =>
      if String.eqb k key then (k, value) :: rest
      else (k, v) :: override key value rest
  end.

Definition domain_files (w : World) (domainPath : string) : list string :=
  globSync w (domainPath ++ "/**/*.php") (mkGlobOptions None false php_ignore).

Definition relativeStructure (w : World) (domain : option string) (domainPath : string)
  (files : list string) : JSValue :=
  let structure :=
    [ ("domain", VOpt domain);
      ("path", VStr domainPath);
      ("total_files", VInt (List.length files));
      ("files", buckets_object (fun l => l) (domain_buckets files)) ] in
  VObj (override "files" (buckets_object (relativizeArray w) (domain_buckets files))
                 structure).

Definition queryDomainStructure (args : option Arguments) (w : World) : Outcome Envelope :=
  obind (destructure "domain" args) (fun a =>
  let domain := field "domain" a in
  if negb (includes_domain domain) then
    Throw (new_Error ("Invalid domain '" ++ template domain ++ "'. Valid domains: "
                      ++ join_comma VALID_DOMAINS))
  else
    obind (js_path_join w [Some (O2O_BASE_PATH w); Some "app"; domain]) (fun domainPath =>
    if negb (existsSync w domainPath) then
      Throw (new_Error ("Domain path not found: " ++ domainPath))
    else
      Return (reply (Stringified
                       (relativeStructure w domain domainPath
                                          (domain_files w domainPath)))))).

(** ** find_untested_files *)

Definition absolute_only : GlobOptions := mkGlobOptions None true [].

(** [v === s] for an optional argument and a string literal. *)
Definition is_string (v : option string) (s : string) : bool :=
  match v with
  | Some x => String.eqb x s
  | None => false
  end.

(** The candidate files: one glob per file type, by pattern on the name. *)
Definition candidate_files (w : World) (domainPath : string) (file_type : option string)
  : list string :=
  if is_string file_type "controller" then
    globSync w (domainPath ++ "/**/*Controller.php") absolute_only
  else if is_string file_type "repository" then
    globSync w (domainPath ++ "/**/*Repository.php")
             (mkGlobOptions None true ["**/*Interface.php"])
  else if is_string file_type "model" then
    globSync w (domainPath ++ "/**/Models/**/*.php") absolute_only
  else if is_string file_type "service" then
    globSync w (domainPath ++ "/**/*Service.php") absolute_only
  else
    globSync w (domainPath ++ "/**/*.php") (mkGlobOptions None true php_ignore).

Definition in_base (w : World) : GlobOptions :=
  mkGlobOptions (Some (O2O_BASE_PATH w)) false [].

Definition unitTests (w : World) (className : string) : list string :=
  globSync w ("tests/Unit/**/*" ++ className ++ "*Test.php") (in_base w).

Definition featureTests (w : World) (className : string) : list string :=
  globSync w ("tests/Feature/**/*" ++ className ++ "*Test.php") (in_base w).

(** The test of the loop body: no unit test and no feature test. *)
Definition untested (w : World) (file : string) : bool :=
  Nat.eqb (List.length (unitTests w (extractClassName w file))) 0
  && Nat.eqb (List.length (featureTests w (extractClassName w file))) 0.

(** [s || fallback] on an optional string. *)
Definition or_string (s : option string) (fallback : string) : string :=
  match s with
  | Some (String c r) => String c r
  | _ => fallback
  end.

Definition untested_entry (w : World) (domain file_type : option string) (file : string)
  : JSValue :=
  VObj [ ("file", VStr (relativePath w file));
         ("file_type", VStr (or_string file_type "unknown"));
         ("domain", VOpt domain);
         ("suggested_test_location",
          VStr ("tests/Unit/" ++ template domain ++ "/" ++ extractClassName w file
                ++ "Test.php"));
         ("complexity_score", VInt (countLines w file)) ].

(** One turn of [for (const file of files)], on the pair
    (untestedFiles, testedCount). *)
Definition untested_step (w : World) (domain file_type : option string)
  (acc : list JSValue * nat) (file : string) : list JSValue * nat :=
  if untested w file
  then ((fst acc ++ [untested_entry w domain file_type file])%list, snd acc)
  else (fst acc, S (snd acc)).

Definition untested_loop (w : World) (domain file_type : option string)
  (files : list string) : list JSValue * nat :=
  fold_left (untested_step w domain file_type) files ([], 0).

Definition findUntestedFiles (args : option Arguments) (w : World) : Outcome Envelope :=
  obind (destructure "domain" args) (fun a =>
  let domain := field "domain" a in
  let file_type := field "file_type" a in
  obind (js_path_join w [Some (O2O_BASE_PATH w); Some "app"; domain]) (fun domainPath =>
  let files := candidate_files w domainPath file_type in
  let (untestedFiles, testedCount) := untested_loop w domain file_type files in
  let result :=
    VObj [ ("domain", VOpt domain);
           ("file_type_filter", VStr (or_string file_type "all"));
           ("untested_files", VArr untestedFiles);
           ("summary",
            VObj [ ("total_files", VInt (List.length files));
                   ("tested_files", VInt testedCount);
                   ("untested_files", VInt (List.length untestedFiles));
                   ("coverage_percentage",
                    coverage_percentage testedCount (List.length files)) ]) ] in
  Return (reply (Stringified result)))).

(** ** find_route_by_name *)

Definition findRouteByName (args : option Arguments) : M Envelope :=
  a <- lift (fun _ => destructure "route_name" args) ;;
  let route_name := field "route_name" a in
  routes <- getRoutes ;;
  route <- lift (fun _ =>
    array_find routes (fun r =>
      obind (getprop r "name") (fun name => Return (strict_equal name route_name)))) ;;
  if negb (truthy route) then
    throw (new_Error ("Route '" ++ template route_name ++ "' not found"))
  else
    action <- lift (fun _ => getprop route "action") ;;
    domain <- lift (fun _ => call_extractDomain action) ;;
    name <- lift (fun _ => getprop route "name") ;;
    method <- lift (fun _ => getprop route "method") ;;
    uri <- lift (fun _ => getprop route "uri") ;;
    middleware <- lift (fun _ => getprop route "middleware") ;;
    let result :=
      VObj [ ("route_name", name);
             ("method", method);
             ("uri", uri);
             ("controller", action);
             ("middleware", js_or middleware (VArr []));
             ("domain", VDomain domain) ] in
    ret (reply (Stringified result)).

(** ** find_component_usage *)

Record Usage : Type := mkUsage {
  usage_file : string;
  usage_file_type : string;
  usage_domain : option string;
  usage_count : nat
}.

Definition usage_object (u : Usage) : JSValue :=
  VObj [ ("file", VStr (usage_file u));
         ("file_type", VStr (usage_file_type u));
         ("domain", VDomain (usage_domain u));
         ("usage_count", VInt (usage_count u)) ].

Definition import_source (component_name : option string) : string :=
  "import.*" ++ template component_name ++ ".*from".

Definition template_source (component_name : option string) : string :=
  "<" ++ template component_name.

(** The body of [for (const vueFile of allVueFiles)]: the usage the file
    adds, if any. *)
Definition scan_vue_file (w : World) (component_name : option string) (vueFile : string)
  : Outcome (option Usage) :=
  obind (readFileSync w vueFile) (fun content =>
  obind (RegExp_test w (import_source component_name) "i" content) (fun imported =>
  if imported then
    obind (RegExp_match_all w (template_source component_name) "gi" content) (fun matches =>
    let usageCount := List.length matches in
    if Nat.ltb 0 usageCount then
      Return (Some (mkUsage (relativePath w vueFile)
                            (if includes vueFile "/pages/" then "page" else "component")
                            (extractDomain vueFile)
                            usageCount))
    else Return None)
  else Return None)).

Fixpoint scan_vue_files (w : World) (component_name : option string)
  (allVueFiles : list string) (usages : list Usage) : Outcome (list Usage) :=
  match allVueFiles with
  | [] => Return usages
  | vueFile :: rest =>
      obind (scan_vue_file w component_name vueFile) (fun found =>
      scan_vue_files w component_name rest
        (match found with
         | Some u => (usages ++ [u])%list
         | None => usages
         end))
  end.

(** [[...new Set(xs)]]: the first occurrence of each string, in order. *)
Fixpoint unique (seen xs : list string) : list string :=
  match xs with
  | [] => []
  | x :: rest =>
      if existsb (String.eqb x) seen then unique seen rest
      else x :: unique (x :: seen) rest
  end.

(** [usages.map(u => u.domain).filter(Boolean)] *)
Fixpoint truthy_domains (usages : list Usage) : list string :=
  match usages with
  | [] => []
  | u :: rest =>
      match usage_domain u with
      | Some (String c r) => String c r :: truthy_domains rest
      | _ => truthy_domains rest
      end
  end.

Definition total_usages (usages : list Usage) : nat :=
  fold_left (fun sum u => sum + usage_count u) usages 0.

Definition is_truthy_string (s : option string) : bool :=
  match s with
  | Some (String _ _) => true
  | _ => false
  end.

Definition all_vue_files (w : World) : list string :=
  globSync w "app/**/UI/resources/js/**/*.vue"
           (mkGlobOptions (Some (O2O_BASE_PATH w)) true []).

Definition usage_summary (usages : list Usage) : JSValue :=
  VObj [ ("total_usages", VInt (total_usages usages));
         ("files_using", VInt (List.length usages));
         ("pages_using",
          VInt (List.length (filter (fun u => String.eqb (usage_file_type u) "page") usages)));
         ("components_using",
          VInt (List.length
                  (filter (fun u => String.eqb (usage_file_type u) "component") usages)));
         ("domains_using", VStrings (unique [] (truthy_domains usages))) ].

Definition findComponentUsage (args : option Arguments) (w : World) : Outcome Envelope :=
  obind (destructure "component_name" args) (fun a =>
  let component_name := field "component_name" a in
  let domain := field "domain" a in
  let searchPath :=
    if is_truthy_string domain
    then path_join w [O2O_BASE_PATH w; "app/" ++ template domain ++ "/UI/resources/js"]
    else path_join w [O2O_BASE_PATH w; "app"] in
  let componentFiles :=
    globSync w ("**/" ++ template component_name ++ ".vue")
             (mkGlobOptions (Some searchPath) true []) in
  match componentFiles with
  | [] => Throw (new_Error ("Component '" ++ template component_name ++ "' not found"))
  | componentFile :: _ =>
      let componentDomain := extractDomain componentFile in
      obind (scan_vue_files w component_name (all_vue_files w) []) (fun usages =>
      let result :=
        VObj [ ("component_name", VOpt component_name);
               ("component_definition",
                VObj [ ("file", VStr (relativePath w componentFile));
                       ("domain", VDomain componentDomain) ]);
               ("usages", VArr (map usage_object usages));
               ("usage_summary", usage_summary usages) ] in
      Return (reply (Stringified result)))
  end).

(** ** query_database_schema *)

Definition is_space (c : ascii) : bool :=
  let n := nat_of_ascii c in
  Nat.eqb n 32 || (Nat.leb 9 n && Nat.leb n 13).

Fixpoint trimStart (s : string) : string :=
  match s with
  | String c rest => if is_space c then trimStart rest else s
  | EmptyString => EmptyString
  end.

Fixpoint trimEnd (s : string) : string :=
  match s with
  | EmptyString => EmptyString
  | String c rest =>
      let rest' := trimEnd rest in
      if is_space c && is_empty rest' then EmptyString else String c rest'
  end.

(** [s.trim()], on the ASCII white space. *)
Definition trim (s : string) : string := trimEnd (trimStart s).

Definition describe_command (table_name : option string) : string :=
  "php artisan tinker --execute=" ++ dquote
  ++ "echo json_encode(DB::select('DESCRIBE " ++ template table_name ++ "'));" ++ dquote.

Definition format_column (col : JSValue) : Outcome JSValue :=
  obind (getprop col "Field") (fun Field =>
  obind (getprop col "Type") (fun Type_ =>
  obind (getprop col "Null") (fun Null =>
  obind (getprop col "Key") (fun Key =>
  obind (getprop col "Default") (fun Default =>
  obind (getprop col "Extra") (fun Extra =>
  Return (VObj [ ("name", Field);
                 ("type", Type_);
                 ("nullable", VBool (strict_equal Null (Some "YES")));
                 ("key", Key);
                 ("default", Default);
                 ("extra", Extra) ]))))))).

(** The body of the try block: DESCRIBE through artisan tinker. *)
Definition describe_table (table_name : option string) : M Envelope :=
  output <- exec (describe_command table_name) 10000 ;;
  schema <- lift (fun w => JSON_parse w (trim output)) ;;
  columns <- lift (fun _ => array_map schema format_column) ;;
  ret (reply (Stringified (VObj [ ("table", VOpt table_name); ("columns", columns) ]))).

Definition migrations (w : World) (table_name : option string) : list string :=
  globSync w ("**/*_create_" ++ template table_name ++ "_table.php")
           (mkGlobOptions (Some (path_join w [O2O_BASE_PATH w; "database/migrations"]))
                          true []).

Definition migration_notice : string :=
  "Could not query database directly. Found migration file:"
  ++ String newline (String newline EmptyString).

(** The body of the catch block: the migration file, if there is one. *)
Definition read_migration (table_name : option string) (error : Exception) : M Envelope :=
  found <- ask (fun w => migrations w table_name) ;;
  match found with
  | first :: _ =>
      migrationContent <- lift (fun w => readFileSync w first) ;;
      ret (reply (Plain (migration_notice ++ migrationContent)))
  | [] =>
      throw (new_Error ("Could not retrieve schema for table '" ++ template table_name
                        ++ "'. Error: " ++ String_of_exception error))
  end.

Definition queryDatabaseSchema (args : option Arguments) : M Envelope :=
  a <- lift (fun _ => destructure "table_name" args) ;;
  let table_name := field "table_name" a in
  try_catch (describe_table table_name) (read_migration table_name).

(** ** The dispatcher *)

(** The fourteen tools whose handlers are not modelled. *)
Definition other_tools : list string :=
  [ "find_related_files"; "run_phpstan"; "find_routes_for_controller";
    "list_all_routes"; "find_service_chain"; "find_tests_for_file";
    "get_test_structure_info"; "find_unused_components"; "list_inertia_pages";
    "find_page_props"; "list_api_endpoints"; "find_endpoint_details";
    "find_table_usage"; "find_eloquent_scopes" ].

Definition modelled_tools : list string :=
  [ "query_domain_structure"; "query_database_schema"; "find_route_by_name";
    "find_untested_files"; "find_component_usage" ].

Definition known_tool (name : string) : bool :=
  existsb (String.eqb name) (modelled_tools ++ other_tools)%list.

Section Dispatcher.

(** Whatever the handlers of [other_tools] do: each returns an envelope or
    throws, and may update the module state. *)
Variable other_handler : string -> option Arguments -> M Envelope.

(** The switch of the CallTool request handler. *)
Definition dispatch (name : string) (args : option Arguments) : M Envelope :=
  if String.eqb name "query_domain_structure" then lift (queryDomainStructure args)
  else if String.eqb name "query_database_schema" then queryDatabaseSchema args
  else if String.eqb name "find_route_by_name" then findRouteByName args
  else if String.eqb name "find_untested_files" then lift (findUntestedFiles args)
  else if String.eqb name "find_component_usage" then lift (findComponentUsage args)
  else if existsb (String.eqb name) other_tools then other_handler name args
  else throw (new_Error ("Unknown tool: " ++ name)).

Definition error_envelope (name : string) (error : Exception) : Envelope :=
  mkEnvelope (Plain ("Error executing " ++ name ++ ": " ++ error_message error)) true.

(** The CallTool request handler: the switch inside try, the envelope of the
    error in catch. *)
Definition callTool (name : string) (args : option Arguments) : M Envelope :=
  try_catch (dispatch name args) (fun error => ret (error_envelope name error)).

End Dispatcher.

(** ** Reading a result *)

(** The value under a path of keys in a result object; undefined where a
    key is missing. *)
Fixpoint at_path (keys : list string) (v : JSValue) : JSValue :=
  match keys with
  | [] => v
  | k :: rest =>
      match v with
      | VObj fields =>
          match lookup k fields with
          | Some x => at_path rest x
          | None => VUndefined
          end
      | _ => VUndefined
      end
  end.

(** The object a successful reply serialises. *)
Definition body (o : Outcome Envelope) : JSValue :=
  match o with
  | Return (mkEnvelope (Stringified v) false) => v
  | _ => VUndefined
  end.

(** The strings of a bucket of a structure listing, if the listing has a
    bucket of that name. *)
Definition bucket (name : string) (result : JSValue) : option (list JSValue) :=
  match at_path ["files"; name] result with
  | VArr items => Some items
  | _ => None
  end.

Definition bucket_sizes (result : JSValue) : nat :=
  match at_path ["files"] result with
  | VObj fields =>
      fold_left (fun n kv => match snd kv with
                             | VArr items => n + List.length items
                             | _ => n
                             end) fields 0
  | _ => 0
  end.

(** ** A sample installation

    A world given by finite tables, with a posix reading of [path] and a
    matcher for the patterns made of plain characters and [.*], matched
    without regard to case: enough to run the handlers on concrete inputs. *)

Module Sample.

Fixpoint assoc {A} (key : string) (table : list (string * A)) : option A :=
  match table with
  | [] => None
  | (k, v) :: rest => if String.eqb k key then Some v else assoc key rest
  end.

Fixpoint join_slash (parts : list string) : string :=
  match parts with
  | [] => "."
  | [x] => x
  | x :: rest => x ++ "/" ++ join_slash rest
  end.

Fixpoint last_segment (s : string) : string :=
  match s with
  | EmptyString => EmptyString
  | String c r =>
      if includes r "/" then last_segment r
      else if Ascii.eqb c "/" then r
      else s
  end.

Fixpoint from_last_dot (s : string) : string :=
  match s with
  | EmptyString => EmptyString
  | String c r =>
      if includes r "." then from_last_dot r
      else if Ascii.eqb c "." then s
      else EmptyString
  end.

Definition extname (p : string) : string :=
  match last_segment p with
  | EmptyString => EmptyString
  | String _ r => from_last_dot r
  end.

Definition basename (p ext : string) : string :=
  let b := last_segment p in
  let n := String.length b - String.length ext in
  if String.eqb (drop n b) ext && negb (String.eqb b ext)
  then String.substring 0 n b
  else b.

Definition lower (c : ascii) : ascii :=
  let n := nat_of_ascii c in
  if Nat.leb 65 n && Nat.leb n 90 then ascii_of_nat (n + 32) else c.

Inductive Piece : Type :=
| Lit (c : ascii)
| DotStar.

Fixpoint pieces (source : string) : list Piece :=
  match source with
  | EmptyString => []
  | String "." (String "*" rest) => DotStar :: pieces rest
  | String c rest => Lit c :: pieces rest
  end.

Definition line_end (c : ascii) : bool :=
  Ascii.eqb c newline || Ascii.eqb c "013".

(** The length of the match of the pieces at the start of the subject, [.*]
    taking as much as it can. *)
Fixpoint match_here (p : list Piece) : string -> option nat :=
  match p with
  | [] => fun _ => Some 0
  | Lit c :: rest =>
      fun s =>
        match s with
        | String d s' =>
            if Ascii.eqb (lower c) (lower d)
            then option_map S (match_here rest s')
            else None
        | EmptyString => None
        end
  | DotStar :: rest =>
      fix star (s : string) : option nat :=
        match s with
        | String d s' =>
            if line_end d then match_here rest s
            else
              match star s' with
              | Some n => Some (S n)
              | None => match_here rest s
              end
        | EmptyString => match_here rest s
        end
  end.

Fixpoint test (p : list Piece) (s : string) : bool :=
  match match_here p s with
  | Some _ => true
  | None =>
      match s with
      | EmptyString => false
      | String _ s' => test p s'
      end
  end.

(** The matches of a global pattern, left to right, none overlapping. *)
Fixpoint match_all (fuel : nat) (p : list Piece) (s : string) : list string :=
  match fuel with
  | O => []
  | S fuel' =>
      match match_here p s with
      | Some n =>
          String.substring 0 n s ::
          match s with
          | EmptyString => []
          | String _ s' => match_all fuel' p (drop (Nat.pred n) s')
          end
      | None =>
          match s with
          | EmptyString => []
          | String _ s' => match_all fuel' p s'
          end
      end
  end.

Record Tables : Type := mkTables {
  now : Z;
  directories : list string;
  globs : list (string * list string);
  files : list (string * string);
  commands : list (string * string);
  documents : list (string * JSValue)
}.

Definition world (t : Tables) : World :=
  {| O2O_BASE_PATH := "/srv/o2o";
     Date_now := now t;
     existsSync := fun p => existsb (String.eqb p) (directories t);
     globSync := fun pattern _ =>
       match assoc pattern (globs t) with Some l => l | None => [] end;
     readFileSync := fun p =>
       match assoc p (files t) with
       | Some content => Return content
       | None => Throw (new_Error ("ENOENT: no such file or directory, open '" ++ p ++ "'"))
       end;
     execSync := fun command _ _ =>
       match assoc command (commands t) with
       | Some output => Return output
       | None => Throw (new_Error ("Command failed: " ++ command))
       end;
     JSON_parse := fun text =>
       match assoc text (documents t) with
       | Some v => Return v
       | None => Throw (ErrorObject "SyntaxError" "Unexpected end of JSON input")
       end;
     path_join := join_slash;
     path_basename := basename;
     path_extname := extname;
     RegExp_test := fun source _ subject => Return (test (pieces source) subject);
     RegExp_match_all := fun source _ subject =>
       Return (match_all (S (String.length subject)) (pieces source) subject) |}.

End Sample.

(** ** Route records

    The route listing is an array of objects with the properties name,
    method, uri, action and middleware, of which name and middleware may
    be null. *)

Record RouteRecord : Type := mkRoute {
  route_name : option string;
  route_method : string;
  route_uri : string;
  route_action : string;
  route_middleware : option (list string)
}.

Definition route_object (r : RouteRecord) : JSValue :=
  VObj [ ("name", VDomain (route_name r));
         ("method", VStr (route_method r));
         ("uri", VStr (route_uri r));
         ("action", VStr (route_action r));
         ("middleware", match route_middleware r with
                        | Some l => VStrings l
                        | None => VNull
                        end) ].

Definition named (n : string) (r : RouteRecord) : bool :=
  match route_name r with
  | Some s => String.eqb s n
  | None => false
  end.

(** The answer of find_route_by_name for a route record. *)
Definition route_answer (r : RouteRecord) : JSValue :=
  VObj [ ("route_name", VDomain (route_name r));
         ("method", VStr (route_method r));
         ("uri", VStr (route_uri r));
         ("controller", VStr (route_action r));
         ("middleware", VStrings (match route_middleware r with
                                  | Some l => l
                                  | None => []
                                  end));
         ("domain", VDomain (extractDomain (route_action r))) ].

(** ** Reading the coverage summary *)




(** ** Scenarios *)

Module Scenario.

Definition orders_route : RouteRecord :=
  mkRoute (Some "fleet.orders.index") "GET" "/async/fleet/orders"
          "App\Employer\Controllers\OrderController@index" (Some ["auth"]).

(** A closure route, listed without middleware. *)
Definition health_route : RouteRecord :=
  mkRoute (Some "health") "GET" "/up" "Closure" None.

Definition route_table : list RouteRecord := [orders_route; health_route].

(** An installation whose route listing answers with [route_table]. *)
Definition routes_at (t : Z) : World :=
  Sample.world
    (Sample.mkTables t [] [] []
       [(route_list_command, "[routes]")]
       [("[routes]", VArr (map route_object route_table))]).

(** An installation where artisan cannot be run. *)
Definition no_artisan_at (t : Z) : World :=
  Sample.world (Sample.mkTables t [] [] [] [] []).

(** The module state after a first call of getRoutes at time 1000. *)
Definition after_first_call : ServerState :=
  snd (getRoutes (routes_at 1000) initial_state).

Definition core_with (php : list string) : World :=
  Sample.world
    (Sample.mkTables 0 ["/srv/o2o/app/Core"]
       [("/srv/o2o/app/Core/**/*.php", php)] [] [] []).

Definition service_test : string := "/srv/o2o/app/Core/Services/BillingServiceTest.php".
Definition service_controller : string :=
  "/srv/o2o/app/Core/Http/Controllers/InvoiceServiceController.php".
Definition plain_class : string := "/srv/o2o/app/Core/Support/Money.php".

Definition core : option Arguments := Some [("domain", "Core")].

(** Class names A, AA, AAA, ... *)
Definition class_name (i : nat) : string :=
  fold_right (fun _ acc => String "A" acc) "A" (seq 0 i).

Definition class_file (i : nat) : string :=
  "/srv/o2o/app/Core/" ++ class_name i ++ ".php".

(** [total] classes in app/Core, of which the first [tested] have a unit
    test of their own name. *)
Definition classes (tested total : nat) : World :=
  Sample.world
    (Sample.mkTables 0 ["/srv/o2o/app/Core"]
       (("/srv/o2o/app/Core/**/*.php", map class_file (seq 0 total))
        :: map (fun i => ("tests/Unit/**/*" ++ class_name i ++ "*Test.php",
                          ["tests/Unit/Core/" ++ class_name i ++ "Test.php"]))
               (seq 0 tested))
       [] [] []).

Definition nl : string := String newline EmptyString.

Definition page_a : string := "/srv/o2o/app/Employer/UI/resources/js/pages/Orders.vue".
Definition card_b : string := "/srv/o2o/app/Employer/UI/resources/js/components/Card.vue".
Definition bare_c : string := "/srv/o2o/app/Employer/UI/resources/js/components/Bare.vue".
Definition button : string := "/srv/o2o/app/Core/UI/resources/js/components/Button.vue".

(** A imports Button and renders it twice, B imports it and never renders
    it, C renders it without an import; [vue] are the files the glob finds. *)
Definition components (vue : list string) : World :=
  Sample.world
    (Sample.mkTables 0 []
       [ ("**/Button.vue", [button]);
         ("app/**/UI/resources/js/**/*.vue", vue) ]
       [ (page_a, "import Button from '@/components/Button.vue'" ++ nl
                  ++ "<template><Button/><Button/></template>");
         (card_b, "import Button from './Button.vue'" ++ nl
                  ++ "<template><div/></template>");
         (bare_c, "<template><Button/></template>") ]
       [] []).

Definition button_usage : option Arguments := Some [("component_name", "Button")].

Definition migration : string :=
  "/srv/o2o/database/migrations/2020_01_01_000000_create_orders_table.php".

(** No database at hand, one migration for the orders table, with the
    given readable files. *)
Definition offline (readable : list (string * string)) : World :=
  Sample.world
    (Sample.mkTables 0 []
       [("**/*_create_orders_table.php", [migration])] readable [] []).

(** The same, with a migration file that may not be read. *)
Definition locked : World :=
  let w := offline [] in
  mkWorld (O2O_BASE_PATH w) (Date_now w) (existsSync w) (globSync w)
          (fun p => Throw (new_Error ("EACCES: permission denied, open '" ++ p ++ "'")))
          (execSync w) (JSON_parse w) (path_join w) (path_basename w) (path_extname w)
          (RegExp_test w) (RegExp_match_all w).

Definition orders_table : option Arguments := Some [("table_name", "orders")].

End Scenario.

(** The directory of a domain: path.join(O2O_BASE_PATH, "app", domain). *)
Definition domain_path (w : World) (d : string) : string :=
  path_join w [O2O_BASE_PATH w; "app"; d].

(** ** Reading the other handlers *)

(** The usages one file adds to the list. *)
Definition contribution (w : World) (component_name : option string) (vueFile : string)
  : list Usage :=
  match scan_vue_file w component_name vueFile with
  | Return (Some u) => [u]
  | _ => []
  end.

(** What the try block of query_database_schema yields, the log apart. *)
Definition describe_outcome (w : World) (table_name : option string) : Outcome Envelope :=
  obind (execSync w (describe_command table_name) (O2O_BASE_PATH w) 10000) (fun output =>
  obind (JSON_parse w (trim output)) (fun schema =>
  obind (array_map schema format_column) (fun columns =>
  Return (reply (Stringified (VObj [ ("table", VOpt table_name);
                                     ("columns", columns) ])))))).

Definition described (table_name : option string) (st : ServerState) : ServerState :=
  mkState (routeCache st) (routeCacheTime st)
          (execLog st ++ [describe_command table_name])%list.

(** ** Reading the route cache *)

Definition logged (st : ServerState) : ServerState :=
  mkState (routeCache st) (routeCacheTime st) (execLog st ++ [route_list_command])%list.

Definition fresh (w : World) (st : ServerState) : bool :=
  truthy (routeCache st) && (Date_now w - routeCacheTime st <? ROUTE_CACHE_TTL)%Z.

Definition failed_to_get_routes (cause : Exception) : Exception :=
  new_Error ("Failed to get routes: " ++ String_of_exception cause).

(** What one attempt to refresh yields: the route listing of the world,
    parsed, or the reason why there is none. *)
Definition listing (w : World) : Outcome JSValue :=
  obind (execSync w route_list_command (O2O_BASE_PATH w) 15000) (JSON_parse w).

(** A refresh: one more route-listing command in the log and, when the call
    returns, the parsed listing and the time of the call in the cache; and
    the call does return when the listing can be had. *)
Definition refresh_performed (w : World) (st : ServerState) : Prop :=
  exists o st',
    getRoutes w st = (o, st') /\
    execLog st' = (execLog st ++ [route_list_command])%list /\
    route_invocations st' = S (route_invocations st) /\
    match o, listing w with
    | Return v, Return v' => v = v' /\ routeCache st' = v /\ routeCacheTime st' = Date_now w
    | Throw _, Throw _ => True
    | _, _ => False
    end.

(** * The other handlers *)

(** ** More of the JavaScript runtime

    What the remaining handlers ask of the platform beyond [World]: the
    String() conversion of a value that is no string, the text an inherited
    member of Object.prototype gives when 1 is added to it, the
    modification time fs.statSync reports, and the stdout an error of
    execSync carries. *)

Record Platform : Type := mkPlatform {
  String_of : JSValue -> string;
  native_plus_one : string -> string;
  statSync_mtime : string -> Outcome string;
  stdout_of : Exception -> option string
}.

(** [s.endsWith(suffix)] *)
Definition endsWith (s suffix : string) : bool :=
  String.eqb (drop (String.length s - String.length suffix) s) suffix
  && Nat.leb (String.length suffix) (String.length s).

Definition lower_ascii (c : ascii) : ascii :=
  let n := nat_of_ascii c in
  if Nat.leb 65 n && Nat.leb n 90 then ascii_of_nat (n + 32) else c.

(** [s.toLowerCase()], on the ASCII letters. *)
Fixpoint toLowerCase (s : string) : string :=
  match s with
  | EmptyString => EmptyString
  | String c rest => String (lower_ascii c) (toLowerCase rest)
  end.

Fixpoint filter_items (p : JSValue -> Outcome bool) (items : list JSValue)
  : Outcome (list JSValue) :=
  match items with
  | [] => Return []
  | x :: rest =>
      obind (p x) (fun keep =>
      obind (filter_items p rest) (fun kept =>
      Return (if keep then x :: kept else kept)))
  end.

(** [routes.filter(p)], [routes.forEach(f)], [routes.map(f)]: the items of
    an array, a TypeError for anything else. *)
Definition array_items (method : string) (arr : JSValue) : Outcome (list JSValue) :=
  match arr with
  | VArr items => Return items
  | VUndefined =>
      Throw (new_TypeError ("Cannot read properties of undefined (reading '"
                            ++ method ++ "')"))
  | VNull =>
      Throw (new_TypeError ("Cannot read properties of null (reading '" ++ method ++ "')"))
  | _ => Throw (new_TypeError ("routes." ++ method ++ " is not a function"))
  end.

Definition array_filter (arr : JSValue) (p : JSValue -> Outcome bool) : Outcome JSValue :=
  obind (array_items "filter" arr) (fun items =>
  obind (filter_items p items) (fun kept => Return (VArr kept))).

(** [v.includes(needle)] for v = r.key: a substring of a string, a member
    of an array. *)
Definition call_includes (key : string) (v : JSValue) (needle : option string)
  : Outcome bool :=
  match v with
  | VStr s => Return (includes s (template needle))
  | VArr items => Return (existsb (fun x => strict_equal x needle) items)
  | VUndefined =>
      Throw (new_TypeError "Cannot read properties of undefined (reading 'includes')")
  | VNull => Throw (new_TypeError "Cannot read properties of null (reading 'includes')")
  | _ => Throw (new_TypeError ("r." ++ key ++ ".includes is not a function"))
  end.

(** [v.startsWith(prefix)] for v = r.key *)
Definition call_startsWith (key : string) (v : JSValue) (prefix : string) : Outcome bool :=
  match v with
  | VStr s => Return (startsWith prefix s)
  | VUndefined =>
      Throw (new_TypeError "Cannot read properties of undefined (reading 'startsWith')")
  | VNull => Throw (new_TypeError "Cannot read properties of null (reading 'startsWith')")
  | _ => Throw (new_TypeError ("r." ++ key ++ ".startsWith is not a function"))
  end.

(** [r.key && r.key.includes(needle)], as a filter reads it. *)
Definition has_including (r : JSValue) (key : string) (needle : option string)
  : Outcome bool :=
  obind (getprop r key) (fun v =>
  if truthy v then call_includes key v needle else Return false).

(** [r.key && r.key.startsWith(prefix)] *)
Definition has_prefix (r : JSValue) (key prefix : string) : Outcome bool :=
  obind (getprop r key) (fun v =>
  if truthy v then call_startsWith key v prefix else Return false).

(** [r.key === value] *)
Definition has_equal (r : JSValue) (key : string) (value : option string) : Outcome bool :=
  obind (getprop r key) (fun v => Return (strict_equal v value)).

(** The text App, backslash, domain, backslash of the domain filters. *)
Definition domain_marker (domain : option string) : string :=
  "App" ++ backslash ++ template domain ++ backslash.

(** [if (domain) routes = routes.filter(r => r.action && r.action.includes(marker))] *)
Definition filter_domain (domain : option string) (routes : JSValue) : Outcome JSValue :=
  if is_truthy_string domain
  then array_filter routes (fun r => has_including r "action" (Some (domain_marker domain)))
  else Return routes.

(** ** find_routes_for_controller *)

Definition controller_route (r : JSValue) : Outcome JSValue :=
  obind (getprop r "method") (fun method =>
  obind (getprop r "uri") (fun uri =>
  obind (getprop r "name") (fun name =>
  obind (getprop r "action") (fun action =>
  obind (getprop r "middleware") (fun middleware =>
  Return (VObj [ ("method", method);
                 ("uri", uri);
                 ("route_name", js_or name VNull);
                 ("action", action);
                 ("middleware", js_or middleware (VArr [])) ])))))).

(** The handler after [await this.getRoutes()]. *)
Definition routes_for_controller (a : Arguments) (routes : JSValue) : Outcome Envelope :=
  let controller_name := field "controller_name" a in
  let domain := field "domain" a in
  obind (array_filter routes (fun r => has_including r "action" controller_name))
        (fun filteredRoutes =>
  obind (filter_domain domain filteredRoutes) (fun filteredRoutes =>
  obind (array_items "map" filteredRoutes) (fun items =>
  obind (map_items controller_route items) (fun entries =>
  Return (reply (Stringified
    (VObj [ ("controller_name", VOpt controller_name);
            ("domain", VStr (or_string domain "all domains"));
            ("total_routes", VInt (List.length items));
            ("routes", VArr entries) ]))))))).

Definition findRoutesForController (args : option Arguments) : M Envelope :=
  a <- lift (fun _ => destructure "controller_name" args) ;;
  routes <- getRoutes ;;
  lift (fun _ => routes_for_controller a routes).

(** ** list_all_routes *)

(** The decimal value of a key that is a canonical array index: digits
    with no leading zero, below 2^32 - 1. *)
Fixpoint digits_value (s : string) (acc : N) : option N :=
  match s with
  | EmptyString => Some acc
  | String c rest =>
      let n := nat_of_ascii c in
      if Nat.leb 48 n && Nat.leb n 57
      then digits_value rest (10 * acc + N.of_nat (n - 48))%N
      else None
  end.

Definition array_index (key : string) : option N :=
  match key with
  | EmptyString => None
  | String "0" EmptyString => Some 0%N
  | String "0" (String _ _) => None
  | String _ _ =>
      if Nat.leb (String.length key) 10
      then match digits_value key 0%N with
           | Some n => if (n <? 4294967295)%N then Some n else None
           | None => None
           end
      else None
  end.

(** A new own property: the array indices first, in ascending order, then
    the other keys in the order of their creation. *)
Fixpoint add_property (key : string) (value : JSValue) (fields : list (string * JSValue))
  : list (string * JSValue) :=
  match fields with
  | [] => [(key, value)]
  | (k, v) :: rest =>
      match array_index key, array_index k with
      | Some n, Some m =>
          if (n <? m)%N then (key, value) :: (k, v) :: rest
          else (k, v) :: add_property key value rest
      | Some _, None => (key, value) :: (k, v) :: rest
      | None, _ => (k, v) :: add_property key value rest
      end
  end.

Fixpoint replace_property (key : string) (value : JSValue) (fields : list (string * JSValue))
  : list (string * JSValue) :=
  match fields with
  | [] => []
  | (k, v) :: rest =>
      if String.eqb k key then (k, value) :: rest
      else (k, v) :: replace_property key value rest
  end.

(** The names Object.prototype has. *)
Definition prototype_names : list string :=
  [ "constructor"; "__defineGetter__"; "__defineSetter__"; "hasOwnProperty";
    "__lookupGetter__"; "__lookupSetter__"; "isPrototypeOf"; "propertyIsEnumerable";
    "toString"; "valueOf"; "__proto__"; "toLocaleString" ].

Definition inherited (key : string) : bool := existsb (String.eqb key) prototype_names.

(** [v + 1] for what a counter holds: a number, or the text it became. *)
Definition plus_one (p : Platform) (v : JSValue) : JSValue :=
  match v with
  | VNum (JInteger n) => VNum (JInteger (n + 1))
  | VNum other => VNum other
  | VStr s => VStr (s ++ "1")
  | VBool b => VNum (JInteger (if b then 2 else 1))
  | VUndefined => VNum JNaN
  | VNull => VNum (JInteger 1)
  | other => VStr (String_of p other ++ "1")
  end.

(** [counts[key] = (counts[key] || 0) + 1] on an object created as {}: an
    own property is read if there is one, else the member of
    Object.prototype of that name if there is one; the assignment to
    __proto__ of a value that is no object stores nothing. *)
Definition count_up (p : Platform) (key : string) (counts : list (string * JSValue))
  : list (string * JSValue) :=
  match lookup key counts with
  | Some v => replace_property key (plus_one p (js_or v (VNum (JInteger 0)))) counts
  | None =>
      if inherited key then
        if String.eqb key "__proto__" then counts
        else add_property key (VStr (native_plus_one p key)) counts
      else add_property key (VNum (JInteger 1)) counts
  end.

(** The key a value names in [counts[value]]. *)
Definition property_key (p : Platform) (v : JSValue) : string :=
  match v with
  | VStr s => s
  | other => String_of p other
  end.

(** The body of [routes.forEach], on the pair (byMethod, byDomain). *)
Definition tally (p : Platform) (acc : list (string * JSValue) * list (string * JSValue))
  (r : JSValue) : Outcome (list (string * JSValue) * list (string * JSValue)) :=
  obind (getprop r "method") (fun method =>
  let byMethod := count_up p (property_key p method) (fst acc) in
  obind (getprop r "action") (fun action =>
  obind (call_extractDomain action) (fun d =>
  Return (byMethod,
          match d with
          | Some (String c rest) => count_up p (String c rest) (snd acc)
          | _ => snd acc
          end)))).

Fixpoint tally_all (p : Platform) (items : list JSValue)
  (acc : list (string * JSValue) * list (string * JSValue))
  : Outcome (list (string * JSValue) * list (string * JSValue)) :=
  match items with
  | [] => Return acc
  | r :: rest => obind (tally p acc r) (tally_all p rest)
  end.

(** The entry of a route in list_all_routes, list_api_endpoints and
    find_endpoint_details. *)
Definition route_entry (r : JSValue) : Outcome JSValue :=
  obind (getprop r "method") (fun method =>
  obind (getprop r "uri") (fun uri =>
  obind (getprop r "name") (fun name =>
  obind (getprop r "action") (fun action =>
  obind (getprop r "middleware") (fun middleware =>
  obind (call_extractDomain action) (fun domain =>
  Return (VObj [ ("method", method);
                 ("uri", uri);
                 ("name", js_or name VNull);
                 ("controller", action);
                 ("middleware", js_or middleware (VArr []));
                 ("domain", VDomain domain) ]))))))).

Definition filter_method (method : option string) (routes : JSValue) : Outcome JSValue :=
  if is_truthy_string method
  then array_filter routes (fun r => has_equal r "method" method)
  else Return routes.

Definition filter_middleware (middleware : option string) (routes : JSValue)
  : Outcome JSValue :=
  if is_truthy_string middleware
  then array_filter routes (fun r => has_including r "middleware" middleware)
  else Return routes.

Definition filter_prefix (prefix : option string) (routes : JSValue) : Outcome JSValue :=
  if is_truthy_string prefix
  then array_filter routes (fun r => has_prefix r "uri" (template prefix))
  else Return routes.

(** The handler after [await this.getRoutes()]. *)
Definition all_routes (p : Platform) (a : Arguments) (routes : JSValue) : Outcome Envelope :=
  let domain := field "domain" a in
  let method := field "method" a in
  let middleware := field "middleware" a in
  let prefix := field "prefix" a in
  obind (filter_domain domain routes) (fun routes =>
  obind (filter_method method routes) (fun routes =>
  obind (filter_middleware middleware routes) (fun routes =>
  obind (filter_prefix prefix routes) (fun routes =>
  obind (array_items "forEach" routes) (fun items =>
  obind (tally_all p items ([], [])) (fun counts =>
  obind (map_items route_entry items) (fun entries =>
  Return (reply (Stringified
    (VObj [ ("total_routes", VInt (List.length items));
            ("filters_applied",
             VObj [ ("domain", VOpt domain); ("method", VOpt method);
                    ("middleware", VOpt middleware); ("prefix", VOpt prefix) ]);
            ("summary",
             VObj [ ("by_method", VObj (fst counts));
                    ("by_domain", VObj (snd counts)) ]);
            ("routes", VArr entries) ])))))))))).

Definition listAllRoutes (p : Platform) (args : option Arguments) : M Envelope :=
  a <- lift (fun _ => destructure "domain" args) ;;
  routes <- getRoutes ;;
  lift (fun _ => all_routes p a routes).

(** ** list_api_endpoints *)

(** The handler after [await this.getRoutes()]. *)
Definition api_endpoints (a : Arguments) (routes : JSValue) : Outcome Envelope :=
  let domain := field "domain" a in
  let prefix := field "prefix" a in
  let apiPrefix := or_string prefix "/async" in
  obind (array_filter routes (fun r => has_prefix r "uri" apiPrefix)) (fun routes =>
  obind (filter_domain domain routes) (fun routes =>
  obind (array_items "map" routes) (fun items =>
  obind (map_items route_entry items) (fun endpoints =>
  Return (reply (Stringified
    (VObj [ ("prefix", VStr apiPrefix);
            ("domain", VStr (or_string domain "all domains"));
            ("total_endpoints", VInt (List.length endpoints));
            ("endpoints", VArr endpoints) ]))))))).

Definition listApiEndpoints (args : option Arguments) : M Envelope :=
  a <- lift (fun _ => destructure "domain" args) ;;
  routes <- getRoutes ;;
  lift (fun _ => api_endpoints a routes).

(** ** find_endpoint_details *)

(** The handler after [await this.getRoutes()]. *)
Definition endpoint_details (a : Arguments) (routes : JSValue) : Outcome Envelope :=
  let uri := field "uri" a in
  let route_name := field "route_name" a in
  obind (if is_truthy_string uri
         then array_find routes (fun r => has_equal r "uri" uri)
         else array_find routes (fun r => has_equal r "name" route_name)) (fun route =>
  if negb (truthy route) then Throw (new_Error "Endpoint not found")
  else
    obind (route_entry route) (fun endpoint =>
    Return (reply (Stringified (VObj [ ("endpoint", endpoint) ]))))).

Definition findEndpointDetails (args : option Arguments) : M Envelope :=
  a <- lift (fun _ => destructure "uri" args) ;;
  if negb (is_truthy_string (field "uri" a)) && negb (is_truthy_string (field "route_name" a))
  then throw (new_Error "Either uri or route_name must be provided")
  else
    routes <- getRoutes ;;
    lift (fun _ => endpoint_details a routes).

(** ** find_related_files *)

(** The category filters of find_related_files, in the order of its
    [files] object. *)
Definition related_rules : list (string * (string -> bool)) :=
  [ ("controllers", fun f => includes f "Controller");
    ("repositories", fun f => includes f "Repository" && negb (includes f "Interface"));
    ("repository_interfaces", fun f => includes f "Repository" && includes f "Interface");
    ("transformers", fun f => includes f "Transformer");
    ("models", fun f => includes f "/Models/");
    ("entities", fun f => includes f "/Entities/");
    ("requests", fun f => includes f "Request");
    ("services", fun f => includes f "Service") ].

Definition related_buckets (files testFiles : list string) : list (string * list string) :=
  (map (fun rule => (fst rule, filter (snd rule) files)) related_rules
   ++ [("tests", testFiles)])%list.

Definition related_search_path (w : World) (domain : option string) : string :=
  if is_truthy_string domain
  then path_join w [O2O_BASE_PATH w; "app"; template domain]
  else path_join w [O2O_BASE_PATH w; "app"].

Definition related_files (w : World) (entity_name domain : option string) : list string :=
  globSync w ("**/*" ++ template entity_name ++ "*.php")
           (mkGlobOptions (Some (related_search_path w domain)) true php_ignore).

Definition related_tests (w : World) (entity_name : option string) : list string :=
  globSync w ("**/*" ++ template entity_name ++ "*Test.php")
           (mkGlobOptions (Some (path_join w [O2O_BASE_PATH w; "tests"])) true []).

Definition relativeRelated (w : World) (entity_name domain : option string)
  (files testFiles : list string) : JSValue :=
  let related :=
    [ ("entity_name", VOpt entity_name);
      ("search_domain", VStr (or_string domain "all domains"));
      ("total_files", VInt (List.length files + List.length testFiles));
      ("files", buckets_object (fun l => l) (related_buckets files testFiles)) ] in
  VObj (override "files"
                 (buckets_object (relativizeArray w) (related_buckets files testFiles))
                 related).

Definition findRelatedFiles (args : option Arguments) (w : World) : Outcome Envelope :=
  obind (destructure "entity_name" args) (fun a =>
  let entity_name := field "entity_name" a in
  let domain := field "domain" a in
  let searchPath := related_search_path w domain in
  if negb (existsSync w searchPath) then
    Throw (new_Error ("Search path not found: " ++ searchPath))
  else
    Return (reply (Stringified
                     (relativeRelated w entity_name domain
                                      (related_files w entity_name domain)
                                      (related_tests w entity_name))))).

(** ** find_tests_for_file *)

(** The chain of tests on the path that names the file type. *)
Definition file_type_of (file_path : string) : string :=
  if includes file_path "Controller" then "controller"
  else if includes file_path "Repository" then "repository"
  else if includes file_path "Model" then "model"
  else if includes file_path "Service" then "service"
  else if includes file_path "Transformer" then "transformer"
  else if endsWith file_path ".vue" then "component"
  else "unknown".

Definition absolute_in_base (w : World) : GlobOptions :=
  mkGlobOptions (Some (O2O_BASE_PATH w)) true [].

Definition found_unit (w : World) (className : string) : list string :=
  globSync w ("tests/Unit/**/*" ++ className ++ "*Test.php") (absolute_in_base w).

Definition found_feature (w : World) (className : string) : list string :=
  globSync w ("tests/Feature/**/*" ++ className ++ "*Test.php") (absolute_in_base w).

Definition found_cypress (w : World) (className : string) : list string :=
  globSync w ("cypress/e2e/**/*" ++ className ++ "*.cy.js") (absolute_in_base w).

Definition found_component (w : World) (className : string) : list string :=
  globSync w ("app/**/UI/resources/js/components/**/__tests__/*" ++ className ++ "*.cy.js")
           (absolute_in_base w).

(** The test files found for a class, each with its test type, in the
    order in which they are pushed. *)
Definition tests_found (w : World) (className fileType : string) : list (string * string) :=
  (map (fun f => ("unit", f)) (found_unit w className)
   ++ map (fun f => ("feature", f)) (found_feature w className)
   ++ map (fun f => ("cypress", f)) (found_cypress w className)
   ++ (if String.eqb fileType "component"
       then map (fun f => ("cypress", f)) (found_component w className)
       else []))%list.

Definition test_entry (w : World) (t : string * string) : JSValue :=
  VObj [ ("test_file", VStr (relativePath w (snd t)));
         ("test_type", VStr (fst t));
         ("test_class", if String.eqb (fst t) "cypress" then VNull
                        else VStr (extractClassName w (snd t)));
         ("line_count", VInt (countLines w (snd t))) ].

(** [tests.some(t => t.test_type === kind)] *)
Definition some_of_type (kind : string) (tests : list (string * string)) : bool :=
  existsb (fun t => String.eqb (fst t) kind) tests.

Definition findTestsForFile (args : option Arguments) (w : World) : Outcome Envelope :=
  obind (destructure "file_path" args) (fun a =>
  match field "file_path" a with
  | None =>
      Throw (new_TypeError
               ("The " ++ dquote ++ "path" ++ dquote
                ++ " argument must be of type string. Received undefined"))
  | Some file_path =>
      let className := extractClassName w file_path in
      let fileType := file_type_of file_path in
      let tests := tests_found w className fileType in
      Return (reply (Stringified
        (VObj [ ("source_file", VStr file_path);
                ("file_type", VStr fileType);
                ("tests", VArr (map (test_entry w) tests));
                ("coverage_summary",
                 VObj [ ("has_unit_tests", VBool (some_of_type "unit" tests));
                        ("has_feature_tests", VBool (some_of_type "feature" tests));
                        ("has_e2e_tests", VBool (some_of_type "cypress" tests));
                        ("total_test_count", VInt (List.length tests)) ]) ])))
  end).

(** ** get_test_structure_info *)

Definition base_class (class_name file domain : string) : JSValue :=
  VObj [ ("class_name", VStr class_name); ("file", VStr file); ("domain", VStr domain) ].

Definition getTestStructureInfo : Outcome Envelope :=
  Return (reply (Stringified
    (VObj [ ("test_base_classes",
             VArr [ base_class "BikerTestCase" "tests/BikerTestCase.php" "Customer";
                    base_class "DealerTestCase" "tests/DealerTestCase.php" "Dealer";
                    base_class "FleetTestCase" "tests/FleetTestCase.php" "Employer";
                    base_class "UnifiedTestCase" "tests/UnifiedTestCase.php" "Core";
                    base_class "TestCase" "tests/TestCase.php" "All" ]);
            ("test_directories",
             VObj [ ("unit", VStr "tests/Unit");
                    ("feature", VStr "tests/Feature");
                    ("e2e", VStr "cypress/e2e") ]);
            ("test_naming_conventions",
             VObj [ ("unit_tests", VStr "tests/Unit/{Domain}/{Class}Test.php");
                    ("feature_tests", VStr "tests/Feature/{Domain}/{Feature}Test.php");
                    ("cypress_tests",
                     VStr "cypress/e2e/{domain}/specs/{feature}/{Test}.cy.js");
                    ("component_tests",
                     VStr "app/{Domain}/UI/resources/js/components/**/__tests__/*.cy.js") ]);
            ("test_commands",
             VObj [ ("run_all", VStr "vendor/bin/sail test");
                    ("run_specific", VStr "vendor/bin/sail test <path>");
                    ("run_cypress_smoke", VStr "npm run smoketest");
                    ("run_cypress_all", VStr "npm run test") ]) ]))).

(** ** find_unused_components *)

Definition import_pattern (componentName : string) : string :=
  "import.*" ++ componentName ++ ".*from".

(** The inner loop: is the component imported by a Vue file other than
    itself?  The files are read one by one and the loop breaks at the first
    that imports it. *)
Fixpoint imported_elsewhere (w : World) (componentName componentFile : string)
  (allVueFiles : list string) : Outcome bool :=
  match allVueFiles with
  | [] => Return false
  | vueFile :: rest =>
      if String.eqb vueFile componentFile
      then imported_elsewhere w componentName componentFile rest
      else
        obind (readFileSync w vueFile) (fun content =>
        obind (RegExp_test w (import_pattern componentName) "i" content) (fun hit =>
        if hit then Return true
        else imported_elsewhere w componentName componentFile rest))
  end.

Definition unused_entry (p : Platform) (w : World) (componentFile : string)
  : Outcome JSValue :=
  obind (statSync_mtime p componentFile) (fun last_modified =>
  Return (VObj [ ("component_name", VStr (extractClassName w componentFile));
                 ("file", VStr (relativePath w componentFile));
                 ("domain", VDomain (extractDomain componentFile));
                 ("last_modified", VStr last_modified);
                 ("lines_of_code", VInt (countLines w componentFile)) ])).

(** The outer loop, on the pair (unusedComponents, usedCount). *)
Fixpoint unused_loop (p : Platform) (w : World) (allVueFiles componentFiles : list string)
  (acc : list JSValue * nat) : Outcome (list JSValue * nat) :=
  match componentFiles with
  | [] => Return acc
  | componentFile :: rest =>
      obind (imported_elsewhere w (extractClassName w componentFile) componentFile
                                allVueFiles) (fun isUsed =>
      if isUsed then unused_loop p w allVueFiles rest (fst acc, S (snd acc))
      else
        obind (unused_entry p w componentFile) (fun entry =>
        unused_loop p w allVueFiles rest ((fst acc ++ [entry])%list, snd acc)))
  end.

Definition component_files (w : World) (domain : option string) : list string :=
  globSync w "**/*.vue"
    (mkGlobOptions
       (Some (if is_truthy_string domain
              then path_join w [O2O_BASE_PATH w;
                                "app/" ++ template domain ++ "/UI/resources/js/components"]
              else path_join w [O2O_BASE_PATH w; "app/**/UI/resources/js/components"]))
       true ["**/Shared/**"; "**/Layout/**"]).

Definition findUnusedComponents (p : Platform) (args : option Arguments) (w : World)
  : Outcome Envelope :=
  obind (destructure "domain" args) (fun a =>
  let domain := field "domain" a in
  let componentFiles := component_files w domain in
  obind (unused_loop p w (all_vue_files w) componentFiles ([], 0)) (fun found =>
  Return (reply (Stringified
    (VObj [ ("domain", VStr (or_string domain "all domains"));
            ("unused_components", VArr (fst found));
            ("summary",
             VObj [ ("total_components", VInt (List.length componentFiles));
                    ("used_components", VInt (snd found));
                    ("unused_components", VInt (List.length (fst found))) ]) ]))))).

(** ** list_inertia_pages *)

Definition line_terminator (c : ascii) : bool :=
  Ascii.eqb c newline || Ascii.eqb c "013".

Fixpoint no_line_terminator (s : string) : bool :=
  match s with
  | EmptyString => true
  | String c rest => negb (line_terminator c) && no_line_terminator rest
  end.

(** The capture of /(.+)\.vue$/ matched from the start of [s]: all of [s]
    but its last four characters, which are .vue; at least one character,
    none of them a line terminator. *)
Definition before_vue (s : string) : option string :=
  let n := String.length s - 4 in
  if endsWith s ".vue" && Nat.ltb 0 n && no_line_terminator (String.substring 0 n s)
  then Some (String.substring 0 n s)
  else None.

(** [relativePath.match(/pages\/(.+)\.vue$/)]: the capture at the leftmost
    place where the pattern matches, or null. *)
Fixpoint page_name_of (relativePath : string) : option string :=
  match (if startsWith "pages/" relativePath then before_vue (drop 6 relativePath)
         else None) with
  | Some name => Some name
  | None =>
      match relativePath with
      | EmptyString => None
      | String _ rest => page_name_of rest
      end
  end.

Definition page_files (w : World) (domain : option string) : list string :=
  globSync w "**/*.vue"
    (mkGlobOptions
       (Some (if is_truthy_string domain
              then path_join w [O2O_BASE_PATH w;
                                "app/" ++ template domain ++ "/UI/resources/js/pages"]
              else path_join w [O2O_BASE_PATH w; "app/**/UI/resources/js/pages"]))
       true []).

Definition page_entry (w : World) (pageFile : string) : JSValue :=
  VObj [ ("domain", VDomain (extractDomain pageFile));
         ("page_name", VDomain (page_name_of (relativePath w pageFile)));
         ("file_path", VStr (relativePath w pageFile)) ].

Definition listInertiaPages (args : option Arguments) (w : World) : Outcome Envelope :=
  obind (destructure "domain" args) (fun a =>
  let domain := field "domain" a in
  let pages := map (page_entry w) (page_files w domain) in
  Return (reply (Stringified
    (VObj [ ("domain", VStr (or_string domain "all domains"));
            ("total_pages", VInt (List.length pages));
            ("pages", VArr pages) ])))).

(** ** find_page_props *)

Definition quote_class : string := "['" ++ dquote ++ "]".

Definition render_pattern (page_name : option string) : string :=
  "Inertia::render" ++ backslash ++ "(" ++ quote_class ++ template page_name ++ quote_class.

(** The loop over the controllers: those whose content matches the render
    pattern, in order. *)
Fixpoint controllers_rendering (w : World) (page_name : option string)
  (controllerFiles : list string) : Outcome (list JSValue) :=
  match controllerFiles with
  | [] => Return []
  | controllerFile :: rest =>
      obind (readFileSync w controllerFile) (fun content =>
      obind (RegExp_test w (render_pattern page_name) "i" content) (fun hit =>
      obind (controllers_rendering w page_name rest) (fun others =>
      Return (if hit
              then VObj [ ("controller", VStr (relativePath w controllerFile));
                          ("class_name", VStr (extractClassName w controllerFile)) ]
                   :: others
              else others))))
  end.

Definition findPageProps (args : option Arguments) (w : World) : Outcome Envelope :=
  obind (destructure "page_name" args) (fun a =>
  let page_name := field "page_name" a in
  match globSync w ("app/**/UI/resources/js/pages/" ++ template page_name ++ ".vue")
                 (absolute_in_base w) with
  | [] => Throw (new_Error ("Page '" ++ template page_name ++ "' not found"))
  | pageFile :: _ =>
      obind (controllers_rendering w page_name
               (globSync w "app/**/*Controller.php" (absolute_in_base w)))
            (fun controllersUsingPage =>
      Return (reply (Stringified
        (VObj [ ("page_name", VOpt page_name);
                ("page_file", VStr (relativePath w pageFile));
                ("controllers_using_page", VArr controllersUsingPage) ]))))
  end).

(** ** find_table_usage *)

Definition table_pattern (table_name : option string) : string :=
  "protected" ++ backslash ++ "s+" ++ backslash ++ "$table" ++ backslash ++ "s*="
  ++ backslash ++ "s*" ++ quote_class ++ template table_name ++ quote_class.

(** The first loop: the first model file whose content matches the table
    pattern; the files after it are not read. *)
Fixpoint model_of_table (w : World) (table_name : option string) (modelFiles : list string)
  : Outcome (option string) :=
  match modelFiles with
  | [] => Return None
  | file :: rest =>
      obind (readFileSync w file) (fun content =>
      obind (RegExp_test w (table_pattern table_name) EmptyString content) (fun hit =>
      if hit then Return (Some file) else model_of_table w table_name rest))
  end.

Definition table_call (table_name : option string) : string :=
  "DB::table('" ++ template table_name ++ "')".

(** The second loop: the files whose content holds the DB::table call. *)
Fixpoint direct_queries (w : World) (table_name : option string) (phpFiles : list string)
  : Outcome (list JSValue) :=
  match phpFiles with
  | [] => Return []
  | file :: rest =>
      obind (readFileSync w file) (fun content =>
      obind (direct_queries w table_name rest) (fun others =>
      Return (if includes content (table_call table_name)
              then VObj [ ("file", VStr (relativePath w file));
                          ("query_type", VStr "query_builder") ] :: others
              else others)))
  end.

Definition findTableUsage (args : option Arguments) (w : World) : Outcome Envelope :=
  obind (destructure "table_name" args) (fun a =>
  let table_name := field "table_name" a in
  obind (model_of_table w table_name
           (globSync w "app/**/Models/**/*.php" (absolute_in_base w))) (fun modelFile =>
  obind (direct_queries w table_name
           (globSync w "app/**/*.php"
                     (mkGlobOptions (Some (O2O_BASE_PATH w)) true ["**/vendor/**"])))
        (fun directQueries =>
  let found :=
    globSync w ("database/migrations/**/*" ++ template table_name ++ "*.php")
             (absolute_in_base w) in
  Return (reply (Stringified
    (VObj [ ("table_name", VOpt table_name);
            ("model", match modelFile with
                      | Some (String c rest) =>
                          VObj [ ("file", VStr (relativePath w (String c rest)));
                                 ("class_name",
                                  VStr (extractClassName w (String c rest))) ]
                      | _ => VNull
                      end);
            ("direct_queries", VArr directQueries);
            ("migrations",
             VArr (map (fun m => VObj [ ("file", VStr (relativePath w m));
                                        ("migration_name",
                                         VStr (extractClassName w m)) ])
                       found)) ])))))).

(** ** find_eloquent_scopes *)

(** [\w] *)
Definition word_char (c : ascii) : bool :=
  let n := nat_of_ascii c in
  (Nat.leb 48 n && Nat.leb n 57) || (Nat.leb 65 n && Nat.leb n 90)
  || (Nat.leb 97 n && Nat.leb n 122) || Nat.eqb n 95.

(** The longest prefix of characters that satisfy [p], and what follows. *)
Fixpoint span (p : ascii -> bool) (s : string) : string * string :=
  match s with
  | EmptyString => (EmptyString, EmptyString)
  | String c rest =>
      if p c then let (taken, left) := span p rest in (String c taken, left)
      else (EmptyString, s)
  end.

Definition after_literal (literal s : string) : option string :=
  if startsWith literal s then Some (drop (String.length literal) s) else None.

(** At least one white space character, then the rest. *)
Definition after_spaces (s : string) : option string :=
  match span is_space s with
  | (EmptyString, _) => None
  | (_, rest) => Some rest
  end.

(** /public\s+function\s+(scope\w+)\s*\(/ matched at the start of [s]: the
    captured method name and the length of the match.  Every repetition
    takes all it can; giving characters back never helps, as the character
    that follows a shorter repetition is one of its own class. *)
Definition scope_here (s : string) : option (string * nat) :=
  match after_literal "public" s with
  | None => None
  | Some s1 =>
  match after_spaces s1 with
  | None => None
  | Some s2 =>
  match after_literal "function" s2 with
  | None => None
  | Some s3 =>
  match after_spaces s3 with
  | None => None
  | Some s4 =>
  match after_literal "scope" s4 with
  | None => None
  | Some s5 =>
  match span word_char s5 with
  | (EmptyString, _) => None
  | (suffix, s6) =>
  match snd (span is_space s6) with
  | String "(" s7 => Some ("scope" ++ suffix, String.length s - String.length s7)
  | _ => None
  end end end end end end end.

(** The loop [while ((match = scopeRegex.exec(content)) !== null)]: the
    captures of the successive matches; [skip] characters of a match just
    found are still to be passed over. *)
Fixpoint scope_methods (content : string) (skip : nat) : list string :=
  match content with
  | EmptyString => []
  | String _ rest =>
      match skip with
      | S n => scope_methods rest n
      | O =>
          match scope_here content with
          | Some (method, len) => method :: scope_methods rest (len - 1)
          | None => scope_methods rest 0
          end
      end
  end.

Definition scope_entry (method_name : string) : JSValue :=
  VObj [ ("scope_name", VStr (toLowerCase (replace method_name "scope" EmptyString)));
         ("method_name", VStr method_name) ].

Definition findEloquentScopes (args : option Arguments) (w : World) : Outcome Envelope :=
  obind (destructure "model_name" args) (fun a =>
  let model_name := field "model_name" a in
  let domain := field "domain" a in
  let searchPath :=
    if is_truthy_string domain
    then path_join w [O2O_BASE_PATH w; "app/" ++ template domain]
    else path_join w [O2O_BASE_PATH w; "app"] in
  match globSync w ("**/Models/**/" ++ template model_name ++ ".php")
                 (mkGlobOptions (Some searchPath) true []) with
  | [] => Throw (new_Error ("Model '" ++ template model_name ++ "' not found"))
  | modelFile :: _ =>
      obind (readFileSync w modelFile) (fun content =>
      let scopes := map scope_entry (scope_methods content 0) in
      Return (reply (Stringified
        (VObj [ ("model_name", VOpt model_name);
                ("model_path", VStr (relativePath w modelFile));
                ("scopes", VArr scopes);
                ("total_scopes", VInt (List.length scopes)) ]))))
  end).

(** ** run_phpstan *)

Definition phpstan_report (targetPath : option string) (output : string) : Envelope :=
  reply (Plain ("PHPStan analysis for " ++ template targetPath ++ ":"
                ++ String newline (String newline EmptyString) ++ output)).

(** [error.stdout || error.message || String(error)] *)
Definition phpstan_output (p : Platform) (error : Exception) : string :=
  match stdout_of p error with
  | Some (String c rest) => String c rest
  | _ =>
      match error with
      | ErrorObject _ (String c rest) => String c rest
      | _ => String_of_exception error
      end
  end.

Definition runPhpstan (p : Platform) (args : option Arguments) : M Envelope :=
  a <- lift (fun _ => destructure "path" args) ;;
  let targetPath := field "path" a in
  fullPath <- lift (fun w => js_path_join w [Some (O2O_BASE_PATH w); targetPath]) ;;
  found <- ask (fun w => existsSync w fullPath) ;;
  if negb found then throw (new_Error ("Path not found: " ++ template targetPath))
  else
    try_catch
      (output <- exec ("./vendor/bin/phpstan analyse " ++ template targetPath) 30000 ;;
       ret (phpstan_report targetPath output))
      (fun error => ret (phpstan_report targetPath (phpstan_output p error))).

(** ** find_service_chain *)

(** [JSON.parse(JSON.stringify(v, null, 2))] for an object or an array: a
    property that is undefined is left out, an undefined item and a number
    that is not finite come back as null. *)
Fixpoint reparse (v : JSValue) : JSValue :=
  match v with
  | VNum JNaN => VNull
  | VNum (JInfinity _) => VNull
  | VArr items =>
      VArr (map (fun x => match x with
                          | VUndefined => VNull
                          | _ => reparse x
                          end) items)
  | VObj fields =>
      VObj ((fix properties (fs : list (string * JSValue)) : list (string * JSValue) :=
               match fs with
               | [] => []
               | (k, x) :: rest =>
                   match x with
                   | VUndefined => properties rest
                   | _ => (k, reparse x) :: properties rest
                   end
               end) fields)
  | other => other
  end.

(** [JSON.parse(result.content[0].text)] *)
Definition parse_text (w : World) (t : Text) : Outcome JSValue :=
  match t with
  | Stringified v => Return (reparse v)
  | Plain s => JSON_parse w s
  end.

(** The strings of an array of file names. *)
Fixpoint strings_of (items : list JSValue) : Outcome (list string) :=
  match items with
  | [] => Return []
  | VStr s :: rest => obind (strings_of rest) (fun l => Return (s :: l))
  | _ :: _ => Throw (new_TypeError "file.includes is not a function")
  end.

(** [relatedData.files.<bucket>], an array of file names. *)
Definition related_bucket (relatedData : JSValue) (name : string) : Outcome (list string) :=
  obind (getprop relatedData "files") (fun files =>
  obind (getprop files name) (fun found =>
  obind (array_items "map" found) strings_of)).

(** [r.action && r.action.toLowerCase().includes(entity_name.toLowerCase())] *)
Definition mentions_entity (entity_name : option string) (r : JSValue) : Outcome bool :=
  obind (getprop r "action") (fun action =>
  if truthy action then
    match action with
    | VStr s =>
        match entity_name with
        | Some e => Return (includes (toLowerCase s) (toLowerCase e))
        | None =>
            Throw (new_TypeError
                     "Cannot read properties of undefined (reading 'toLowerCase')")
        end
    | _ => Throw (new_TypeError "r.action.toLowerCase is not a function")
    end
  else Return false).

Definition chain_route (r : JSValue) : Outcome JSValue :=
  obind (getprop r "method") (fun method =>
  obind (getprop r "uri") (fun uri =>
  obind (getprop r "name") (fun name =>
  Return (VObj [ ("method", method); ("uri", uri); ("route_name", js_or name VNull) ])))).

Definition chain_controller (w : World) (entityRoutes : list JSValue) (file : string)
  : Outcome JSValue :=
  let className := extractClassName w file in
  obind (filter_items (fun r => has_including r "action" (Some className)) entityRoutes)
        (fun controllerRoutes =>
  obind (map_items chain_route controllerRoutes) (fun routes =>
  Return (VObj [ ("file", VStr file);
                 ("class_name", VStr className);
                 ("routes", VArr routes) ]))).

Fixpoint chain_controllers (w : World) (entityRoutes : list JSValue) (files : list string)
  : Outcome (list JSValue) :=
  match files with
  | [] => Return []
  | file :: rest =>
      obind (chain_controller w entityRoutes file) (fun entry =>
      obind (chain_controllers w entityRoutes rest) (fun others =>
      Return (entry :: others)))
  end.

Definition chain_file (w : World) (file : string) : JSValue :=
  VObj [ ("file", VStr file); ("class_name", VStr (extractClassName w file)) ].

Definition chain_repository (w : World) (file : string) : JSValue :=
  VObj [ ("type", VStr (if includes file "/Domain/" then "domain" else "infrastructure"));
         ("file", VStr file);
         ("class_name", VStr (extractClassName w file)) ].

(** The handler after the related files and the routes are at hand. *)
Definition service_chain (w : World) (a : Arguments) (relatedData routes : JSValue)
  : Outcome Envelope :=
  let entity_name := field "entity_name" a in
  let domain := field "domain" a in
  obind (array_items "filter" routes) (fun items =>
  obind (filter_items (mentions_entity entity_name) items) (fun entityRoutes =>
  obind (related_bucket relatedData "models") (fun models =>
  obind (related_bucket relatedData "repositories") (fun repositories =>
  obind (related_bucket relatedData "controllers") (fun controllers =>
  obind (chain_controllers w entityRoutes controllers) (fun controllerEntries =>
  obind (related_bucket relatedData "transformers") (fun transformers =>
  obind (related_bucket relatedData "requests") (fun requests =>
  Return (reply (Stringified
    (VObj [ ("entity_name", VOpt entity_name);
            ("domain", VStr (or_string domain "all domains"));
            ("model", match models with
                      | first :: _ => chain_file w first
                      | [] => VNull
                      end);
            ("repositories", VArr (map (chain_repository w) repositories));
            ("controllers", VArr controllerEntries);
            ("transformers", VArr (map (chain_file w) transformers));
            ("validation_requests", VArr (map (chain_file w) requests)) ]))))))))))).

Definition findServiceChain (args : option Arguments) : M Envelope :=
  a <- lift (fun _ => destructure "entity_name" args) ;;
  relatedResult <- lift (findRelatedFiles (Some a)) ;;
  relatedData <- lift (fun w => parse_text w (text relatedResult)) ;;
  routes <- getRoutes ;;
  lift (fun w => service_chain w a relatedData routes).

(** ** The whole switch *)

(** The handlers of [other_tools], by name; [dispatch] asks for no other
    name. *)
Definition other_handlers (p : Platform) (name : string) (args : option Arguments)
  : M Envelope :=
  if String.eqb name "find_related_files" then lift (findRelatedFiles args)
  else if String.eqb name "run_phpstan" then runPhpstan p args
  else if String.eqb name "find_routes_for_controller" then findRoutesForController args
  else if String.eqb name "list_all_routes" then listAllRoutes p args
  else if String.eqb name "find_service_chain" then findServiceChain args
  else if String.eqb name "find_tests_for_file" then lift (findTestsForFile args)
  else if String.eqb name "get_test_structure_info" then lift (fun _ => getTestStructureInfo)
  else if String.eqb name "find_unused_components" then lift (findUnusedComponents p args)
  else if String.eqb name "list_inertia_pages" then lift (listInertiaPages args)
  else if String.eqb name "find_page_props" then lift (findPageProps args)
  else if String.eqb name "list_api_endpoints" then listApiEndpoints args
  else if String.eqb name "find_endpoint_details" then findEndpointDetails args
  else if String.eqb name "find_table_usage" then lift (findTableUsage args)
  else lift (findEloquentScopes args).

(** The CallTool request handler with all nineteen handlers in place. *)
Definition server (p : Platform) (name : string) (args : option Arguments) : M Envelope :=
  callTool (other_handlers p) name args.

(** ** The tool list *)

(** A tool as ListTools announces it: its name, its properties with the
    values an enum allows, and the properties it requires.  (The
    descriptions are left out.) *)
Record ToolDescriptor : Type := mkTool {
  tool_name : string;
  tool_properties : list (string * option (list string));
  tool_required : list string
}.

Definition tools : list ToolDescriptor :=
  [
    mkTool "query_domain_structure"
           [("domain", Some VALID_DOMAINS)]
           ["domain"];
    mkTool "find_related_files"
           [("entity_name", None); ("domain", Some VALID_DOMAINS)]
           ["entity_name"];
    mkTool "query_database_schema"
           [("table_name", None)]
           ["table_name"];
    mkTool "run_phpstan"
           [("path", None)]
           ["path"];
    mkTool "find_route_by_name"
           [("route_name", None)]
           ["route_name"];
    mkTool "find_routes_for_controller"
           [("controller_name", None); ("domain", Some VALID_DOMAINS)]
           ["controller_name"];
    mkTool "list_all_routes"
           [("domain", Some VALID_DOMAINS); ("method", Some ["GET"; "POST"; "PUT"; "PATCH"; "DELETE"]); ("middleware", None); ("prefix", None)]
           [];
    mkTool "find_service_chain"
           [("entity_name", None); ("domain", Some VALID_DOMAINS)]
           ["entity_name"];
    mkTool "find_tests_for_file"
           [("file_path", None)]
           ["file_path"];
    mkTool "find_untested_files"
           [("domain", Some VALID_DOMAINS); ("file_type", Some ["controller"; "repository"; "model"; "service"])]
           ["domain"];
    mkTool "get_test_structure_info"
           []
           [];
    mkTool "find_component_usage"
           [("component_name", None); ("domain", Some VALID_DOMAINS)]
           ["component_name"];
    mkTool "find_unused_components"
           [("domain", Some VALID_DOMAINS)]
           [];
    mkTool "list_inertia_pages"
           [("domain", Some VALID_DOMAINS)]
           [];
    mkTool "find_page_props"
           [("page_name", None)]
           ["page_name"];
    mkTool "list_api_endpoints"
           [("domain", Some VALID_DOMAINS); ("prefix", None)]
           [];
    mkTool "find_endpoint_details"
           [("uri", None); ("route_name", None)]
           [];
    mkTool "find_table_usage"
           [("table_name", None)]
           ["table_name"];
    mkTool "find_eloquent_scopes"
           [("model_name", None); ("domain", Some VALID_DOMAINS)]
           ["model_name"]
  ].

(** ** Reading the route handlers

    On a route table of records, the filters of the route handlers are
    these predicates and their answers these objects. *)

Definition action_has (needle : string) (r : RouteRecord) : bool :=
  negb (is_empty (route_action r)) && includes (route_action r) needle.

Definition in_domain (domain : option string) (r : RouteRecord) : bool :=
  if is_truthy_string domain then action_has (domain_marker domain) r else true.

Definition with_method (method : option string) (r : RouteRecord) : bool :=
  if is_truthy_string method then String.eqb (route_method r) (template method) else true.

Definition with_middleware (middleware : option string) (r : RouteRecord) : bool :=
  if is_truthy_string middleware
  then match route_middleware r with
       | Some l => existsb (fun x => String.eqb x (template middleware)) l
       | None => false
       end
  else true.

Definition under_prefix (prefix : string) (r : RouteRecord) : bool :=
  negb (is_empty (route_uri r)) && startsWith prefix (route_uri r).

Definition with_prefix (prefix : option string) (r : RouteRecord) : bool :=
  if is_truthy_string prefix then under_prefix (template prefix) r else true.

Definition name_or_null (r : RouteRecord) : JSValue :=
  match route_name r with
  | Some (String c rest) => VStr (String c rest)
  | _ => VNull
  end.

Definition middleware_or_empty (r : RouteRecord) : JSValue :=
  VStrings (match route_middleware r with
            | Some l => l
            | None => []
            end).

Definition entry_of (r : RouteRecord) : JSValue :=
  VObj [ ("method", VStr (route_method r));
         ("uri", VStr (route_uri r));
         ("name", name_or_null r);
         ("controller", VStr (route_action r));
         ("middleware", middleware_or_empty r);
         ("domain", VDomain (extractDomain (route_action r))) ].

Definition controller_route_of (r : RouteRecord) : JSValue :=
  VObj [ ("method", VStr (route_method r));
         ("uri", VStr (route_uri r));
         ("route_name", name_or_null r);
         ("action", VStr (route_action r));
         ("middleware", middleware_or_empty r) ].

(** The count a value stands for: the integer it is, 0 otherwise. *)
Definition count_value (v : JSValue) : Z :=
  match v with
  | VNum (JInteger n) => n
  | _ => 0%Z
  end.

(** The count a summary object holds under a key, 0 where it has none. *)
Definition count_of (key : string) (counts : JSValue) : Z :=
  match counts with
  | VObj fields =>
      match lookup key fields with
      | Some v => count_value v
      | None => 0%Z
      end
  | _ => 0%Z
  end.

Fixpoint sum_fields (fields : list (string * JSValue)) : Z :=
  match fields with
  | [] => 0%Z
  | (_, v) :: rest => (count_value v + sum_fields rest)%Z
  end.

(** The sum of the counts of a summary object. *)
Definition sum_counts (counts : JSValue) : Z :=
  match counts with
  | VObj fields => sum_fields fields
  | _ => 0%Z
  end.

(** An object of counters: every property holds a positive integer. *)
Definition counting (fields : list (string * JSValue)) : Prop :=
  Forall (fun kv => exists n, snd kv = VNum (JInteger n) /\ (0 < n)%Z) fields.

(** The routes of a table with a given method, with a given domain, and
    with a domain at all. *)
Definition of_method (method : string) (r : RouteRecord) : bool :=
  String.eqb (route_method r) method.

Definition of_domain (domain : string) (r : RouteRecord) : bool :=
  match extractDomain (route_action r) with
  | Some d => String.eqb d domain
  | None => false
  end.

Definition has_domain (r : RouteRecord) : bool :=
  match extractDomain (route_action r) with
  | Some _ => true
  | None => false
  end.

(** The filter of list_all_routes on a record. *)
Definition listed (a : Arguments) (r : RouteRecord) : bool :=
  in_domain (field "domain" a) r && with_method (field "method" a) r
  && with_middleware (field "middleware" a) r && with_prefix (field "prefix" a) r.

(** The filter of list_api_endpoints on a record. *)
Definition api_listed (a : Arguments) (r : RouteRecord) : bool :=
  under_prefix (or_string (field "prefix" a) "/async") r && in_domain (field "domain" a) r.

(** The call returned, and its envelope does not carry isError. *)
Definition isError_free (o : Outcome Envelope) : bool :=
  match o with
  | Return env => negb (isError env)
  | Throw _ => false
  end.

(** The envelope of a reply, if the call returned. *)
Definition answer (r : Outcome Envelope * ServerState) : JSValue := body (fst r).

(** A handler that leaves the module state as it is, or as one call of
    getRoutes leaves it. *)
Definition calls_getRoutes_once (h : M Envelope) : Prop :=
  forall w st, snd (h w st) = st \/ snd (h w st) = snd (getRoutes w st).

(** The route tools: the handlers that call getRoutes. *)
Definition route_tools (p : Platform) : list (option Arguments -> M Envelope) :=
  [ findRouteByName; findRoutesForController; listAllRoutes p; findServiceChain;
    listApiEndpoints; findEndpointDetails ].

(** The first property of the destructuring pattern of each handler. *)
Definition first_property (name : string) : string :=
  if String.eqb name "query_domain_structure" then "domain"
  else if String.eqb name "find_related_files" then "entity_name"
  else if String.eqb name "query_database_schema" then "table_name"
  else if String.eqb name "run_phpstan" then "path"
  else if String.eqb name "find_route_by_name" then "route_name"
  else if String.eqb name "find_routes_for_controller" then "controller_name"
  else if String.eqb name "list_all_routes" then "domain"
  else if String.eqb name "find_service_chain" then "entity_name"
  else if String.eqb name "find_tests_for_file" then "file_path"
  else if String.eqb name "find_untested_files" then "domain"
  else if String.eqb name "find_component_usage" then "component_name"
  else if String.eqb name "find_unused_components" then "domain"
  else if String.eqb name "list_inertia_pages" then "domain"
  else if String.eqb name "find_page_props" then "page_name"
  else if String.eqb name "list_api_endpoints" then "domain"
  else if String.eqb name "find_endpoint_details" then "uri"
  else if String.eqb name "find_table_usage" then "table_name"
  else "model_name".

(** ** More scenarios *)

Module Cases.

(** A platform in the manner of V8. *)
Definition v8 : Platform :=
  {| String_of := fun _ => "[object Object]";
     native_plus_one := fun key => "function " ++ key ++ "() { [native code] }1";
     statSync_mtime := fun _ => Return "2024-05-01T08:00:00.000Z";
     stdout_of := fun _ => None |}.

Definition show_route : RouteRecord :=
  mkRoute (Some "fleet.orders.show") "GET" "/async/fleet/orders/{order}"
          "App\Employer\Controllers\OrderController@show" (Some ["auth"; "fleet"]).

Definition store_route : RouteRecord :=
  mkRoute (Some "dealer.orders.store") "POST" "/async/dealer/orders"
          "App\Dealer\Controllers\OrderController@store" (Some ["auth"]).

Definition page_route : RouteRecord :=
  mkRoute None "GET" "/fleet/orders" "App\Employer\Controllers\OrderPageController@index"
          None.

Definition table : list RouteRecord :=
  [ Scenario.orders_route; show_route; store_route; page_route; Scenario.health_route ].

(** An installation whose route listing answers with [table], and whose
    app directory holds the given files under the given globs. *)
Definition app_at (t : Z) (globs : list (string * list string))
  (files : list (string * string)) : World :=
  Sample.world
    (Sample.mkTables t ["/srv/o2o/app"; "/srv/o2o/app/Employer"] globs files
       [(route_list_command, "[routes]")]
       [("[routes]", VArr (map route_object table))]).

Definition routes_at (t : Z) : World := app_at t [] [].

Definition order_controller : string :=
  "/srv/o2o/app/Employer/Controllers/OrderController.php".
Definition order_repository : string :=
  "/srv/o2o/app/Employer/Repositories/OrderRepository.php".
Definition order_repository_interface : string :=
  "/srv/o2o/app/Employer/Repositories/OrderRepositoryInterface.php".
Definition order_model : string := "/srv/o2o/app/Employer/Models/Order.php".
Definition order_controller_test : string :=
  "/srv/o2o/tests/Unit/Employer/OrderControllerTest.php".
Definition order_cypress : string := "/srv/o2o/cypress/e2e/fleet/specs/OrderPanel.cy.js".
Definition order_component_test : string :=
  "/srv/o2o/app/Employer/UI/resources/js/components/__tests__/OrderPanel.cy.js".

(** The files around the Order entity. *)
Definition orders : World :=
  app_at 1000
    [ ("**/*Order*.php",
       [order_controller; order_repository; order_repository_interface; order_model]);
      ("**/*Order*Test.php", [order_controller_test]);
      ("tests/Unit/**/*OrderController*Test.php", [order_controller_test]);
      ("cypress/e2e/**/*OrderPanel*.cy.js", [order_cypress]);
      ("cypress/e2e/**/*OrderControllerPanel*.cy.js", [order_cypress]);
      ("app/**/UI/resources/js/components/**/__tests__/*OrderPanel*.cy.js",
       [order_component_test]);
      ("app/**/UI/resources/js/components/**/__tests__/*OrderControllerPanel*.cy.js",
       [order_component_test]) ]
    [ (order_controller_test, "<?php" ++ Scenario.nl ++ "class OrderControllerTest {}") ].

Definition order_entity : Arguments := [("entity_name", "Order")].

(** The module state with [table] cached at time 1000. *)
Definition cached : ServerState := snd (getRoutes (routes_at 1000) initial_state).

End Cases.

(** The test of [routes.find(r => r.uri === uri)] on a record. *)
Definition at_uri (uri : string) (r : RouteRecord) : bool := String.eqb (route_uri r) uri.

(** The test by which find_endpoint_details picks its route: by uri when
    one is given, by name otherwise. *)
Definition endpoint_choice (a : Arguments) : RouteRecord -> bool :=
  if is_truthy_string (field "uri" a)
  then at_uri (template (field "uri" a))
  else named (template (field "route_name" a)).

(** The call returned. *)
Definition returned {A : Type} (o : Outcome A) : bool :=
  match o with
  | Return _ => true
  | Throw _ => false
  end.

(** ** Reading find_unused_components *)

(** The Vue file can be read and its text is matched by the import pattern
    of the component name. *)
Definition imports (w : World) (componentName vueFile : string) : bool :=
  match readFileSync w vueFile with
  | Return content =>
      match RegExp_test w (import_pattern componentName) "i" content with
      | Return hit => hit
      | Throw _ => false
      end
  | Throw _ => false
  end.

(** Some Vue file other than the component's own imports the component. *)
Definition used_elsewhere (w : World) (allVueFiles : list string) (componentFile : string)
  : bool :=
  existsb (fun vueFile =>
             negb (String.eqb vueFile componentFile)
             && imports w (extractClassName w componentFile) vueFile)
          allVueFiles.

Definition unused_elsewhere (w : World) (allVueFiles : list string) (componentFile : string)
  : bool :=
  negb (used_elsewhere w allVueFiles componentFile).

(** The Vue file can be read and the import pattern of the component name
    can be tested on its text. *)
Definition scannable (w : World) (componentName vueFile : string) : Prop :=
  exists content hit,
    readFileSync w vueFile = Return content /\
    RegExp_test w (import_pattern componentName) "i" content = Return hit.

Module Components.

Definition order_panel : string :=
  "/srv/o2o/app/Employer/UI/resources/js/components/OrderPanel.vue".
Definition order_badge : string :=
  "/srv/o2o/app/Employer/UI/resources/js/components/OrderBadge.vue".
Definition orders_page : string :=
  "/srv/o2o/app/Employer/UI/resources/js/pages/Orders/Index.vue".

(** Two components and a page: the page imports the panel, the badge is
    imported by its own file only. *)
Definition tables : Sample.Tables :=
  Sample.mkTables 1000 ["/srv/o2o/app"]
    [ ("**/*.vue", [order_panel; order_badge]);
      ("app/**/UI/resources/js/**/*.vue", [order_panel; order_badge; orders_page]) ]
    [ (order_panel, "<template><div/></template>");
      (order_badge, "<script>import OrderBadge from './OrderBadge.vue'</script>");
      (orders_page, "<script>import OrderPanel from '@/components/OrderPanel.vue'</script>") ]
    [] [].

Definition app : World := Sample.world tables.

(** The same installation with a Vue file that cannot be read listed after
    the page. *)
Definition with_lost_file : World :=
  Sample.world
    (Sample.mkTables 1000 ["/srv/o2o/app"]
       [ ("**/*.vue", [order_panel]);
         ("app/**/UI/resources/js/**/*.vue",
          [order_panel; orders_page; "/srv/o2o/app/Employer/UI/resources/js/Lost.vue"]) ]
       (Sample.files tables) [] []).

End Components.

Module Pages.

Definition orders_index : string :=
  "/srv/o2o/app/Employer/UI/resources/js/pages/Orders/Index.vue".

Definition app : World :=
  Sample.world
    (Sample.mkTables 1000 ["/srv/o2o/app"]
       [ ("**/*.vue", [orders_index]) ] [] [] []).

End Pages.



Module Analysis.

(** An installation where PHPStan finds errors in app/Core: the command
    fails with a message, and its standard output holds the findings. *)
Definition app : World :=
  Sample.world (Sample.mkTables 1000 ["/srv/o2o/app/Core"] [] [] [] []).


End Analysis.

(** ** Reading find_eloquent_scopes *)



Module Models.

Definition order : string := "/srv/o2o/app/Employer/Models/Order.php".

Definition app : World :=
  Sample.world
    (Sample.mkTables 1000 ["/srv/o2o/app"]
       [ ("**/Models/**/Order.php", [order]) ]
       [ (order, "public function scopeActiveOnly($query) { return $query; }") ]
       [] []).

End Models.

(** ** Reading find_page_props and find_table_usage *)

(** The text of a file; the empty text when it cannot be read. *)
Definition content_of (w : World) (file : string) : string :=
  match readFileSync w file with
  | Return content => content
  | Throw _ => EmptyString
  end.

(** The pattern can be tested on the text of the file, which can be read. *)
Definition testable (w : World) (pattern flags file : string) : Prop :=
  exists content hit,
    readFileSync w file = Return content /\
    RegExp_test w pattern flags content = Return hit.

(** The pattern matches the text of the file. *)
Definition matches (w : World) (pattern flags file : string) : bool :=
  match RegExp_test w pattern flags (content_of w file) with
  | Return hit => hit
  | Throw _ => false
  end.

Definition page_files_named (w : World) (a : Arguments) : list string :=
  globSync w ("app/**/UI/resources/js/pages/" ++ template (field "page_name" a) ++ ".vue")
           (absolute_in_base w).

Definition controller_files (w : World) : list string :=
  globSync w "app/**/*Controller.php" (absolute_in_base w).

Definition controller_entry (w : World) (controllerFile : string) : JSValue :=
  VObj [ ("controller", VStr (relativePath w controllerFile));
         ("class_name", VStr (extractClassName w controllerFile)) ].

Definition model_files (w : World) : list string :=
  globSync w "app/**/Models/**/*.php" (absolute_in_base w).

Definition php_files (w : World) : list string :=
  globSync w "app/**/*.php" (mkGlobOptions (Some (O2O_BASE_PATH w)) true ["**/vendor/**"]).

Definition migration_files (w : World) (a : Arguments) : list string :=
  globSync w ("database/migrations/**/*" ++ template (field "table_name" a) ++ "*.php")
           (absolute_in_base w).

Definition model_entry (w : World) (modelFile : option string) : JSValue :=
  match modelFile with
  | Some (String c rest) =>
      VObj [ ("file", VStr (relativePath w (String c rest)));
             ("class_name", VStr (extractClassName w (String c rest))) ]
  | _ => VNull
  end.

Definition query_entry (w : World) (file : string) : JSValue :=
  VObj [ ("file", VStr (relativePath w file)); ("query_type", VStr "query_builder") ].

Definition migration_entry (w : World) (m : string) : JSValue :=
  VObj [ ("file", VStr (relativePath w m));
         ("migration_name", VStr (extractClassName w m)) ].

(** The text of the file holds the DB::table call of the table. *)
Definition queries_table (w : World) (table_name : option string) (file : string) : bool :=
  includes (content_of w file) (table_call table_name).

Module Tables.

Definition order_model : string := "/srv/o2o/app/Employer/Models/Order.php".
Definition order_report : string := "/srv/o2o/app/Employer/Reports/OrderReport.php".
Definition order_migration : string :=
  "/srv/o2o/database/migrations/2024_01_01_000000_create_orders_table.php".

(** A model that names its table by convention only, and a report that
    queries the table directly. *)
Definition app : World :=
  Sample.world
    (Sample.mkTables 1000 ["/srv/o2o/app"]
       [ ("app/**/Models/**/*.php", [order_model]);
         ("app/**/*.php", [order_model; order_report]);
         ("database/migrations/**/*orders*.php", [order_migration]) ]
       [ (order_model, "class Order extends Model {}");
         (order_report, "return DB::table('orders')->count();") ]
       [] []).

End Tables.

Module Props.

Definition orders_index : string :=
  "/srv/o2o/app/Employer/UI/resources/js/pages/Orders/Index.vue".
Definition order_page_controller : string :=
  "/srv/o2o/app/Employer/Controllers/OrderPageController.php".
Definition order_controller : string :=
  "/srv/o2o/app/Employer/Controllers/OrderController.php".

Definition files : World :=
  Sample.world
    (Sample.mkTables 1000 ["/srv/o2o/app"]
       [ ("app/**/UI/resources/js/pages/Orders/Index.vue", [orders_index]);
         ("app/**/*Controller.php", [order_controller; order_page_controller]) ]
       [ (order_controller, "return response()->json($orders);");
         (order_page_controller, "return Inertia::render('Orders/Index', $props);") ]
       [] []).

(** The same installation with a pattern engine that knows the render
    pattern of the page Orders/Index, on texts written in its case. *)
Definition app : World :=
  {| O2O_BASE_PATH := O2O_BASE_PATH files;
     Date_now := Date_now files;
     existsSync := existsSync files;
     globSync := globSync files;
     readFileSync := readFileSync files;
     execSync := execSync files;
     JSON_parse := JSON_parse files;
     path_join := path_join files;
     path_basename := path_basename files;
     path_extname := path_extname files;
     RegExp_test := fun source flags subject =>
       if String.eqb source (render_pattern (Some "Orders/Index"))
       then Return (includes subject "Inertia::render('Orders/Index'"
                    || includes subject ("Inertia::render(" ++ dquote ++ "Orders/Index"
                                         ++ dquote))
       else RegExp_test files source flags subject;
     RegExp_match_all := RegExp_match_all files |}.

End Props.

(** ** Reading find_service_chain *)





(** The number of line feeds in a text. *)
Fixpoint line_feeds (content : string) : nat :=
  match content with
  | EmptyString => 0
  | String c rest => (if Ascii.eqb c newline then 1 else 0) + line_feeds rest
  end.

(** * Properties *)

Unset Implicit Arguments.

(** ** Strings *)

Lemma startsWith_refl : forall s, startsWith s s = true.
Proof.
  induction s as [|c s IH]; simpl; [reflexivity|].
  rewrite Ascii.eqb_refl, IH. reflexivity.
Qed.

Lemma includes_self : forall s, includes s s = true.
Proof.
  destruct s; simpl; [reflexivity|].
  rewrite Ascii.eqb_refl, startsWith_refl. reflexivity.
Qed.

Lemma includes_suffix : forall a b, includes (a ++ b) b = true.
Proof.
  induction a as [|c a IH]; intro b; simpl.
  - apply includes_self.
  - rewrite IH. apply orb_true_r.
Qed.

(** ** The route cache *)

Lemma getRoutes_fresh : forall w st,
  fresh w st = true -> getRoutes w st = (Return (routeCache st), st).
Proof.
  intros w st H. unfold fresh in H.
  unfold getRoutes, bind, ask, read. simpl. rewrite H. reflexivity.
Qed.

Lemma getRoutes_refresh : forall w st,
  fresh w st = false ->
  getRoutes w st =
  match listing w with
  | Return v => (Return v, mkState v (Date_now w) (execLog (logged st)))
  | Throw cause => (Throw (failed_to_get_routes cause), logged st)
  end.
Proof.
  intros w st H. unfold fresh in H.
  unfold getRoutes, bind, ask, read. simpl. rewrite H.
  unfold try_catch, bind, exec, lift, listing, obind. simpl.
  destruct (execSync w route_list_command (O2O_BASE_PATH w) 15000) as [output|e];
    [|reflexivity].
  destruct (JSON_parse w output) as [v|e]; reflexivity.
Qed.

Lemma getRoutes_stores_what_it_returns : forall w st v st',
  getRoutes w st = (Return v, st') -> routeCache st' = v.
Proof.
  intros w st v st' H.
  destruct (fresh w st) eqn:F.
  - rewrite (getRoutes_fresh _ _ F) in H. inversion H; subst. reflexivity.
  - rewrite (getRoutes_refresh _ _ F) in H.
    destruct (listing w); inversion H; subst. reflexivity.
Qed.

Lemma route_invocations_logged : forall st st',
  execLog st' = (execLog st ++ [route_list_command])%list ->
  route_invocations st' = S (route_invocations st).
Proof.
  intros st st' H. unfold route_invocations. rewrite H.
  rewrite filter_app, length_app. simpl. lia.
Qed.

Lemma stale_refreshes : forall w st, fresh w st = false -> refresh_performed w st.
Proof.
  intros w st F. unfold refresh_performed.
  rewrite (getRoutes_refresh _ _ F).
  destruct (listing w) as [v|cause]; eexists; eexists; (split; [reflexivity|]); simpl;
    (split; [reflexivity|]);
    (split; [apply route_invocations_logged; reflexivity|]); auto.
Qed.

(** C2: of two successive calls of getRoutes of which the first returned a
    listing, the second, made less than ROUTE_CACHE_TTL = 300000 ms after the
    stored timestamp, runs no command and returns the stored listing, state
    untouched; made at least the TTL after it, it runs the route listing
    exactly once and, when it returns, has replaced listing and timestamp.
    A call that finds no listing stored refreshes in the same way. *)
Theorem getRoutes_cache_freshness :
  forall (w1 w2 : World) (st0 st1 : ServerState) (routes : list JSValue),
    getRoutes w1 st0 = (Return (VArr routes), st1) ->
    ROUTE_CACHE_TTL = 300000%Z /\
    ((Date_now w2 - routeCacheTime st1 < ROUTE_CACHE_TTL)%Z ->
     getRoutes w2 st1 = (Return (VArr routes), st1)) /\
    ((ROUTE_CACHE_TTL <= Date_now w2 - routeCacheTime st1)%Z ->
     refresh_performed w2 st1) /\
    (forall w st, truthy (routeCache st) = false -> refresh_performed w st).
Proof.
  intros w1 w2 st0 st1 routes H.
  pose proof (getRoutes_stores_what_it_returns _ _ _ _ H) as Hc.
  split; [reflexivity|]. split; [|split].
  - intro Hlt. rewrite getRoutes_fresh.
    + rewrite Hc. reflexivity.
    + unfold fresh. rewrite Hc. simpl. apply Z.ltb_lt. exact Hlt.
  - intro Hge. apply stale_refreshes. unfold fresh.
    apply andb_false_iff. right. apply Z.ltb_ge. exact Hge.
  - intros w st Hf. apply stale_refreshes. unfold fresh. rewrite Hf. reflexivity.
Qed.

(** On the sample installation: a first call at time 1000, then calls at
    300999 (served from the cache) and at 301000 (refreshed). *)
Lemma getRoutes_cache_freshness_witness :
  getRoutes (Scenario.routes_at 300999) Scenario.after_first_call
  = (Return (VArr (map route_object Scenario.route_table)), Scenario.after_first_call)
  /\ refresh_performed (Scenario.routes_at 301000) Scenario.after_first_call
  /\ refresh_performed (Scenario.routes_at 1000) initial_state.
Proof.
  assert (H : getRoutes (Scenario.routes_at 1000) initial_state
              = (Return (VArr (map route_object Scenario.route_table)),
                 Scenario.after_first_call)) by (vm_compute; reflexivity).
  split; [|split].
  - apply (proj1 (proj2 (getRoutes_cache_freshness
                           (Scenario.routes_at 1000) (Scenario.routes_at 300999)
                           initial_state _ _ H))).
    vm_compute. reflexivity.
  - apply (proj1 (proj2 (proj2 (getRoutes_cache_freshness
                                  (Scenario.routes_at 1000) (Scenario.routes_at 301000)
                                  initial_state _ _ H)))).
    vm_compute. intro X. discriminate X.
  - apply (proj2 (proj2 (proj2 (getRoutes_cache_freshness
                                  (Scenario.routes_at 1000) (Scenario.routes_at 1000)
                                  initial_state _ _ H)))).
    reflexivity.
Defined.

(** C3: when a refresh is due and the route listing cannot be had (the
    command fails or runs out of time, or its output is not JSON), getRoutes
    throws an error whose message holds the text of the cause, and
    routeCache and routeCacheTime are what they were before the call. *)
Theorem getRoutes_failure_keeps_cache :
  forall (w : World) (st : ServerState) (cause : Exception),
    fresh w st = false ->
    (execSync w route_list_command (O2O_BASE_PATH w) 15000 = Throw cause \/
     exists output,
       execSync w route_list_command (O2O_BASE_PATH w) 15000 = Return output /\
       JSON_parse w output = Throw cause) ->
    exists st',
      getRoutes w st
      = (Throw (new_Error ("Failed to get routes: " ++ String_of_exception cause)), st') /\
      includes ("Failed to get routes: " ++ String_of_exception cause)
               (String_of_exception cause) = true /\
      routeCache st' = routeCache st /\
      routeCacheTime st' = routeCacheTime st.
Proof.
  intros w st cause F H.
  assert (L : listing w = Throw cause).
  { unfold listing. destruct H as [H|[output [H1 H2]]].
    - rewrite H. reflexivity.
    - rewrite H1. exact H2. }
  exists (logged st). rewrite (getRoutes_refresh _ _ F), L.
  split; [reflexivity|]. split; [apply includes_suffix|]. split; reflexivity.
Qed.

(** On the sample installation: the cache of time 1000 survives a refresh
    that fails at time 400000. *)
Lemma getRoutes_failure_keeps_cache_witness :
  exists st',
    getRoutes (Scenario.no_artisan_at 400000) Scenario.after_first_call
    = (Throw (new_Error
                ("Failed to get routes: Error: Command failed: php artisan route:list --json")),
       st') /\
    routeCache st' = VArr (map route_object Scenario.route_table) /\
    routeCacheTime st' = 1000%Z.
Proof.
  destruct (getRoutes_failure_keeps_cache
              (Scenario.no_artisan_at 400000) Scenario.after_first_call
              (new_Error "Command failed: php artisan route:list --json")
              eq_refl (or_introl eq_refl))
    as [st' [H1 [_ [H2 H3]]]].
  exists st'. split; [exact H1|]. split; [exact H2|exact H3].
Defined.

(** ** The dispatcher *)

Lemma unknown_tool_dispatch : forall other name args,
  known_tool name = false ->
  dispatch other name args = throw (new_Error ("Unknown tool: " ++ name)).
Proof.
  intros other name args H. unfold known_tool in H. simpl in H.
  repeat (apply orb_false_iff in H; destruct H as [?E H]).
  unfold dispatch. simpl.
  repeat match goal with E : String.eqb name _ = false |- _ => rewrite E; clear E end.
  reflexivity.
Qed.

(** C1: whatever the tool name and the arguments, the CallTool handler
    returns an envelope and never throws: an error thrown by the handler it
    dispatched to comes back as the text "Error executing <name>: <message>"
    with isError set, and a name that is no tool comes back in the same way
    with the message "Unknown tool: <name>". *)
Theorem callTool_never_throws :
  forall (other : string -> option Arguments -> M Envelope)
         (name : string) (args : option Arguments) (w : World) (st : ServerState),
    (exists env st', callTool other name args w st = (Return env, st')) /\
    (forall e st',
        dispatch other name args w st = (Throw e, st') ->
        callTool other name args w st
        = (Return (mkEnvelope
                     (Plain ("Error executing " ++ name ++ ": " ++ error_message e)) true),
           st')) /\
    (forall env st',
        dispatch other name args w st = (Return env, st') ->
        callTool other name args w st = (Return env, st')) /\
    (known_tool name = false ->
     callTool other name args w st
     = (Return (mkEnvelope
                  (Plain ("Error executing " ++ name ++ ": Unknown tool: " ++ name)) true),
        st)).
Proof.
  intros other name args w st. unfold callTool, try_catch.
  split; [|split; [|split]].
  - destruct (dispatch other name args w st) as [[env|e] st']; eexists; eexists; reflexivity.
  - intros e st' H. rewrite H. reflexivity.
  - intros env st' H. rewrite H. reflexivity.
  - intro H. rewrite (unknown_tool_dispatch other name args H). reflexivity.
Qed.

(** A name that is no tool, and a handler that throws a value that is no
    Error. *)
Lemma callTool_never_throws_witness :
  callTool (fun _ _ => throw (NonError "out of memory")) "drop_database" None
           (Scenario.no_artisan_at 0) initial_state
  = (Return (mkEnvelope
               (Plain "Error executing drop_database: Unknown tool: drop_database") true),
     initial_state)
  /\
  callTool (fun _ _ => throw (NonError "out of memory")) "run_phpstan" None
           (Scenario.no_artisan_at 0) initial_state
  = (Return (mkEnvelope (Plain "Error executing run_phpstan: out of memory") true),
     initial_state).
Proof.
  split.
  - apply (proj2 (proj2 (proj2 (callTool_never_throws
             (fun _ _ => throw (NonError "out of memory"))
             "drop_database" None (Scenario.no_artisan_at 0) initial_state)))).
    reflexivity.
  - apply (proj1 (proj2 (callTool_never_throws
             (fun _ _ => throw (NonError "out of memory"))
             "run_phpstan" None (Scenario.no_artisan_at 0) initial_state))
             (NonError "out of memory") initial_state).
    reflexivity.
Defined.

(** ** Domain validation and the structure listing *)

Lemma valid_domain_included : forall d,
  In d VALID_DOMAINS -> includes_domain (Some d) = true.
Proof.
  intros d H. unfold includes_domain. apply existsb_exists. exists d.
  split; [exact H|apply String.eqb_refl].
Qed.

Lemma queryDomainStructure_validates : forall w a,
  includes_domain (field "domain" a) = false ->
  queryDomainStructure (Some a) w
  = Throw (new_Error ("Invalid domain '" ++ template (field "domain" a)
                      ++ "'. Valid domains: Core, Customer, Dealer, Employer")).
Proof.
  intros w a H. unfold queryDomainStructure. simpl obind. rewrite H. reflexivity.
Qed.

Lemma queryDomainStructure_listing : forall w a d,
  field "domain" a = Some d ->
  In d VALID_DOMAINS ->
  existsSync w (domain_path w d) = true ->
  queryDomainStructure (Some a) w
  = Return (reply (Stringified
                     (relativeStructure w (Some d) (domain_path w d)
                                        (domain_files w (domain_path w d))))).
Proof.
  intros w a d Hd Hv He. unfold queryDomainStructure. simpl obind.
  rewrite Hd, (valid_domain_included _ Hv). simpl negb. cbv iota.
  unfold js_path_join. simpl forallb. cbv iota. simpl obind.
  fold (domain_path w d). rewrite He. reflexivity.
Qed.

Lemma findUntestedFiles_returns : forall w a d,
  field "domain" a = Some d ->
  exists env, findUntestedFiles (Some a) w = Return env /\ isError env = false.
Proof.
  intros w a d Hd. unfold findUntestedFiles. simpl obind. rewrite Hd.
  unfold js_path_join. simpl forallb. cbv iota. simpl obind.
  destruct (untested_loop _ _ _ _) as [untestedFiles testedCount].
  eexists. split; reflexivity.
Qed.

(** C4, at the input where the code parts from it: the domain Marketing,
    which is none of the four, is refused by query_domain_structure and
    taken by find_untested_files, which answers with an empty report. *)
Theorem unknown_domain_only_refused_by_structure_listing :
  queryDomainStructure (Some [("domain", "Marketing")]) (Scenario.classes 1 2)
  = Throw (new_Error
             "Invalid domain 'Marketing'. Valid domains: Core, Customer, Dealer, Employer")
  /\
  findUntestedFiles (Some [("domain", "Marketing")]) (Scenario.classes 1 2)
  = Return (reply (Stringified
      (VObj [ ("domain", VStr "Marketing");
              ("file_type_filter", VStr "all");
              ("untested_files", VArr []);
              ("summary",
               VObj [ ("total_files", VInt 0);
                      ("tested_files", VInt 0);
                      ("untested_files", VInt 0);
                      ("coverage_percentage", VInt 0) ]) ]))).
Proof.
  split; vm_compute; reflexivity.
Qed.

Lemma lookup_cons : forall key k v rest,
  lookup key ((k, v) :: rest) = if String.eqb k key then Some v else lookup key rest.
Proof. reflexivity. Qed.

(** Splits on every comparison of a known key with the name at hand. *)
Ltac split_on_keys H :=
  repeat (rewrite lookup_cons in H;
          match type of H with
          | context [String.eqb ?k ?key] =>
              let E := fresh "E" in
              destruct (String.eqb k key) eqn:E;
              [apply String.eqb_eq in E; subst|]
          end).

Lemma bucket_of_rule : forall w domain domainPath files name rule,
  In (name, rule) bucket_rules ->
  bucket name (relativeStructure w domain domainPath files)
  = Some (map VStr (relativizeArray w (filter rule files))).
Proof.
  intros w domain domainPath files name rule H.
  unfold bucket_rules in H. simpl in H.
  repeat (destruct H as [H|H]; [inversion H; subst; reflexivity|]).
  contradiction.
Qed.

Lemma bucket_has_rule : forall w domain domainPath files name items,
  bucket name (relativeStructure w domain domainPath files) = Some items ->
  exists rule, In (name, rule) bucket_rules.
Proof.
  intros w domain domainPath files name items H.
  unfold bucket, relativeStructure in H.
  cbn [override String.eqb Ascii.eqb Bool.eqb at_path lookup] in H.
  unfold buckets_object, domain_buckets, bucket_rules in H.
  cbn [map fst snd] in H.
  split_on_keys H;
    try (eexists; unfold bucket_rules; simpl;
         first [ left; reflexivity
               | right; left; reflexivity
               | do 2 right; left; reflexivity
               | do 3 right; left; reflexivity
               | do 4 right; left; reflexivity
               | do 5 right; left; reflexivity
               | do 6 right; left; reflexivity
               | do 7 right; left; reflexivity
               | do 8 right; left; reflexivity ]).
  discriminate H.
Qed.

(** C5, as the claim has it, fails: a file whose path holds Service and
    whose name ends in Test is listed under services and under no other
    name; the listing has no bucket for tests at all. *)
Lemma service_test_is_in_one_bucket :
  let result :=
    body (queryDomainStructure Scenario.core (Scenario.core_with [Scenario.service_test])) in
  Scenario.service_test = "/srv/o2o/app/Core/Services/BillingServiceTest.php" /\
  bucket "services" result = Some [VStr "app/Core/Services/BillingServiceTest.php"] /\
  bucket "tests" result = None /\
  bucket "test" result = None /\
  (forall name items,
      bucket name result = Some items ->
      In (VStr "app/Core/Services/BillingServiceTest.php") items ->
      name = "services").
Proof.
  assert (E : queryDomainStructure Scenario.core (Scenario.core_with [Scenario.service_test])
              = Return (reply (Stringified
                  (relativeStructure (Scenario.core_with [Scenario.service_test])
                     (Some "Core") "/srv/o2o/app/Core" [Scenario.service_test]))))
    by (vm_compute; reflexivity).
  cbv zeta. rewrite E. unfold body, reply.
  split; [reflexivity|]. split; [vm_compute; reflexivity|].
  split; [vm_compute; reflexivity|]. split; [vm_compute; reflexivity|].
  intros name items H Hin.
  destruct (bucket_has_rule _ _ _ _ _ _ H) as [rule Hr].
  rewrite (bucket_of_rule _ _ _ _ _ _ Hr) in H. inversion H; subst items; clear H.
  unfold bucket_rules in Hr. simpl in Hr.
  repeat (destruct Hr as [Hr|Hr];
          [inversion Hr; subst; clear Hr;
           first [reflexivity | vm_compute in Hin; contradiction]|]).
  contradiction.
Qed.

(** C5, amended: in the listing of a valid domain whose directory exists,
    every bucket is the filter of its own rule over the whole glob result,
    so a file whose path holds Service is listed under services whatever
    else it matches, and under controllers too when it also holds
    Controller; the buckets are the nine of [bucket_rules], none of them
    for tests. *)
Theorem structure_listing_buckets_are_independent :
  forall (w : World) (a : Arguments) (d : string),
    field "domain" a = Some d ->
    In d VALID_DOMAINS ->
    existsSync w (domain_path w d) = true ->
    let files := domain_files w (domain_path w d) in
    let result := body (queryDomainStructure (Some a) w) in
    (forall f, In f files -> includes f "Service" = true ->
       exists items, bucket "services" result = Some items /\
                     In (VStr (relativePath w f)) items) /\
    (forall f, In f files -> includes f "Service" = true ->
       includes f "Controller" = true ->
       exists items, bucket "controllers" result = Some items /\
                     In (VStr (relativePath w f)) items) /\
    (forall name rule, In (name, rule) bucket_rules ->
       bucket name result = Some (map VStr (relativizeArray w (filter rule files)))) /\
    (forall name items, bucket name result = Some items ->
       exists rule, In (name, rule) bucket_rules) /\
    bucket "tests" result = None.
Proof.
  intros w a d Hd Hv He files result. subst result.
  rewrite (queryDomainStructure_listing w a d Hd Hv He). unfold body, reply.
  fold files.
  assert (listed : forall name rule f,
             In (name, rule) bucket_rules -> In f files -> rule f = true ->
             exists items,
               bucket name (relativeStructure w (Some d) (domain_path w d) files) = Some items /\
               In (VStr (relativePath w f)) items).
  { intros name rule f Hr Hf Ht. eexists. split; [apply (bucket_of_rule _ _ _ _ _ _ Hr)|].
    apply in_map. unfold relativizeArray. apply in_map. apply filter_In. split; assumption. }
  split; [|split; [|split; [|split]]].
  - intros f Hf Hs.
    apply (listed "services" (fun f => includes f "Service") f); [|exact Hf|exact Hs].
    unfold bucket_rules. simpl. do 7 right. left. reflexivity.
  - intros f Hf _ Hc.
    apply (listed "controllers" (fun f => includes f "Controller") f); [|exact Hf|exact Hc].
    unfold bucket_rules. simpl. left. reflexivity.
  - intros name rule Hr. apply bucket_of_rule. exact Hr.
  - intros name items H. apply (bucket_has_rule _ _ _ _ _ _ H).
  - reflexivity.
Qed.

(** InvoiceServiceController.php is listed under services and under
    controllers. *)
Lemma structure_listing_buckets_are_independent_witness :
  let result :=
    body (queryDomainStructure Scenario.core
            (Scenario.core_with [Scenario.service_controller])) in
  (exists items, bucket "services" result = Some items /\
     In (VStr "app/Core/Http/Controllers/InvoiceServiceController.php") items) /\
  (exists items, bucket "controllers" result = Some items /\
     In (VStr "app/Core/Http/Controllers/InvoiceServiceController.php") items).
Proof.
  pose proof (structure_listing_buckets_are_independent
                (Scenario.core_with [Scenario.service_controller])
                [("domain", "Core")] "Core" eq_refl (or_introl eq_refl) eq_refl) as H.
  cbv zeta in H. destruct H as [H1 [H2 _]].
  split.
  - apply (H1 Scenario.service_controller); [left; reflexivity|reflexivity].
  - apply (H2 Scenario.service_controller); [left; reflexivity|reflexivity|reflexivity].
Defined.

(** C10: for a valid domain whose directory exists, query_domain_structure
    returns and reports as total_files the length of the glob result,
    whatever the buckets hold: one file that holds both Controller and
    Service gives total_files 1 with two bucket entries, one file that
    matches no rule gives total_files 1 with none. *)
Theorem total_files_counts_every_file_once :
  forall (w : World) (a : Arguments) (d : string),
    field "domain" a = Some d ->
    In d VALID_DOMAINS ->
    existsSync w (domain_path w d) = true ->
    (exists env,
        queryDomainStructure (Some a) w = Return env /\ isError env = false /\
        at_path ["total_files"] (body (Return env))
        = VInt (List.length (domain_files w (domain_path w d)))) /\
    (let result :=
       body (queryDomainStructure Scenario.core
               (Scenario.core_with [Scenario.service_controller])) in
     at_path ["total_files"] result = VInt 1 /\ bucket_sizes result = 2) /\
    (let result :=
       body (queryDomainStructure Scenario.core
               (Scenario.core_with [Scenario.plain_class])) in
     at_path ["total_files"] result = VInt 1 /\ bucket_sizes result = 0).
Proof.
  intros w a d Hd Hv He. split; [|split].
  - eexists. split; [apply (queryDomainStructure_listing w a d Hd Hv He)|].
    split; reflexivity.
  - cbv zeta. split; vm_compute; reflexivity.
  - cbv zeta. split; vm_compute; reflexivity.
Qed.

(** Three files, of which one is in one bucket, one in two and one in none. *)
Lemma total_files_counts_every_file_once_witness :
  exists env,
    queryDomainStructure Scenario.core
      (Scenario.core_with [Scenario.service_test; Scenario.service_controller;
                           Scenario.plain_class])
    = Return env /\ isError env = false /\
    at_path ["total_files"] (body (Return env)) = VInt 3.
Proof.
  exact (proj1 (total_files_counts_every_file_once
                  (Scenario.core_with [Scenario.service_test; Scenario.service_controller;
                                       Scenario.plain_class])
                  [("domain", "Core")] "Core" eq_refl (or_introl eq_refl) eq_refl)).
Defined.

(** ** Coverage *)










(** ** Route lookup *)

Lemma find_item_named : forall n table,
  find_item (fun r => obind (getprop r "name")
                            (fun name => Return (strict_equal name (Some n))))
            (map route_object table)
  = Return match List.find (named n) table with
           | Some r => route_object r
           | None => VUndefined
           end.
Proof.
  intros n table. induction table as [|r table IH]; simpl; [reflexivity|].
  unfold named at 1. destruct (route_name r) as [s|]; simpl.
  - destruct (String.eqb s n); [reflexivity|exact IH].
  - exact IH.
Qed.

(** C7, as the claim has it, fails: a route listed with middleware null is
    answered with middleware [], not with what the route has. *)
Lemma null_middleware_comes_back_empty :
  let answer :=
    body (fst (findRouteByName (Some [("route_name", "health")])
                               (Scenario.routes_at 1000) initial_state)) in
  In Scenario.health_route Scenario.route_table /\
  at_path ["middleware"] (route_object Scenario.health_route) = VNull /\
  at_path ["uri"] answer = VStr "/up" /\
  at_path ["middleware"] answer = VArr [] /\
  at_path ["middleware"] answer <> at_path ["middleware"] (route_object Scenario.health_route).
Proof.
  cbv zeta. split; [right; left; reflexivity|].
  split; [reflexivity|]. split; [vm_compute; reflexivity|].
  split; [vm_compute; reflexivity|]. vm_compute. discriminate.
Qed.

(** C7, amended: over a route table, find_route_by_name answers for the
    first route of the given name with its name, method, uri and action
    as they are, its middleware as it is when it is a list and [] when it
    is null, and the domain that extractDomain finds in the action (the
    token between App, a backslash, and the next backslash: Employer for
    the action of the orders route); for a name that no route has it throws
    the error Route '<name>' not found. *)
Theorem find_route_by_name_answer :
  forall (w : World) (st st' : ServerState) (table : list RouteRecord)
         (a : Arguments) (n : string),
    field "route_name" a = Some n ->
    getRoutes w st = (Return (VArr (map route_object table)), st') ->
    findRouteByName (Some a) w st
    = match List.find (named n) table with
      | Some r => (Return (reply (Stringified (route_answer r))), st')
      | None => (Throw (new_Error ("Route '" ++ n ++ "' not found")), st')
      end
    /\
    (forall r,
        at_path ["method"] (route_answer r) = at_path ["method"] (route_object r) /\
        at_path ["uri"] (route_answer r) = at_path ["uri"] (route_object r) /\
        at_path ["controller"] (route_answer r) = at_path ["action"] (route_object r) /\
        at_path ["middleware"] (route_answer r)
        = match route_middleware r with
          | Some _ => at_path ["middleware"] (route_object r)
          | None => VArr []
          end /\
        at_path ["domain"] (route_answer r) = VDomain (extractDomain (route_action r))) /\
    extractDomain (route_action Scenario.orders_route) = Some "Employer".
Proof.
  intros w st st' table a n Hn Hr. split; [|split].
  - unfold findRouteByName, bind, lift. simpl destructure. cbv iota beta.
    rewrite Hn, Hr. simpl array_find. rewrite find_item_named.
    destruct (List.find (named n) table) as [r|]; [|reflexivity].
    simpl truthy. simpl negb. cbv iota. simpl getprop. simpl call_extractDomain.
    unfold ret, route_answer.
    destruct r as [name method uri action middleware]; simpl.
    destruct middleware as [l|]; reflexivity.
  - intro r. destruct r as [name method uri action middleware].
    repeat split; try reflexivity. destruct middleware; reflexivity.
  - vm_compute. reflexivity.
Qed.

(** Scenario B: the orders route by its name, and a name no route has. *)
Lemma find_route_by_name_answer_witness :
  fst (findRouteByName (Some [("route_name", "fleet.orders.index")])
                       (Scenario.routes_at 1000) initial_state)
  = Return (reply (Stringified
      (VObj [ ("route_name", VStr "fleet.orders.index");
              ("method", VStr "GET");
              ("uri", VStr "/async/fleet/orders");
              ("controller", VStr (route_action Scenario.orders_route));
              ("middleware", VArr [VStr "auth"]);
              ("domain", VStr "Employer") ])))
  /\
  fst (findRouteByName (Some [("route_name", "fleet.orders.show")])
                       (Scenario.routes_at 1000) initial_state)
  = Throw (new_Error "Route 'fleet.orders.show' not found").
Proof.
  assert (H : getRoutes (Scenario.routes_at 1000) initial_state
              = (Return (VArr (map route_object Scenario.route_table)),
                 Scenario.after_first_call)) by (vm_compute; reflexivity).
  split.
  - exact (eq_trans
             (f_equal fst
                (proj1 (find_route_by_name_answer
                          (Scenario.routes_at 1000) initial_state Scenario.after_first_call
                          Scenario.route_table [("route_name", "fleet.orders.index")]
                          "fleet.orders.index" eq_refl H)))
             eq_refl).
  - exact (eq_trans
             (f_equal fst
                (proj1 (find_route_by_name_answer
                          (Scenario.routes_at 1000) initial_state Scenario.after_first_call
                          Scenario.route_table [("route_name", "fleet.orders.show")]
                          "fleet.orders.show" eq_refl H)))
             eq_refl).
Defined.

(** ** Component usage *)

Lemma scan_vue_files_from : forall w n files acc usages,
  scan_vue_files w n files acc = Return usages ->
  usages = (acc ++ flat_map (contribution w n) files)%list.
Proof.
  intros w n files. induction files as [|f files IH]; intros acc usages H; simpl in H.
  - inversion H. simpl. rewrite app_nil_r. reflexivity.
  - simpl. unfold contribution at 1.
    destruct (scan_vue_file w n f) as [[u|]|e]; simpl in H.
    + rewrite (IH _ _ H). rewrite <- app_assoc. reflexivity.
    + exact (IH _ _ H).
    + discriminate H.
Qed.

Lemma contribution_iff : forall w n f u,
  In u (contribution w n f) <->
  exists content matches,
    readFileSync w f = Return content /\
    RegExp_test w (import_source n) "i" content = Return true /\
    RegExp_match_all w (template_source n) "gi" content = Return matches /\
    0 < List.length matches /\
    u = mkUsage (relativePath w f)
                (if includes f "/pages/" then "page" else "component")
                (extractDomain f) (List.length matches).
Proof.
  intros w n f u. unfold contribution, scan_vue_file. split.
  - destruct (readFileSync w f) as [content|e] eqn:Hr; simpl; [|contradiction].
    destruct (RegExp_test w (import_source n) "i" content) as [[|]|e] eqn:Ht; simpl;
      try contradiction.
    destruct (RegExp_match_all w (template_source n) "gi" content) as [matches|e] eqn:Hm;
      simpl; [|contradiction].
    destruct (Nat.ltb 0 (List.length matches)) eqn:L; simpl; [|contradiction].
    intros [H|[]]. exists content, matches. apply Nat.ltb_lt in L.
    repeat split; auto.
  - intros [content [matches [Hr [Ht [Hm [Hl Hu]]]]]].
    rewrite Hr. simpl. rewrite Ht. simpl. rewrite Hm. simpl.
    apply Nat.ltb_lt in Hl. rewrite Hl. simpl. left. symmetry. exact Hu.
Qed.

Lemma total_usages_sum : forall usages,
  total_usages usages = list_sum (map usage_count usages).
Proof.
  intro usages. unfold total_usages.
  assert (G : forall l k, fold_left (fun sum u => sum + usage_count u) l k
                          = k + list_sum (map usage_count l)).
  { induction l as [|u l IH]; intro k; simpl; [lia|]. rewrite IH. lia. }
  rewrite G. reflexivity.
Qed.

(** C8: when find_component_usage returns, its usages are, file by file
    in the order of the glob, the contributions of the files: a file adds an
    entry exactly when its content matches the import pattern and the tag
    pattern matches at least once, and the entry carries the number of tag
    matches; total_usages is their sum and files_using their number.  So
    with A importing and rendering twice and B importing and never rendering,
    total_usages is 2 and files_using is 1. *)
Theorem component_usage_needs_import_and_tag :
  forall (w : World) (a : Arguments) (env : Envelope),
    findComponentUsage (Some a) w = Return env ->
    let n := field "component_name" a in
    let usages := flat_map (contribution w n) (all_vue_files w) in
    let summary := at_path ["usage_summary"] (body (Return env)) in
    at_path ["usages"] (body (Return env)) = VArr (map usage_object usages) /\
    at_path ["total_usages"] summary = VInt (list_sum (map usage_count usages)) /\
    at_path ["files_using"] summary = VInt (List.length usages) /\
    (forall u, In u usages <->
       exists f content matches,
         In f (all_vue_files w) /\
         readFileSync w f = Return content /\
         RegExp_test w (import_source n) "i" content = Return true /\
         RegExp_match_all w (template_source n) "gi" content = Return matches /\
         0 < List.length matches /\
         u = mkUsage (relativePath w f)
                     (if includes f "/pages/" then "page" else "component")
                     (extractDomain f) (List.length matches)) /\
    (forall A B contentA contentB tag1 tag2,
        all_vue_files w = [A; B] ->
        readFileSync w A = Return contentA ->
        RegExp_test w (import_source n) "i" contentA = Return true ->
        RegExp_match_all w (template_source n) "gi" contentA = Return [tag1; tag2] ->
        readFileSync w B = Return contentB ->
        RegExp_test w (import_source n) "i" contentB = Return true ->
        RegExp_match_all w (template_source n) "gi" contentB = Return [] ->
        at_path ["total_usages"] summary = VInt 2 /\
        at_path ["files_using"] summary = VInt 1).
Proof.
  intros w a env H n usages summary.
  unfold findComponentUsage, destructure in H.
  cbv beta iota delta [obind] in H. fold n in H.
  match type of H with
  | context [match globSync ?x ?pattern ?options with _ => _ end] =>
      destruct (globSync x pattern options) as [|componentFile others]
  end; [discriminate H|].
  destruct (scan_vue_files w n (all_vue_files w) []) as [found|e] eqn:S;
    [|discriminate H].
  apply scan_vue_files_from in S. simpl in S. fold usages in S. subst found.
  inversion H; subst env; clear H.
  subst summary. unfold body, reply. cbn [at_path lookup String.eqb Ascii.eqb Bool.eqb].
  unfold usage_summary. cbn [at_path lookup String.eqb Ascii.eqb Bool.eqb].
  rewrite total_usages_sum.
  split; [reflexivity|]. split; [reflexivity|]. split; [reflexivity|]. split.
  - intro u. subst usages. rewrite in_flat_map. split.
    + intros [f [Hf Hu]]. apply contribution_iff in Hu.
      destruct Hu as [content [matches Hu]]. exists f, content, matches. tauto.
    + intros [f [content [matches [Hf Hu]]]]. exists f. split; [exact Hf|].
      apply contribution_iff. exists content, matches. exact Hu.
  - intros A B contentA contentB tag1 tag2 Hfiles HrA HtA HmA HrB HtB HmB.
    subst usages. rewrite Hfiles. simpl flat_map.
    unfold contribution, scan_vue_file.
    rewrite HrA, HrB. simpl. rewrite HtA, HtB. simpl. rewrite HmA, HmB. simpl.
    split; reflexivity.
Qed.

(** Scenario D, and a file that renders the tag without importing the
    component. *)
Lemma component_usage_needs_import_and_tag_witness :
  let summary :=
    at_path ["usage_summary"]
            (body (findComponentUsage Scenario.button_usage
                     (Scenario.components [Scenario.page_a; Scenario.card_b]))) in
  at_path ["total_usages"] summary = VInt 2 /\
  at_path ["files_using"] summary = VInt 1 /\
  at_path ["usage_summary"; "files_using"]
          (body (findComponentUsage Scenario.button_usage
                   (Scenario.components [Scenario.bare_c]))) = VInt 0.
Proof.
  assert (E : exists env,
             findComponentUsage Scenario.button_usage
               (Scenario.components [Scenario.page_a; Scenario.card_b]) = Return env)
    by (eexists; vm_compute; reflexivity).
  destruct E as [env E].
  pose proof (component_usage_needs_import_and_tag
                (Scenario.components [Scenario.page_a; Scenario.card_b])
                [("component_name", "Button")] env E) as H.
  cbv zeta in H. destruct H as [_ [_ [_ [_ H]]]].
  cbv zeta. rewrite E.
  split; [|split].
  - refine (proj1 (H Scenario.page_a Scenario.card_b _ _ "<Button" "<Button"
                     eq_refl eq_refl eq_refl eq_refl eq_refl eq_refl eq_refl)).
  - refine (proj2 (H Scenario.page_a Scenario.card_b _ _ "<Button" "<Button"
                     eq_refl eq_refl eq_refl eq_refl eq_refl eq_refl eq_refl)).
  - vm_compute. reflexivity.
Defined.

(** ** The schema query and its fallback *)

Lemma describe_table_outcome : forall t w st,
  describe_table t w st = (describe_outcome w t, described t st).
Proof.
  intros t w st. unfold describe_table, describe_outcome, bind, exec, lift, ret, obind.
  destruct (execSync w (describe_command t) (O2O_BASE_PATH w) 10000) as [output|e];
    [|reflexivity].
  destruct (JSON_parse w (trim output)) as [schema|e]; [|reflexivity].
  destruct (array_map schema format_column) as [columns|e]; reflexivity.
Qed.

Lemma queryDatabaseSchema_outcome : forall a w st,
  queryDatabaseSchema (Some a) w st
  = match describe_outcome w (field "table_name" a) with
    | Return env => (Return env, described (field "table_name" a) st)
    | Throw cause =>
        read_migration (field "table_name" a) cause w
                       (described (field "table_name" a) st)
    end.
Proof.
  intros a w st. unfold queryDatabaseSchema, bind, lift, try_catch. simpl.
  rewrite describe_table_outcome. destruct (describe_outcome w _); reflexivity.
Qed.

(** C9, as the claim has it, fails: with no database at hand and a
    migration for the table that may not be read, query_database_schema
    throws, although a matching migration file was found. *)
Lemma unreadable_migration_is_an_error :
  describe_outcome Scenario.locked (Some "orders")
  = Throw (new_Error ("Command failed: " ++ describe_command (Some "orders"))) /\
  migrations Scenario.locked (Some "orders") = [Scenario.migration] /\
  fst (queryDatabaseSchema Scenario.orders_table Scenario.locked initial_state)
  = Throw (new_Error ("EACCES: permission denied, open '" ++ Scenario.migration ++ "'")).
Proof.
  split; [|split]; vm_compute; reflexivity.
Qed.

(** C9, amended: when the DESCRIBE query fails, query_database_schema
    looks for the migrations of the table; if there is one and the first
    can be read it returns, without isError, a notice followed by the raw
    text of that file; it throws only when the query failed and either no
    migration was found (the error names the table and the cause) or the
    first one could not be read (the error of the read). *)
Theorem schema_fallback :
  forall (w : World) (st : ServerState) (a : Arguments) (cause : Exception),
    describe_outcome w (field "table_name" a) = Throw cause ->
    let t := field "table_name" a in
    queryDatabaseSchema (Some a) w st
    = (match migrations w t with
       | first :: _ =>
           match readFileSync w first with
           | Return content => Return (reply (Plain (migration_notice ++ content)))
           | Throw e => Throw e
           end
       | [] =>
           Throw (new_Error ("Could not retrieve schema for table '" ++ template t
                             ++ "'. Error: " ++ String_of_exception cause))
       end,
       described t st)
    /\
    (forall w' st' e st'',
        queryDatabaseSchema (Some a) w' st' = (Throw e, st'') ->
        (exists cause', describe_outcome w' t = Throw cause') /\
        (migrations w' t = [] \/
         exists first rest,
           migrations w' t = first :: rest /\ readFileSync w' first = Throw e)).
Proof.
  intros w st a cause H t. split.
  - rewrite queryDatabaseSchema_outcome. fold t. fold t in H. rewrite H.
    unfold read_migration, bind, ask, lift, ret, throw.
    destruct (migrations w t) as [|first rest]; [reflexivity|].
    destruct (readFileSync w first); reflexivity.
  - intros w' st' e st'' H'. rewrite queryDatabaseSchema_outcome in H'. fold t in H'.
    destruct (describe_outcome w' t) as [env|cause'] eqn:D; [discriminate H'|].
    split; [exists cause'; reflexivity|].
    unfold read_migration, bind, ask, lift, ret, throw in H'.
    destruct (migrations w' t) as [|first rest]; [left; reflexivity|].
    right. exists first, rest. split; [reflexivity|].
    destruct (readFileSync w' first) as [content|e']; inversion H'. reflexivity.
Qed.

(** No database at hand and a readable migration for the table. *)
Lemma schema_fallback_witness :
  fst (queryDatabaseSchema Scenario.orders_table
         (Scenario.offline [(Scenario.migration, "<?php Schema::create('orders');")])
         initial_state)
  = Return (mkEnvelope
              (Plain ("Could not query database directly. Found migration file:"
                      ++ Scenario.nl ++ Scenario.nl ++ "<?php Schema::create('orders');"))
              false).
Proof.
  exact (eq_trans
           (f_equal fst
              (proj1 (schema_fallback
                        (Scenario.offline
                           [(Scenario.migration, "<?php Schema::create('orders');")])
                        initial_state [("table_name", "orders")]
                        (new_Error ("Command failed: " ++ describe_command (Some "orders")))
                        eq_refl)))
           eq_refl).
Defined.

(** * The other handlers: properties *)

(** ** The helpers *)

Lemma startsWith_includes : forall m s, startsWith m s = true -> includes s m = true.
Proof.
  intros m s H. destruct s; simpl; rewrite H; reflexivity.
Qed.

Lemma includes_step : forall c s m,
  includes (String c s) m = startsWith m (String c s) || includes s m.
Proof. reflexivity. Qed.

Lemma includes_tail : forall c s m, includes s m = true -> includes (String c s) m = true.
Proof.
  intros c s m H. rewrite includes_step, H. apply orb_true_r.
Qed.

Lemma match_domain_here_some : forall s d,
  match_domain_here s = Some d ->
  In d VALID_DOMAINS /\ startsWith ("App" ++ backslash ++ d ++ backslash) s = true.
Proof.
  intros s d H. unfold match_domain_here in H. apply find_some in H. exact H.
Qed.

Lemma match_domain_here_none : forall s d,
  match_domain_here s = None -> In d VALID_DOMAINS ->
  startsWith ("App" ++ backslash ++ d ++ backslash) s = false.
Proof.
  intros s d H Hd. unfold match_domain_here in H.
  exact (find_none _ _ H d Hd).
Qed.

Lemma extractDomain_cons : forall c s,
  extractDomain (String c s)
  = match match_domain_here (String c s) with
    | Some d => Some d
    | None => extractDomain s
    end.
Proof. reflexivity. Qed.

Lemma extractDomain_spec : forall s,
  match extractDomain s with
  | Some d => In d VALID_DOMAINS /\ includes s (domain_marker (Some d)) = true
  | None => forall d, In d VALID_DOMAINS -> includes s (domain_marker (Some d)) = false
  end.
Proof.
  induction s as [|c s IH].
  - change (extractDomain EmptyString) with (@None string).
    intros d Hd. simpl in Hd.
    repeat (destruct Hd as [Hd|Hd]; [subst d; reflexivity|]). contradiction.
  - rewrite extractDomain_cons.
    destruct (match_domain_here (String c s)) as [d|] eqn:E.
    + apply match_domain_here_some in E. destruct E as [Hd Hs].
      split; [exact Hd|]. apply startsWith_includes. exact Hs.
    + destruct (extractDomain s) as [d|].
      * destruct IH as [Hd Hi]. split; [exact Hd|]. apply includes_tail. exact Hi.
      * intros d Hd. rewrite includes_step.
        change (domain_marker (Some d)) with ("App" ++ backslash ++ d ++ backslash).
        rewrite (match_domain_here_none _ _ E Hd).
        change (domain_marker (Some d)) with ("App" ++ backslash ++ d ++ backslash) in IH.
        simpl orb. apply IH. exact Hd.
Qed.

(** X1: extractDomain answers with one of the four domain tokens, and
    then the text holds App, backslash, that token, backslash; it answers
    null exactly when the text holds that marker for none of the four.  So a
    route that passes the domain filter of a valid domain has a domain. *)
Theorem extractDomain_sound_and_complete :
  forall (s : string),
    match extractDomain s with
    | Some d => In d VALID_DOMAINS /\ includes s (domain_marker (Some d)) = true
    | None => forall d, In d VALID_DOMAINS -> includes s (domain_marker (Some d)) = false
    end
    /\
    (forall d, In d VALID_DOMAINS -> includes s (domain_marker (Some d)) = true ->
               exists d', extractDomain s = Some d' /\ In d' VALID_DOMAINS).
Proof.
  intro s. split; [apply extractDomain_spec|].
  intros d Hd Hi. pose proof (extractDomain_spec s) as H.
  destruct (extractDomain s) as [d'|].
  - exists d'. split; [reflexivity|apply H].
  - rewrite (H d Hd) in Hi. discriminate Hi.
Qed.

(** The action of the orders route, and a file path of the same domain. *)
Lemma extractDomain_sound_and_complete_witness :
  extractDomain "App\Employer\Controllers\OrderController@index" = Some "Employer" /\
  extractDomain "/srv/o2o/app/Employer/UI/resources/js/pages/Orders.vue" = None /\
  (exists d', extractDomain "Closure at App\Core\Routes then App\Dealer\X" = Some d'
              /\ In d' VALID_DOMAINS).
Proof.
  split; [reflexivity|]. split; [reflexivity|].
  apply (proj2 (extractDomain_sound_and_complete
                  "Closure at App\Core\Routes then App\Dealer\X") "Dealer").
  - right. right. left. reflexivity.
  - reflexivity.
Defined.

Lemma startsWith_needs : forall a m s,
  includes s (String a EmptyString) = false -> startsWith (String a m) s = false.
Proof.
  intros a m s H. destruct s as [|c s]; [reflexivity|].
  simpl in H. apply orb_false_iff in H. destruct H as [H _].
  simpl. destruct (Ascii.eqb a c); [discriminate H|reflexivity].
Qed.

Lemma includes_needs : forall a m1 m2 s,
  includes s (String a EmptyString) = false -> includes s (m1 ++ String a m2) = false.
Proof.
  intros a m1 m2 s. revert a m1 m2.
  assert (sw : forall m1 a m2 s,
             includes s (String a EmptyString) = false ->
             startsWith (m1 ++ String a m2) s = false).
  { induction m1 as [|b m1 IH]; intros a m2 s0 H; simpl.
    - apply startsWith_needs. exact H.
    - destruct s0 as [|c s0]; [reflexivity|].
      simpl in H. apply orb_false_iff in H. destruct H as [_ H].
      rewrite (IH a m2 s0 H). apply andb_false_r. }
  induction s as [|c s IH]; intros a m1 m2 H.
  - simpl. rewrite (sw m1 a m2 EmptyString H). reflexivity.
  - rewrite includes_step. rewrite (sw m1 a m2 _ H). simpl.
    apply IH. simpl in H. apply orb_false_iff in H. apply H.
Qed.


(** X2: a text without a backslash has no domain: for a file path written
    with slashes extractDomain answers null, whatever directory it names. *)
Theorem extractDomain_needs_backslash :
  forall (s : string), includes s backslash = false -> extractDomain s = None.
Proof.
  intros s H.
  pose proof (extractDomain_spec s) as E.
  destruct (extractDomain s) as [d|]; [|reflexivity].
  destruct E as [_ E].
  assert (F : includes s (domain_marker (Some d)) = false)
    by exact (includes_needs "092"%char "App" (d ++ backslash) s H).
  rewrite F in E. discriminate E.
Qed.

Lemma extractDomain_needs_backslash_witness :
  extractDomain "/srv/o2o/app/Core/UI/resources/js/components/Button.vue" = None.
Proof.
  apply extractDomain_needs_backslash. reflexivity.
Defined.

Lemma startsWith_append : forall m s, startsWith m (m ++ s) = true.
Proof.
  induction m as [|c m IH]; intro s; simpl; [reflexivity|].
  rewrite Ascii.eqb_refl, IH. reflexivity.
Qed.

Lemma drop_append : forall m s, drop (String.length m) (m ++ s) = s.
Proof.
  induction m as [|c m IH]; intro s; simpl; [reflexivity|apply IH].
Qed.

Lemma append_associative : forall a b c : string, (a ++ b) ++ c = a ++ b ++ c.
Proof.
  induction a as [|x a IH]; intros b c; simpl; [reflexivity|].
  rewrite IH. reflexivity.
Qed.

Lemma replace_unfold : forall s pattern replacement,
  replace s pattern replacement
  = if startsWith pattern s then replacement ++ drop (String.length pattern) s
    else match s with
         | EmptyString => EmptyString
         | String c s' => String c (replace s' pattern replacement)
         end.
Proof. destruct s; reflexivity. Qed.

Lemma replace_absent : forall s pattern replacement,
  includes s pattern = false -> replace s pattern replacement = s.
Proof.
  induction s as [|c s IH]; intros pattern replacement H; rewrite replace_unfold.
  - simpl in H. apply orb_false_iff in H. destruct H as [H _]. rewrite H. reflexivity.
  - rewrite includes_step in H. apply orb_false_iff in H. destruct H as [H1 H2].
    rewrite H1, (IH _ _ H2). reflexivity.
Qed.

Lemma relativePath_below : forall w rest,
  relativePath w (O2O_BASE_PATH w ++ "/" ++ rest) = rest.
Proof.
  intros w rest. unfold relativePath. rewrite <- append_associative.
  rewrite replace_unfold, startsWith_append, drop_append. reflexivity.
Qed.

(** X3: relativePath takes the base directory and its slash off the front
    of a path below the base, leaves a path that does not hold them as it is,
    and removes them once only. *)
Theorem relativePath_strips_base :
  forall (w : World) (rest : string),
    relativePath w (O2O_BASE_PATH w ++ "/" ++ rest) = rest /\
    (forall p, includes p (O2O_BASE_PATH w ++ "/") = false -> relativePath w p = p) /\
    relativePath w (O2O_BASE_PATH w ++ "/" ++ O2O_BASE_PATH w ++ "/" ++ rest)
    = O2O_BASE_PATH w ++ "/" ++ rest.
Proof.
  intros w rest. split; [apply relativePath_below|]. split; [|apply relativePath_below].
  intros p H. unfold relativePath. apply replace_absent. exact H.
Qed.

Lemma relativePath_strips_base_witness :
  relativePath (Scenario.core_with []) "/srv/o2o/app/Core/Models/Order.php"
  = "app/Core/Models/Order.php" /\
  relativePath (Scenario.core_with []) "tests/Unit/Core/OrderTest.php"
  = "tests/Unit/Core/OrderTest.php".
Proof.
  split.
  - exact (proj1 (relativePath_strips_base (Scenario.core_with [])
                    "app/Core/Models/Order.php")).
  - apply (proj1 (proj2 (relativePath_strips_base (Scenario.core_with []) EmptyString))).
    reflexivity.
Defined.

(** ** find_related_files *)

Lemma related_bucket_of_rule : forall w entity domain files tests name rule,
  In (name, rule) related_rules ->
  bucket name (relativeRelated w entity domain files tests)
  = Some (map VStr (relativizeArray w (filter rule files))).
Proof.
  intros w entity domain files tests name rule H.
  unfold related_rules in H. simpl in H.
  repeat (destruct H as [H|H]; [inversion H; subst; reflexivity|]).
  contradiction.
Qed.

Lemma filter_two_ways : forall (A : Type) (p q : A -> bool) (l : list A),
  List.length (filter (fun x => p x && negb (q x)) l)
  + List.length (filter (fun x => p x && q x) l)
  = List.length (filter p l).
Proof.
  intros A p q l. induction l as [|x l IH]; simpl; [reflexivity|].
  destruct (p x), (q x); simpl; lia.
Qed.

(** X4: find_related_files throws Search path not found when the directory
    it is to search does not exist, and otherwise returns a listing whose
    total_files is the number of source matches plus the number of test
    matches, whose tests bucket is the test matches, and whose other buckets
    are the filters of [related_rules] over the source matches alone. *)
Theorem findRelatedFiles_listing :
  forall (w : World) (a : Arguments),
    let entity := field "entity_name" a in
    let domain := field "domain" a in
    let files := related_files w entity domain in
    let tests := related_tests w entity in
    let result := body (findRelatedFiles (Some a) w) in
    (existsSync w (related_search_path w domain) = false ->
     findRelatedFiles (Some a) w
     = Throw (new_Error ("Search path not found: " ++ related_search_path w domain))) /\
    (existsSync w (related_search_path w domain) = true ->
     isError_free (findRelatedFiles (Some a) w) = true /\
     at_path ["total_files"] result = VInt (List.length files + List.length tests) /\
     bucket "tests" result = Some (map VStr (relativizeArray w tests)) /\
     (forall name rule, In (name, rule) related_rules ->
        bucket name result = Some (map VStr (relativizeArray w (filter rule files))))).
Proof.
  intros w a entity domain files tests result. split.
  - intro H. unfold findRelatedFiles. simpl obind. fold domain. rewrite H. reflexivity.
  - intro H.
    assert (E : findRelatedFiles (Some a) w
                = Return (reply (Stringified
                                   (relativeRelated w entity domain files tests)))).
    { unfold findRelatedFiles. simpl obind. fold domain. rewrite H. reflexivity. }
    subst result. rewrite E. unfold body, reply.
    split; [reflexivity|]. split; [reflexivity|]. split; [reflexivity|].
    intros name rule Hr. apply related_bucket_of_rule. exact Hr.
Qed.

(** The Order entity in app/, and a domain whose directory is missing. *)
Lemma findRelatedFiles_listing_witness :
  at_path ["total_files"] (body (findRelatedFiles (Some Cases.order_entity) Cases.orders))
  = VInt 5 /\
  bucket "tests" (body (findRelatedFiles (Some Cases.order_entity) Cases.orders))
  = Some [VStr "tests/Unit/Employer/OrderControllerTest.php"] /\
  findRelatedFiles (Some [("entity_name", "Order"); ("domain", "Dealer")]) Cases.orders
  = Throw (new_Error "Search path not found: /srv/o2o/app/Dealer").
Proof.
  pose proof (findRelatedFiles_listing Cases.orders Cases.order_entity) as H.
  pose proof (findRelatedFiles_listing Cases.orders
                [("entity_name", "Order"); ("domain", "Dealer")]) as H'.
  cbv zeta in H, H'. destruct H as [_ H]. destruct H' as [H' _].
  destruct (H eq_refl) as [_ [Ht [Hb _]]].
  split; [exact Ht|]. split; [exact Hb|]. exact (H' eq_refl).
Defined.

(** X5: in the listing of find_related_files the source matches whose
    path holds Repository are split between two buckets: those that also hold
    Interface are under repository_interfaces, the others under repositories,
    so the sizes of the two add up to the number of such matches. *)
Theorem related_repositories_split :
  forall (w : World) (a : Arguments),
    existsSync w (related_search_path w (field "domain" a)) = true ->
    let files := related_files w (field "entity_name" a) (field "domain" a) in
    let result := body (findRelatedFiles (Some a) w) in
    exists repositories interfaces,
      bucket "repositories" result = Some repositories /\
      bucket "repository_interfaces" result = Some interfaces /\
      List.length repositories + List.length interfaces
      = List.length (filter (fun f => includes f "Repository") files) /\
      (forall f, In f files -> includes f "Repository" = true ->
         if includes f "Interface"
         then In (VStr (relativePath w f)) interfaces
         else In (VStr (relativePath w f)) repositories).
Proof.
  intros w a H files result.
  assert (E : findRelatedFiles (Some a) w
              = Return (reply (Stringified
                                 (relativeRelated w (field "entity_name" a)
                                    (field "domain" a) files
                                    (related_tests w (field "entity_name" a)))))).
  { unfold findRelatedFiles. simpl obind. rewrite H. reflexivity. }
  subst result. rewrite E. unfold body, reply.
  eexists. eexists.
  split; [apply related_bucket_of_rule; unfold related_rules; simpl;
          right; left; reflexivity|].
  split; [apply related_bucket_of_rule; unfold related_rules; simpl;
          right; right; left; reflexivity|].
  split.
  - unfold relativizeArray. rewrite !length_map.
    apply (filter_two_ways string (fun f => includes f "Repository")
             (fun f => includes f "Interface")).
  - intros f Hf Hr. unfold relativizeArray.
    destruct (includes f "Interface") eqn:Hi;
      apply in_map; apply in_map; apply filter_In; (split; [exact Hf|]);
      rewrite Hr, Hi; reflexivity.
Qed.

Lemma related_repositories_split_witness :
  exists repositories interfaces,
    bucket "repositories" (body (findRelatedFiles (Some Cases.order_entity) Cases.orders))
    = Some repositories /\
    bucket "repository_interfaces"
           (body (findRelatedFiles (Some Cases.order_entity) Cases.orders))
    = Some interfaces /\
    List.length repositories + List.length interfaces = 2.
Proof.
  destruct (related_repositories_split Cases.orders Cases.order_entity eq_refl)
    as [repositories [interfaces [H1 [H2 [H3 _]]]]].
  exists repositories, interfaces. split; [exact H1|]. split; [exact H2|exact H3].
Defined.

(** ** find_tests_for_file *)

Lemma some_of_type_same : forall kind (l : list string),
  some_of_type kind (map (fun f => (kind, f)) l) = negb (Nat.eqb (List.length l) 0).
Proof.
  intros kind l. destruct l as [|f l]; [reflexivity|].
  unfold some_of_type. simpl. rewrite String.eqb_refl. reflexivity.
Qed.

Lemma some_of_type_other : forall kind other (l : list string),
  String.eqb other kind = false ->
  some_of_type kind (map (fun f => (other, f)) l) = false.
Proof.
  intros kind other l H. unfold some_of_type.
  induction l as [|f l IH]; simpl; [reflexivity|]. rewrite H. exact IH.
Qed.

Lemma some_of_type_app : forall kind l1 l2,
  some_of_type kind (l1 ++ l2) = some_of_type kind l1 || some_of_type kind l2.
Proof. intros. unfold some_of_type. apply existsb_app. Qed.

(** X6: find_tests_for_file returns for every file path, whatever the
    filesystem holds.  total_test_count is the number of unit, feature and
    Cypress matches for the class name, plus the component test matches
    when the file type is component and only then; has_unit_tests and
    has_feature_tests say whether their glob found a file, has_e2e_tests
    whether a Cypress or a counted component test was found. *)
Theorem findTestsForFile_summary :
  forall (w : World) (a : Arguments) (file_path : string),
    field "file_path" a = Some file_path ->
    let className := extractClassName w file_path in
    let units := List.length (found_unit w className) in
    let features := List.length (found_feature w className) in
    let e2e :=
      List.length (found_cypress w className)
      + (if String.eqb (file_type_of file_path) "component"
         then List.length (found_component w className) else 0) in
    let result := body (findTestsForFile (Some a) w) in
    isError_free (findTestsForFile (Some a) w) = true /\
    at_path ["file_type"] result = VStr (file_type_of file_path) /\
    at_path ["coverage_summary"; "total_test_count"] result = VInt (units + features + e2e) /\
    at_path ["coverage_summary"; "has_unit_tests"] result = VBool (negb (Nat.eqb units 0)) /\
    at_path ["coverage_summary"; "has_feature_tests"] result
    = VBool (negb (Nat.eqb features 0)) /\
    at_path ["coverage_summary"; "has_e2e_tests"] result = VBool (negb (Nat.eqb e2e 0)).
Proof.
  intros w a file_path H className units features e2e result.
  assert (E : findTestsForFile (Some a) w
              = Return (reply (Stringified
                  (VObj [ ("source_file", VStr file_path);
                          ("file_type", VStr (file_type_of file_path));
                          ("tests",
                           VArr (map (test_entry w)
                                     (tests_found w className (file_type_of file_path))));
                          ("coverage_summary",
                           VObj [ ("has_unit_tests",
                                   VBool (some_of_type "unit"
                                            (tests_found w className
                                                         (file_type_of file_path))));
                                  ("has_feature_tests",
                                   VBool (some_of_type "feature"
                                            (tests_found w className
                                                         (file_type_of file_path))));
                                  ("has_e2e_tests",
                                   VBool (some_of_type "cypress"
                                            (tests_found w className
                                                         (file_type_of file_path))));
                                  ("total_test_count",
                                   VInt (List.length
                                           (tests_found w className
                                                        (file_type_of file_path)))) ]) ])))).
  { unfold findTestsForFile. simpl obind. rewrite H. reflexivity. }
  subst result. rewrite E. unfold body, reply, isError_free. simpl negb.
  cbn [at_path lookup String.eqb Ascii.eqb Bool.eqb].
  assert (L : List.length (tests_found w className (file_type_of file_path))
              = units + features + e2e).
  { unfold tests_found. rewrite !length_app, !length_map. subst units features e2e.
    destruct (String.eqb (file_type_of file_path) "component");
      [rewrite length_map|simpl List.length]; lia. }
  assert (U : some_of_type "unit" (tests_found w className (file_type_of file_path))
              = negb (Nat.eqb units 0)).
  { unfold tests_found. rewrite !some_of_type_app, some_of_type_same.
    rewrite !(some_of_type_other "unit") by reflexivity.
    destruct (String.eqb (file_type_of file_path) "component");
      [rewrite (some_of_type_other "unit") by reflexivity|];
      rewrite !orb_false_r; reflexivity. }
  assert (F : some_of_type "feature" (tests_found w className (file_type_of file_path))
              = negb (Nat.eqb features 0)).
  { unfold tests_found. rewrite !some_of_type_app, (some_of_type_same "feature").
    rewrite !(some_of_type_other "feature") by reflexivity.
    destruct (String.eqb (file_type_of file_path) "component");
      [rewrite (some_of_type_other "feature") by reflexivity|];
      rewrite !orb_false_r; reflexivity. }
  assert (C : some_of_type "cypress" (tests_found w className (file_type_of file_path))
              = negb (Nat.eqb e2e 0)).
  { unfold tests_found. rewrite !some_of_type_app.
    rewrite !(some_of_type_other "cypress") by reflexivity.
    subst e2e.
    destruct (String.eqb (file_type_of file_path) "component").
    - rewrite !some_of_type_same. simpl orb.
      destruct (found_cypress w className), (found_component w className); reflexivity.
    - rewrite some_of_type_same. simpl orb. rewrite orb_false_r, Nat.add_0_r. reflexivity. }
  rewrite L, U, F, C. repeat split; reflexivity.
Qed.

(** A controller with one unit test, and a Vue component with a Cypress
    test and a component test. *)
Lemma findTestsForFile_summary_witness :
  at_path ["coverage_summary"; "total_test_count"]
          (body (findTestsForFile (Some [("file_path", Cases.order_controller)])
                                  Cases.orders)) = VInt 1 /\
  at_path ["coverage_summary"; "has_unit_tests"]
          (body (findTestsForFile (Some [("file_path", Cases.order_controller)])
                                  Cases.orders)) = VBool true /\
  at_path ["coverage_summary"; "total_test_count"]
          (body (findTestsForFile (Some [("file_path", "app/x/components/OrderPanel.vue")])
                                  Cases.orders)) = VInt 2.
Proof.
  pose proof (findTestsForFile_summary Cases.orders
                [("file_path", Cases.order_controller)] Cases.order_controller eq_refl) as H.
  pose proof (findTestsForFile_summary Cases.orders
                [("file_path", "app/x/components/OrderPanel.vue")]
                "app/x/components/OrderPanel.vue" eq_refl) as H'.
  cbv zeta in H, H'.
  destruct H as [_ [_ [Ht [Hu _]]]]. destruct H' as [_ [_ [Ht' _]]].
  split; [exact Ht|]. split; [exact Hu|exact Ht'].
Defined.



(** ** The route tools and the cache *)

Lemma getRoutes_effect : forall w st,
  (fresh w st = true -> snd (getRoutes w st) = st) /\
  (fresh w st = false ->
   execLog (snd (getRoutes w st)) = (execLog st ++ [route_list_command])%list).
Proof.
  intros w st. split; intro F.
  - rewrite (getRoutes_fresh _ _ F). reflexivity.
  - rewrite (getRoutes_refresh _ _ F). destruct (listing w); reflexivity.
Qed.

Ltac settle_state :=
  repeat match goal with
         | |- context [match ?x with _ => _ end] => destruct x
         | |- context [if ?b then _ else _] => destruct b
         end;
  simpl; auto.

Lemma after_getRoutes : forall (k : JSValue -> World -> Outcome Envelope),
  calls_getRoutes_once (bind getRoutes (fun routes => lift (k routes))).
Proof.
  intros k w st. right. unfold bind, lift.
  destruct (getRoutes w st) as [[routes|e] st1]; reflexivity.
Qed.

Lemma after_arguments : forall first args (k : Arguments -> M Envelope),
  (forall a, calls_getRoutes_once (k a)) ->
  calls_getRoutes_once (bind (lift (fun _ => destructure first args)) k).
Proof.
  intros first args k H w st. unfold bind, lift.
  destruct (destructure first args) as [a|e]; [apply H|left; reflexivity].
Qed.

Lemma findRouteByName_once : forall args, calls_getRoutes_once (findRouteByName args).
Proof.
  intro args. unfold findRouteByName. apply after_arguments. intros a w st.
  right. unfold bind, lift, throw, ret.
  destruct (getRoutes w st) as [[routes|e] st1]; [|reflexivity]. simpl.
  settle_state.
Qed.

Lemma findServiceChain_once : forall args, calls_getRoutes_once (findServiceChain args).
Proof.
  intro args. unfold findServiceChain. apply after_arguments. intros a w st.
  unfold bind, lift.
  destruct (findRelatedFiles (Some a) w) as [related|e]; [|left; reflexivity].
  destruct (parse_text w (text related)) as [data|e]; [|left; reflexivity].
  right. destruct (getRoutes w st) as [[routes|e] st1]; reflexivity.
Qed.

Lemma findEndpointDetails_once : forall args, calls_getRoutes_once (findEndpointDetails args).
Proof.
  intro args. unfold findEndpointDetails. apply after_arguments. intros a.
  destruct (negb (is_truthy_string (field "uri" a))
            && negb (is_truthy_string (field "route_name" a))).
  - intros w st. left. reflexivity.
  - apply after_getRoutes.
Qed.

(** X8: a call of a route tool (find_route_by_name,
    find_routes_for_controller, list_all_routes, find_service_chain,
    list_api_endpoints, find_endpoint_details) changes the module state, if
    at all, by one call of getRoutes: while the cache is fresh the state
    stays as it is, and otherwise at most one command, the route listing, is
    run, whether the call returns or throws. *)
Theorem route_tools_share_the_cache :
  forall (p : Platform) (h : option Arguments -> M Envelope),
    In h (route_tools p) ->
    forall (args : option Arguments) (w : World) (st : ServerState),
      let st' := snd (h args w st) in
      (fresh w st = true -> st' = st) /\
      (execLog st' = execLog st \/
       execLog st' = (execLog st ++ [route_list_command])%list).
Proof.
  intros p h Hin args w st st'.
  assert (once : calls_getRoutes_once (h args)).
  { unfold route_tools in Hin. simpl in Hin.
    destruct Hin as [H|[H|[H|[H|[H|[H|[]]]]]]]; subst h.
    - apply findRouteByName_once.
    - unfold findRoutesForController. apply after_arguments. intro a.
      apply after_getRoutes.
    - unfold listAllRoutes. apply after_arguments. intro a. apply after_getRoutes.
    - apply findServiceChain_once.
    - unfold listApiEndpoints. apply after_arguments. intro a. apply after_getRoutes.
    - apply findEndpointDetails_once. }
  destruct (getRoutes_effect w st) as [Hf Hs].
  subst st'. destruct (once w st) as [E|E]; rewrite E.
  - split; [reflexivity|left; reflexivity].
  - split; [exact Hf|].
    destruct (fresh w st) eqn:F.
    + left. rewrite (Hf eq_refl). reflexivity.
    + right. apply Hs. reflexivity.
Qed.

(** With the table cached at time 1000, list_all_routes at time 2000 runs
    no command. *)
Lemma route_tools_share_the_cache_witness :
  snd (listAllRoutes Cases.v8 (Some []) (Cases.routes_at 2000) Cases.cached) = Cases.cached.
Proof.
  apply (proj1 (route_tools_share_the_cache Cases.v8 (listAllRoutes Cases.v8)
                  (or_intror (or_intror (or_introl eq_refl)))
                  (Some []) (Cases.routes_at 2000) Cases.cached)).
  reflexivity.
Defined.

(** ** The route tools over a table of records *)

Lemma filter_items_table : forall (p : JSValue -> Outcome bool) (q : RouteRecord -> bool)
                                  (table : list RouteRecord),
  (forall r, p (route_object r) = Return (q r)) ->
  filter_items p (map route_object table) = Return (map route_object (filter q table)).
Proof.
  intros p q table H. induction table as [|r table IH]; simpl; [reflexivity|].
  rewrite H, IH. simpl. destruct (q r); reflexivity.
Qed.

Lemma map_items_table : forall (f : JSValue -> Outcome JSValue) (g : RouteRecord -> JSValue)
                               (table : list RouteRecord),
  (forall r, f (route_object r) = Return (g r)) ->
  map_items f (map route_object table) = Return (map g table).
Proof.
  intros f g table H. induction table as [|r table IH]; simpl; [reflexivity|].
  rewrite H, IH. reflexivity.
Qed.

Lemma array_filter_table : forall p q table,
  (forall r, p (route_object r) = Return (q r)) ->
  array_filter (VArr (map route_object table)) p
  = Return (VArr (map route_object (filter q table))).
Proof.
  intros p q table H. unfold array_filter. simpl.
  rewrite (filter_items_table p q table H). reflexivity.
Qed.

Lemma action_including : forall r needle,
  has_including (route_object r) "action" needle = Return (action_has (template needle) r).
Proof.
  intros r needle. destruct r as [name method uri action middleware].
  destruct action; reflexivity.
Qed.

Lemma filter_all : forall (A : Type) (l : list A), filter (fun _ => true) l = l.
Proof.
  intros A l. induction l as [|x l IH]; simpl; [reflexivity|]. rewrite IH. reflexivity.
Qed.

Lemma filter_twice : forall (A : Type) (p q : A -> bool) (l : list A),
  filter q (filter p l) = filter (fun x => p x && q x) l.
Proof.
  intros A p q l. induction l as [|x l IH]; simpl; [reflexivity|].
  destruct (p x); simpl; [destruct (q x)|]; rewrite IH; reflexivity.
Qed.

Lemma filter_domain_table : forall domain table,
  filter_domain domain (VArr (map route_object table))
  = Return (VArr (map route_object (filter (in_domain domain) table))).
Proof.
  intros domain table. unfold filter_domain, in_domain.
  destruct (is_truthy_string domain).
  - apply array_filter_table. intro r. apply action_including.
  - rewrite filter_all. reflexivity.
Qed.

Lemma filter_method_table : forall method table,
  filter_method method (VArr (map route_object table))
  = Return (VArr (map route_object (filter (with_method method) table))).
Proof.
  intros method table. unfold filter_method, with_method.
  destruct (is_truthy_string method) eqn:T.
  - apply array_filter_table. intro r. unfold has_equal. simpl.
    destruct method; [reflexivity|discriminate T].
  - rewrite filter_all. reflexivity.
Qed.

Lemma existsb_strings : forall l x,
  existsb (fun v => strict_equal v (Some x)) (map VStr l)
  = existsb (fun y => String.eqb y x) l.
Proof.
  intros l x. induction l as [|y l IH]; simpl; [reflexivity|]. rewrite IH. reflexivity.
Qed.

Lemma filter_middleware_table : forall middleware table,
  filter_middleware middleware (VArr (map route_object table))
  = Return (VArr (map route_object (filter (with_middleware middleware) table))).
Proof.
  intros middleware table. unfold filter_middleware, with_middleware.
  destruct (is_truthy_string middleware) eqn:T.
  - apply array_filter_table. intro r. unfold has_including. simpl getprop. simpl obind.
    destruct middleware as [m|]; [|discriminate T].
    destruct (route_middleware r) as [l|]; simpl; [|reflexivity].
    unfold VStrings. simpl. rewrite existsb_strings. reflexivity.
  - rewrite filter_all. reflexivity.
Qed.

Lemma uri_prefixed : forall r prefix,
  has_prefix (route_object r) "uri" prefix = Return (under_prefix prefix r).
Proof.
  intros r prefix. destruct r as [name method uri action middleware].
  destruct uri; reflexivity.
Qed.

Lemma filter_prefix_table : forall prefix table,
  filter_prefix prefix (VArr (map route_object table))
  = Return (VArr (map route_object (filter (with_prefix prefix) table))).
Proof.
  intros prefix table. unfold filter_prefix, with_prefix.
  destruct (is_truthy_string prefix).
  - apply array_filter_table. intro r. apply uri_prefixed.
  - rewrite filter_all. reflexivity.
Qed.

Lemma name_or_null_read : forall r,
  js_or (VDomain (route_name r)) VNull = name_or_null r.
Proof.
  intro r. unfold name_or_null. destruct (route_name r) as [[|c s]|]; reflexivity.
Qed.

Lemma middleware_or_empty_read : forall r,
  js_or (match route_middleware r with
         | Some l => VStrings l
         | None => VNull
         end) (VArr []) = middleware_or_empty r.
Proof.
  intro r. unfold middleware_or_empty. destruct (route_middleware r); reflexivity.
Qed.

Lemma controller_route_table : forall r,
  controller_route (route_object r) = Return (controller_route_of r).
Proof.
  intro r. unfold controller_route, controller_route_of. simpl.
  rewrite name_or_null_read, middleware_or_empty_read. reflexivity.
Qed.

Lemma route_entry_table : forall r, route_entry (route_object r) = Return (entry_of r).
Proof.
  intro r. unfold route_entry, entry_of. simpl.
  rewrite name_or_null_read, middleware_or_empty_read. reflexivity.
Qed.

(** X9: over a route table, find_routes_for_controller lists, in the
    order of the table, exactly the routes whose action is not empty and
    holds the controller name and, when a domain is given, the marker of
    that domain; total_routes is the number of routes listed, and a name
    or a middleware a route lacks is listed as null or as []. *)
Theorem findRoutesForController_lists :
  forall (w : World) (st st' : ServerState) (table : list RouteRecord) (a : Arguments),
    getRoutes w st = (Return (VArr (map route_object table)), st') ->
    let controller_name := field "controller_name" a in
    let domain := field "domain" a in
    let kept := filter (fun r => action_has (template controller_name) r
                                 && in_domain domain r) table in
    findRoutesForController (Some a) w st
    = (Return (reply (Stringified
         (VObj [ ("controller_name", VOpt controller_name);
                 ("domain", VStr (or_string domain "all domains"));
                 ("total_routes", VInt (List.length kept));
                 ("routes", VArr (map controller_route_of kept)) ]))),
       st').
Proof.
  intros w st st' table a H controller_name domain kept.
  unfold findRoutesForController, bind, lift. simpl destructure. cbv iota beta.
  rewrite H. unfold routes_for_controller. fold controller_name. fold domain.
  rewrite (array_filter_table _ (action_has (template controller_name)) table)
    by (intro r; apply action_including).
  simpl obind. rewrite filter_domain_table. simpl obind.
  rewrite filter_twice. fold kept.
  rewrite (map_items_table _ controller_route_of kept controller_route_table).
  simpl obind. rewrite length_map. reflexivity.
Qed.

(** The routes of OrderController in the Employer domain. *)
Lemma findRoutesForController_lists_witness :
  at_path ["total_routes"]
          (answer (findRoutesForController
                     (Some [("controller_name", "OrderController"); ("domain", "Employer")])
                     (Cases.routes_at 1000) initial_state)) = VInt 2 /\
  at_path ["total_routes"]
          (answer (findRoutesForController (Some [("controller_name", "OrderController")])
                     (Cases.routes_at 1000) initial_state)) = VInt 3.
Proof.
  assert (H : getRoutes (Cases.routes_at 1000) initial_state
              = (Return (VArr (map route_object Cases.table)), Cases.cached))
    by (vm_compute; reflexivity).
  split.
  - exact (eq_trans
             (f_equal (fun r => at_path ["total_routes"] (answer r))
                (findRoutesForController_lists (Cases.routes_at 1000) initial_state
                   Cases.cached Cases.table
                   [("controller_name", "OrderController"); ("domain", "Employer")] H))
             eq_refl).
  - exact (eq_trans
             (f_equal (fun r => at_path ["total_routes"] (answer r))
                (findRoutesForController_lists (Cases.routes_at 1000) initial_state
                   Cases.cached Cases.table [("controller_name", "OrderController")] H))
             eq_refl).
Defined.

(** ** Counters *)

Lemma lookup_add_property : forall key v fs k',
  lookup key fs = None ->
  lookup k' (add_property key v fs)
  = if String.eqb key k' then Some v else lookup k' fs.
Proof.
  intros key v fs k'. induction fs as [|[k x] fs IH]; intro H.
  - reflexivity.
  - rewrite lookup_cons in H. destruct (String.eqb k key) eqn:E; [discriminate H|].
    assert (G : lookup k' ((k, x) :: add_property key v fs)
                = if String.eqb key k' then Some v else lookup k' ((k, x) :: fs)).
    { rewrite !lookup_cons, (IH H).
      destruct (String.eqb k k') eqn:E1; [|reflexivity].
      destruct (String.eqb key k') eqn:E2; [|reflexivity].
      apply String.eqb_eq in E1, E2. subst. rewrite String.eqb_refl in E. discriminate E. }
    simpl add_property.
    destruct (array_index key) as [n|]; [|exact G].
    destruct (array_index k) as [m|]; [|reflexivity].
    destruct (n <? m)%N; [reflexivity|exact G].
Qed.

Lemma lookup_replace_property : forall key v fs k',
  lookup k' (replace_property key v fs)
  = if String.eqb key k'
    then match lookup k' fs with Some _ => Some v | None => None end
    else lookup k' fs.
Proof.
  intros key v fs k'. induction fs as [|[k x] fs IH].
  - simpl. destruct (String.eqb key k'); reflexivity.
  - simpl replace_property. destruct (String.eqb k key) eqn:E.
    + apply String.eqb_eq in E. subst k. rewrite !lookup_cons.
      destruct (String.eqb key k'); reflexivity.
    + rewrite !lookup_cons, IH.
      destruct (String.eqb k k') eqn:E1; [|reflexivity].
      destruct (String.eqb key k') eqn:E2; [|reflexivity].
      apply String.eqb_eq in E1, E2. subst. rewrite String.eqb_refl in E. discriminate E.
Qed.

Lemma sum_fields_add : forall key v fs,
  sum_fields (add_property key v fs) = (count_value v + sum_fields fs)%Z.
Proof.
  intros key v fs. induction fs as [|[k x] fs IH]; [reflexivity|].
  simpl add_property.
  assert (G : sum_fields ((k, x) :: add_property key v fs)
              = (count_value v + sum_fields ((k, x) :: fs))%Z)
    by (simpl; rewrite IH; lia).
  destruct (array_index key) as [n|]; [|exact G].
  destruct (array_index k) as [m|]; [|reflexivity].
  destruct (n <? m)%N; [reflexivity|exact G].
Qed.

Lemma sum_fields_replace : forall key v old fs,
  lookup key fs = Some old ->
  sum_fields (replace_property key v fs)
  = (sum_fields fs - count_value old + count_value v)%Z.
Proof.
  intros key v old fs. induction fs as [|[k x] fs IH]; intro H; [discriminate H|].
  rewrite lookup_cons in H. simpl replace_property.
  destruct (String.eqb k key).
  - inversion H; subst. simpl. lia.
  - simpl. rewrite (IH H). lia.
Qed.

Lemma counting_add : forall key fs,
  counting fs -> counting (add_property key (VNum (JInteger 1)) fs).
Proof.
  intros key fs H. unfold counting in *.
  assert (one : exists n, snd (key, VNum (JInteger 1)) = VNum (JInteger n) /\ (0 < n)%Z)
    by (exists 1%Z; split; [reflexivity|lia]).
  induction fs as [|[k x] fs IH]; simpl.
  - constructor; [exact one|constructor].
  - inversion H as [|? ? Hx Hfs]; subst.
    destruct (array_index key) as [n|]; [|constructor; [exact Hx|exact (IH Hfs)]].
    destruct (array_index k) as [m|]; [|constructor; [exact one|exact H]].
    destruct (n <? m)%N; [constructor; [exact one|exact H]|].
    constructor; [exact Hx|exact (IH Hfs)].
Qed.

Lemma counting_replace : forall key n fs,
  (0 < n)%Z -> counting fs -> counting (replace_property key (VNum (JInteger n)) fs).
Proof.
  intros key n fs Hn H. unfold counting in *.
  induction fs as [|[k x] fs IH]; simpl; [constructor|].
  inversion H as [|? ? Hx Hfs]; subst.
  destruct (String.eqb k key).
  - constructor; [exists n; split; [reflexivity|exact Hn]|exact Hfs].
  - constructor; [exact Hx|exact (IH Hfs)].
Qed.

Lemma counting_lookup : forall key v fs,
  counting fs -> lookup key fs = Some v -> exists n, v = VNum (JInteger n) /\ (0 < n)%Z.
Proof.
  intros key v fs H. induction fs as [|[k x] fs IH]; intro L; [discriminate L|].
  rewrite lookup_cons in L. inversion H as [|? ? Hx Hfs]; subst.
  destruct (String.eqb k key).
  - inversion L; subst. exact Hx.
  - exact (IH Hfs L).
Qed.

(** One more under a key that Object.prototype does not have: the count
    under that key goes up by one, the others stay. *)
Lemma count_up_counts : forall p key fs,
  inherited key = false -> counting fs ->
  counting (count_up p key fs) /\
  sum_fields (count_up p key fs) = (sum_fields fs + 1)%Z /\
  (forall k', count_of k' (VObj (count_up p key fs))
              = (count_of k' (VObj fs) + if String.eqb key k' then 1 else 0)%Z).
Proof.
  intros p key fs Hi Hc. unfold count_up. rewrite Hi.
  destruct (lookup key fs) as [v|] eqn:L.
  - destruct (counting_lookup _ _ _ Hc L) as [n [Hv Hn]]. subst v.
    assert (T : js_or (VNum (JInteger n)) (VNum (JInteger 0)) = VNum (JInteger n)).
    { unfold js_or. simpl. destruct (Z.eqb_spec n 0); [lia|reflexivity]. }
    rewrite T. simpl plus_one.
    split; [apply counting_replace; [lia|exact Hc]|].
    split; [rewrite (sum_fields_replace _ _ _ _ L); unfold count_value; lia|].
    intro k'. unfold count_of. rewrite lookup_replace_property.
    destruct (String.eqb key k') eqn:E.
    + apply String.eqb_eq in E. subst k'. rewrite L. unfold count_value. lia.
    + lia.
  - split; [apply counting_add; exact Hc|].
    split; [rewrite sum_fields_add; unfold count_value; lia|].
    intro k'. unfold count_of. rewrite (lookup_add_property _ _ _ _ L).
    destruct (String.eqb key k') eqn:E.
    + apply String.eqb_eq in E. subst k'. rewrite L. reflexivity.
    + lia.
Qed.

Lemma token_not_inherited : forall d, In d VALID_DOMAINS -> inherited d = false.
Proof.
  intros d H. simpl in H.
  repeat (destruct H as [H|H]; [subst d; reflexivity|]). contradiction.
Qed.

Lemma tally_table : forall p acc r,
  tally p acc (route_object r)
  = Return (count_up p (route_method r) (fst acc),
            match extractDomain (route_action r) with
            | Some (String c rest) => count_up p (String c rest) (snd acc)
            | _ => snd acc
            end).
Proof. intros p acc r. destruct r; reflexivity. Qed.

Lemma tally_all_cons : forall p r table acc,
  tally_all p (map route_object (r :: table)) acc
  = tally_all p (map route_object table)
      (count_up p (route_method r) (fst acc),
       match extractDomain (route_action r) with
       | Some (String c rest) => count_up p (String c rest) (snd acc)
       | _ => snd acc
       end).
Proof.
  intros p r table acc.
  change (tally_all p (map route_object (r :: table)) acc)
    with (obind (tally p acc (route_object r)) (tally_all p (map route_object table))).
  rewrite tally_table. reflexivity.
Qed.

Lemma tally_all_returns : forall p table acc,
  exists counts, tally_all p (map route_object table) acc = Return counts.
Proof.
  intros p table. induction table as [|r table IH]; intro acc.
  - exists acc. reflexivity.
  - rewrite tally_all_cons. apply IH.
Qed.

Lemma Z_of_length_cons : forall (A : Type) (b : bool) (x : A) (l : list A),
  Z.of_nat (List.length (if b then x :: l else l))
  = (Z.of_nat (List.length l) + if b then 1 else 0)%Z.
Proof. intros A b x l. destruct b; simpl List.length; lia. Qed.

Lemma tally_all_counts : forall p table acc,
  Forall (fun r => inherited (route_method r) = false) table ->
  counting (fst acc) -> counting (snd acc) ->
  exists byMethod byDomain,
    tally_all p (map route_object table) acc = Return (byMethod, byDomain) /\
    counting byMethod /\ counting byDomain /\
    sum_fields byMethod = (sum_fields (fst acc) + Z.of_nat (List.length table))%Z /\
    sum_fields byDomain
    = (sum_fields (snd acc) + Z.of_nat (List.length (filter has_domain table)))%Z /\
    (forall k, count_of k (VObj byMethod)
               = (count_of k (VObj (fst acc))
                  + Z.of_nat (List.length (filter (of_method k) table)))%Z) /\
    (forall k, count_of k (VObj byDomain)
               = (count_of k (VObj (snd acc))
                  + Z.of_nat (List.length (filter (of_domain k) table)))%Z).
Proof.
  intros p table. induction table as [|r table IH]; intros [m d] Hi Hm Hd.
  - exists m, d. simpl. repeat split; auto; try lia; intro k; lia.
  - inversion Hi as [|? ? Hr Ht]; subst.
    rewrite tally_all_cons. simpl fst. simpl snd.
    destruct (count_up_counts p (route_method r) m Hr Hm) as [Cm [Sm Km]].
    assert (D : exists d',
               d' = match extractDomain (route_action r) with
                    | Some (String c rest) => count_up p (String c rest) d
                    | _ => d
                    end /\
               counting d' /\
               sum_fields d' = (sum_fields d + if has_domain r then 1 else 0)%Z /\
               (forall k, count_of k (VObj d')
                          = (count_of k (VObj d) + if of_domain k r then 1 else 0)%Z)).
    { eexists. split; [reflexivity|].
      unfold has_domain, of_domain.
      pose proof (extractDomain_spec (route_action r)) as Sp.
      destruct (extractDomain (route_action r)) as [[|c rest]|].
      - destruct Sp as [Sp _]. simpl in Sp.
        repeat (destruct Sp as [Sp|Sp]; [discriminate Sp|]). contradiction.
      - destruct Sp as [Sp _].
        destruct (count_up_counts p (String c rest) d (token_not_inherited _ Sp) Hd)
          as [Cd [Sd Kd]].
        split; [exact Cd|]. split; [exact Sd|exact Kd].
      - split; [exact Hd|]. split; [lia|]. intro k. lia. }
    destruct D as [d' [Ed [Cd [Sd Kd]]]]. rewrite <- Ed.
    destruct (IH (count_up p (route_method r) m, d') Ht Cm Cd)
      as [bm [bd [E [C1 [C2 [S1 [S2 [K1 K2]]]]]]]].
    exists bm, bd. split; [exact E|]. split; [exact C1|]. split; [exact C2|].
    simpl fst in *. simpl snd in *.
    split; [rewrite S1, Sm; simpl List.length; lia|].
    split.
    + rewrite S2, Sd. simpl filter. rewrite Z_of_length_cons. lia.
    + split; intro k.
      * rewrite K1, Km. simpl filter. rewrite Z_of_length_cons.
        change (of_method k r) with (String.eqb (route_method r) k). lia.
      * rewrite K2, Kd. simpl filter. rewrite Z_of_length_cons. lia.
Qed.

(** ** list_all_routes and list_api_endpoints *)

Lemma all_routes_table : forall p a table,
  all_routes p a (VArr (map route_object table))
  = obind (tally_all p (map route_object (filter (listed a) table)) ([], []))
          (fun counts =>
           Return (reply (Stringified
             (VObj [ ("total_routes", VInt (List.length (filter (listed a) table)));
                     ("filters_applied",
                      VObj [ ("domain", VOpt (field "domain" a));
                             ("method", VOpt (field "method" a));
                             ("middleware", VOpt (field "middleware" a));
                             ("prefix", VOpt (field "prefix" a)) ]);
                     ("summary",
                      VObj [ ("by_method", VObj (fst counts));
                             ("by_domain", VObj (snd counts)) ]);
                     ("routes", VArr (map entry_of (filter (listed a) table))) ])))).
Proof.
  intros p a table. unfold all_routes.
  rewrite filter_domain_table. simpl obind.
  rewrite filter_method_table. simpl obind.
  rewrite filter_middleware_table. simpl obind.
  rewrite filter_prefix_table. simpl obind.
  assert (L : filter (with_prefix (field "prefix" a))
                 (filter (with_middleware (field "middleware" a))
                    (filter (with_method (field "method" a))
                       (filter (in_domain (field "domain" a)) table)))
               = filter (listed a) table).
  { rewrite !filter_twice. apply filter_ext. intro r. unfold listed.
    rewrite !andb_assoc. reflexivity. }
  rewrite L.
  destruct (tally_all p (map route_object (filter (listed a) table)) ([], []))
    as [counts|e]; [|reflexivity].
  simpl obind.
  rewrite (map_items_table _ entry_of _ route_entry_table). simpl obind.
  rewrite length_map. reflexivity.
Qed.

Lemma listAllRoutes_table : forall p w st st' table a,
  getRoutes w st = (Return (VArr (map route_object table)), st') ->
  listAllRoutes p (Some a) w st = (all_routes p a (VArr (map route_object table)), st').
Proof.
  intros p w st st' table a H. unfold listAllRoutes, bind, lift. simpl destructure.
  cbv iota beta. rewrite H. reflexivity.
Qed.

(** X10: over a route table, list_all_routes returns and lists, in the
    order of the table, exactly the routes that pass every filter that is
    given (domain marker in the action, method equal, middleware a member,
    uri starting with the prefix); a filter that is missing or the empty
    string lets every route pass, so without filters the whole table is
    listed; total_routes is the number of routes listed. *)
Theorem listAllRoutes_lists :
  forall (p : Platform) (w : World) (st st' : ServerState) (table : list RouteRecord)
         (a : Arguments),
    getRoutes w st = (Return (VArr (map route_object table)), st') ->
    let result := answer (listAllRoutes p (Some a) w st) in
    isError_free (fst (listAllRoutes p (Some a) w st)) = true /\
    snd (listAllRoutes p (Some a) w st) = st' /\
    at_path ["routes"] result = VArr (map entry_of (filter (listed a) table)) /\
    at_path ["total_routes"] result = VInt (List.length (filter (listed a) table)) /\
    (is_truthy_string (field "domain" a) = false ->
     is_truthy_string (field "method" a) = false ->
     is_truthy_string (field "middleware" a) = false ->
     is_truthy_string (field "prefix" a) = false ->
     at_path ["routes"] result = VArr (map entry_of table)).
Proof.
  intros p w st st' table a H result. subst result.
  rewrite (listAllRoutes_table p w st st' table a H), all_routes_table.
  destruct (tally_all_returns p (filter (listed a) table) ([], [])) as [counts E].
  rewrite E. unfold answer. simpl.
  split; [reflexivity|]. split; [reflexivity|]. split; [reflexivity|].
  split; [reflexivity|].
  intros Hd Hm Hw Hp. f_equal. f_equal.
  rewrite <- (filter_all RouteRecord table) at 2. apply filter_ext. intro r.
  unfold listed, in_domain, with_method, with_middleware, with_prefix.
  rewrite Hd, Hm, Hw, Hp. reflexivity.
Qed.

(** The GET routes of the Employer domain under /async, and the whole
    table. *)
Lemma listAllRoutes_lists_witness :
  at_path ["total_routes"]
          (answer (listAllRoutes Cases.v8
                     (Some [("domain", "Employer"); ("method", "GET");
                            ("middleware", "auth"); ("prefix", "/async")])
                     (Cases.routes_at 1000) initial_state)) = VInt 2 /\
  at_path ["routes"]
          (answer (listAllRoutes Cases.v8 (Some [("prefix", EmptyString)])
                     (Cases.routes_at 1000) initial_state))
  = VArr (map entry_of Cases.table).
Proof.
  assert (H : getRoutes (Cases.routes_at 1000) initial_state
              = (Return (VArr (map route_object Cases.table)), Cases.cached))
    by (vm_compute; reflexivity).
  pose proof (listAllRoutes_lists Cases.v8 (Cases.routes_at 1000) initial_state
                Cases.cached Cases.table
                [("domain", "Employer"); ("method", "GET");
                 ("middleware", "auth"); ("prefix", "/async")] H) as H1.
  pose proof (listAllRoutes_lists Cases.v8 (Cases.routes_at 1000) initial_state
                Cases.cached Cases.table [("prefix", EmptyString)] H) as H2.
  cbv zeta in H1, H2.
  destruct H1 as [_ [_ [_ [H1 _]]]]. destruct H2 as [_ [_ [_ [_ H2]]]].
  split; [exact H1|].
  apply H2; reflexivity.
Defined.

(** X11: in the summary of list_all_routes over a route table whose
    listed routes have no method named like a member of Object.prototype,
    by_method holds under each method the number of listed routes of that
    method, and these counts add up to total_routes; by_domain holds under
    each domain the number of listed routes whose action has that domain,
    and these add up to the number of listed routes that have a domain. *)
Theorem listAllRoutes_summary :
  forall (p : Platform) (w : World) (st st' : ServerState) (table : list RouteRecord)
         (a : Arguments),
    getRoutes w st = (Return (VArr (map route_object table)), st') ->
    Forall (fun r => inherited (route_method r) = false) (filter (listed a) table) ->
    let kept := filter (listed a) table in
    let summary := at_path ["summary"] (answer (listAllRoutes p (Some a) w st)) in
    sum_counts (at_path ["by_method"] summary) = Z.of_nat (List.length kept) /\
    sum_counts (at_path ["by_domain"] summary)
    = Z.of_nat (List.length (filter has_domain kept)) /\
    (forall method, count_of method (at_path ["by_method"] summary)
                    = Z.of_nat (List.length (filter (of_method method) kept))) /\
    (forall domain, count_of domain (at_path ["by_domain"] summary)
                    = Z.of_nat (List.length (filter (of_domain domain) kept))).
Proof.
  intros p w st st' table a H Hi kept summary. subst summary.
  rewrite (listAllRoutes_table p w st st' table a H), all_routes_table. fold kept.
  destruct (tally_all_counts p kept ([], []) Hi (Forall_nil _) (Forall_nil _))
    as [bm [bd [E [_ [_ [S1 [S2 [K1 K2]]]]]]]].
  rewrite E. unfold answer. simpl.
  split; [exact S1|]. split; [exact S2|]. split; intro k; [apply K1|apply K2].
Qed.

Lemma listAllRoutes_summary_witness :
  let summary :=
    at_path ["summary"]
            (answer (listAllRoutes Cases.v8 (Some []) (Cases.routes_at 1000)
                                   initial_state)) in
  sum_counts (at_path ["by_method"] summary) = 5%Z /\
  count_of "GET" (at_path ["by_method"] summary) = 4%Z /\
  count_of "Employer" (at_path ["by_domain"] summary) = 3%Z /\
  sum_counts (at_path ["by_domain"] summary) = 4%Z.
Proof.
  assert (H : getRoutes (Cases.routes_at 1000) initial_state
              = (Return (VArr (map route_object Cases.table)), Cases.cached))
    by (vm_compute; reflexivity).
  assert (F : Forall (fun r => inherited (route_method r) = false)
                     (filter (listed []) Cases.table))
    by (repeat constructor).
  pose proof (listAllRoutes_summary Cases.v8 (Cases.routes_at 1000) initial_state
                Cases.cached Cases.table [] H F) as G.
  cbv zeta in G. destruct G as [G1 [G2 [G3 G4]]].
  cbv zeta. split; [exact G1|]. split; [exact (G3 "GET")|].
  split; [exact (G4 "Employer")|exact G2].
Defined.

Lemma or_string_truthy : forall s fallback,
  is_truthy_string (Some fallback) = true ->
  is_truthy_string (Some (or_string s fallback)) = true.
Proof. intros [[|c s]|] fallback H; simpl; try exact H; reflexivity. Qed.

Lemma api_endpoints_table : forall a table,
  api_endpoints a (VArr (map route_object table))
  = Return (reply (Stringified
      (VObj [ ("prefix", VStr (or_string (field "prefix" a) "/async"));
              ("domain", VStr (or_string (field "domain" a) "all domains"));
              ("total_endpoints", VInt (List.length (filter (api_listed a) table)));
              ("endpoints", VArr (map entry_of (filter (api_listed a) table))) ]))).
Proof.
  intros a table. unfold api_endpoints.
  rewrite (array_filter_table _ (under_prefix (or_string (field "prefix" a) "/async")) table)
    by (intro r; apply uri_prefixed).
  simpl obind. rewrite filter_domain_table. simpl obind.
  rewrite filter_twice.
  change (filter (fun x => under_prefix (or_string (field "prefix" a) "/async") x
                           && in_domain (field "domain" a) x) table)
    with (filter (api_listed a) table).
  rewrite (map_items_table _ entry_of _ route_entry_table). simpl obind.
  rewrite length_map. reflexivity.
Qed.

(** X12: over a route table, list_api_endpoints lists only routes whose
    uri starts with the prefix, /async when none is given, and its endpoints
    are the routes that list_all_routes lists for the same domain with that
    prefix and no other filter; total_endpoints is their number. *)
Theorem listApiEndpoints_agrees_with_listAllRoutes :
  forall (p : Platform) (w : World) (st st' : ServerState) (table : list RouteRecord)
         (a a' : Arguments),
    getRoutes w st = (Return (VArr (map route_object table)), st') ->
    field "domain" a' = field "domain" a ->
    field "prefix" a' = Some (or_string (field "prefix" a) "/async") ->
    field "method" a' = None ->
    field "middleware" a' = None ->
    let endpoints := answer (listApiEndpoints (Some a) w st) in
    let routes := answer (listAllRoutes p (Some a') w st) in
    at_path ["endpoints"] endpoints = at_path ["routes"] routes /\
    at_path ["total_endpoints"] endpoints = at_path ["total_routes"] routes /\
    at_path ["prefix"] endpoints = VStr (or_string (field "prefix" a) "/async") /\
    at_path ["endpoints"] endpoints = VArr (map entry_of (filter (api_listed a) table)) /\
    (forall r, In r (filter (api_listed a) table) ->
               startsWith (or_string (field "prefix" a) "/async") (route_uri r) = true).
Proof.
  intros p w st st' table a a' H Hd Hp Hm Hw endpoints routes.
  assert (same : filter (listed a') table = filter (api_listed a) table).
  { apply filter_ext. intro r. unfold listed, api_listed.
    unfold with_method, with_middleware, with_prefix. rewrite Hd, Hp, Hm, Hw.
    rewrite (or_string_truthy (field "prefix" a) "/async" eq_refl). simpl template.
    simpl is_truthy_string. cbv iota.
    rewrite !andb_true_r. apply andb_comm. }
  assert (E : listApiEndpoints (Some a) w st
              = (api_endpoints a (VArr (map route_object table)), st')).
  { unfold listApiEndpoints, bind, lift. simpl destructure. cbv iota beta.
    rewrite H. reflexivity. }
  subst endpoints routes.
  rewrite E, api_endpoints_table.
  rewrite (listAllRoutes_table p w st st' table a' H), all_routes_table, same.
  destruct (tally_all_returns p (filter (api_listed a) table) ([], [])) as [counts T].
  rewrite T. unfold answer. simpl.
  split; [reflexivity|]. split; [reflexivity|]. split; [reflexivity|].
  split; [reflexivity|].
  intros r Hr. apply filter_In in Hr. destruct Hr as [_ Hr].
  unfold api_listed, under_prefix in Hr.
  apply andb_true_iff in Hr. destruct Hr as [Hr _].
  apply andb_true_iff in Hr. apply Hr.
Qed.

Lemma listApiEndpoints_agrees_with_listAllRoutes_witness :
  at_path ["endpoints"]
          (answer (listApiEndpoints (Some [("domain", "Employer")])
                     (Cases.routes_at 1000) initial_state))
  = VArr (map entry_of [Scenario.orders_route; Cases.show_route]) /\
  at_path ["endpoints"]
          (answer (listApiEndpoints (Some [("domain", "Employer")])
                     (Cases.routes_at 1000) initial_state))
  = at_path ["routes"]
            (answer (listAllRoutes Cases.v8
                       (Some [("domain", "Employer"); ("prefix", "/async")])
                       (Cases.routes_at 1000) initial_state)).
Proof.
  assert (H : getRoutes (Cases.routes_at 1000) initial_state
              = (Return (VArr (map route_object Cases.table)), Cases.cached))
    by (vm_compute; reflexivity).
  pose proof (listApiEndpoints_agrees_with_listAllRoutes Cases.v8 (Cases.routes_at 1000)
                initial_state Cases.cached Cases.table
                [("domain", "Employer")] [("domain", "Employer"); ("prefix", "/async")]
                H eq_refl eq_refl eq_refl eq_refl) as G.
  cbv zeta in G. destruct G as [G1 [_ [_ [G4 _]]]].
  split; [exact G4|exact G1].
Defined.

(** ** find_endpoint_details *)

(** X13: find_endpoint_details called with neither a uri nor a route name
    (each missing or the empty string) throws the error Either uri or
    route_name must be provided before it asks for the routes: no command is
    run and the route cache stays as it was. *)
Theorem findEndpointDetails_needs_a_key :
  forall (w : World) (st : ServerState) (a : Arguments),
    is_truthy_string (field "uri" a) = false ->
    is_truthy_string (field "route_name" a) = false ->
    findEndpointDetails (Some a) w st
    = (Throw (new_Error "Either uri or route_name must be provided"), st).
Proof.
  intros w st a Hu Hn. unfold findEndpointDetails, bind, lift. simpl destructure.
  cbv iota beta. rewrite Hu, Hn. reflexivity.
Qed.

Lemma findEndpointDetails_needs_a_key_witness :
  findEndpointDetails (Some [("uri", EmptyString)]) (Cases.routes_at 1000) initial_state
  = (Throw (new_Error "Either uri or route_name must be provided"), initial_state).
Proof.
  apply (findEndpointDetails_needs_a_key (Cases.routes_at 1000) initial_state
           [("uri", EmptyString)]); reflexivity.
Defined.

Lemma find_item_at_uri : forall s table,
  is_truthy_string s = true ->
  find_item (fun r => has_equal r "uri" s) (map route_object table)
  = Return match List.find (at_uri (template s)) table with
           | Some r => route_object r
           | None => VUndefined
           end.
Proof.
  intros s table H. destruct s as [u|]; [|discriminate H]. simpl template.
  induction table as [|r table IH]; simpl; [reflexivity|].
  unfold at_uri at 1. destruct (String.eqb (route_uri r) u); [reflexivity|exact IH].
Qed.

Lemma find_item_by_name : forall s table,
  is_truthy_string s = true ->
  find_item (fun r => has_equal r "name" s) (map route_object table)
  = Return match List.find (named (template s)) table with
           | Some r => route_object r
           | None => VUndefined
           end.
Proof.
  intros s table H. destruct s as [n|]; [|discriminate H]. simpl template.
  unfold has_equal. apply find_item_named.
Qed.

Lemma endpoint_details_table : forall a table,
  is_truthy_string (field "uri" a) || is_truthy_string (field "route_name" a) = true ->
  endpoint_details a (VArr (map route_object table))
  = match List.find (endpoint_choice a) table with
    | Some r => Return (reply (Stringified (VObj [("endpoint", entry_of r)])))
    | None => Throw (new_Error "Endpoint not found")
    end.
Proof.
  intros a table H. unfold endpoint_details, endpoint_choice.
  destruct (is_truthy_string (field "uri" a)) eqn:Hu.
  - simpl array_find. rewrite (find_item_at_uri _ table Hu).
    destruct (List.find (at_uri (template (field "uri" a))) table) as [r|]; [|reflexivity].
    unfold obind at 1. change (truthy (route_object r)) with true.
    simpl negb. cbv iota. rewrite route_entry_table. reflexivity.
  - simpl in H. simpl array_find. rewrite (find_item_by_name _ table H).
    destruct (List.find (named (template (field "route_name" a))) table) as [r|];
      [|reflexivity].
    unfold obind at 1. change (truthy (route_object r)) with true.
    simpl negb. cbv iota. rewrite route_entry_table. reflexivity.
Qed.

Lemma findEndpointDetails_table : forall w st st' table a,
  getRoutes w st = (Return (VArr (map route_object table)), st') ->
  is_truthy_string (field "uri" a) || is_truthy_string (field "route_name" a) = true ->
  findEndpointDetails (Some a) w st
  = (endpoint_details a (VArr (map route_object table)), st').
Proof.
  intros w st st' table a H K. unfold findEndpointDetails, bind, lift.
  simpl destructure. cbv iota beta.
  rewrite <- negb_orb, K. change (negb true) with false. cbv iota beta.
  rewrite H. reflexivity.
Qed.

(** X14: over a route table, find_endpoint_details given a uri answers
    for the first route with exactly that uri, whatever route name is
    given beside it; given only a route name it answers for the first route
    of that name. The answer has the route's method, uri and action, its
    name or null, its middleware or [], and the domain of the action. When
    no route matches it throws the error Endpoint not found. *)
Theorem findEndpointDetails_lookup :
  forall (w : World) (st st' : ServerState) (table : list RouteRecord) (a : Arguments),
    getRoutes w st = (Return (VArr (map route_object table)), st') ->
    is_truthy_string (field "uri" a) || is_truthy_string (field "route_name" a) = true ->
    findEndpointDetails (Some a) w st
    = (match List.find (endpoint_choice a) table with
       | Some r => Return (reply (Stringified (VObj [("endpoint", entry_of r)])))
       | None => Throw (new_Error "Endpoint not found")
       end, st')
    /\
    (forall u, field "uri" a = Some u -> u <> EmptyString ->
               endpoint_choice a = at_uri u) /\
    (forall n, is_truthy_string (field "uri" a) = false ->
               field "route_name" a = Some n -> endpoint_choice a = named n).
Proof.
  intros w st st' table a H K. split; [|split].
  - rewrite (findEndpointDetails_table w st st' table a H K).
    rewrite (endpoint_details_table a table K). reflexivity.
  - intros u Hu Hne. unfold endpoint_choice. rewrite Hu.
    destruct u; [contradiction Hne; reflexivity|reflexivity].
  - intros n Hu Hn. unfold endpoint_choice. rewrite Hu, Hn. reflexivity.
Qed.

(** The uri of the store route with the name of the show route beside it,
    and a uri that no route has. *)
Lemma findEndpointDetails_lookup_witness :
  fst (findEndpointDetails
         (Some [("uri", "/async/dealer/orders"); ("route_name", "fleet.orders.show")])
         (Cases.routes_at 1000) initial_state)
  = Return (reply (Stringified (VObj [("endpoint", entry_of Cases.store_route)]))) /\
  fst (findEndpointDetails (Some [("uri", "/async/none")])
         (Cases.routes_at 1000) initial_state)
  = Throw (new_Error "Endpoint not found").
Proof.
  assert (H : getRoutes (Cases.routes_at 1000) initial_state
              = (Return (VArr (map route_object Cases.table)), Cases.cached))
    by (vm_compute; reflexivity).
  split.
  - exact (eq_trans
             (f_equal fst
                (proj1 (findEndpointDetails_lookup (Cases.routes_at 1000) initial_state
                          Cases.cached Cases.table
                          [("uri", "/async/dealer/orders");
                           ("route_name", "fleet.orders.show")] H eq_refl)))
             eq_refl).
  - exact (eq_trans
             (f_equal fst
                (proj1 (findEndpointDetails_lookup (Cases.routes_at 1000) initial_state
                          Cases.cached Cases.table [("uri", "/async/none")] H eq_refl)))
             eq_refl).
Defined.

Lemma findRouteByName_table : forall w st st' table a n,
  field "route_name" a = Some n ->
  getRoutes w st = (Return (VArr (map route_object table)), st') ->
  findRouteByName (Some a) w st
  = match List.find (named n) table with
    | Some r => (Return (reply (Stringified (route_answer r))), st')
    | None => (Throw (new_Error ("Route '" ++ n ++ "' not found")), st')
    end.
Proof.
  intros w st st' table a n Hn Hr.
  unfold findRouteByName, bind, lift. simpl destructure. cbv iota beta.
  rewrite Hn, Hr. simpl array_find. rewrite find_item_named.
  destruct (List.find (named n) table) as [r|]; [|reflexivity].
  simpl truthy. simpl negb. cbv iota. simpl getprop. simpl call_extractDomain.
  unfold ret, route_answer.
  destruct r as [name method uri action middleware]; simpl.
  destruct middleware as [l|]; reflexivity.
Qed.

Lemma find_named : forall n table r,
  List.find (named n) table = Some r -> route_name r = Some n.
Proof.
  intros n table r H. apply find_some in H. destruct H as [_ H].
  unfold named in H. destruct (route_name r) as [s|]; [|discriminate H].
  apply String.eqb_eq in H. rewrite H. reflexivity.
Qed.

(** X15: over a route table and for a route name that is not empty,
    find_endpoint_details without a uri and find_route_by_name pick the
    same route: both throw when no route has the name, and otherwise the
    endpoint of the one has the name, method, uri, controller, middleware
    and domain that the other answers with. Both leave the same route
    cache. *)
Theorem findEndpointDetails_agrees_with_findRouteByName :
  forall (w : World) (st st' : ServerState) (table : list RouteRecord)
         (a : Arguments) (n : string),
    getRoutes w st = (Return (VArr (map route_object table)), st') ->
    is_truthy_string (field "uri" a) = false ->
    field "route_name" a = Some n ->
    n <> EmptyString ->
    let endpoint := at_path ["endpoint"] (answer (findEndpointDetails (Some a) w st)) in
    let route := answer (findRouteByName (Some a) w st) in
    returned (fst (findEndpointDetails (Some a) w st))
    = returned (fst (findRouteByName (Some a) w st)) /\
    snd (findEndpointDetails (Some a) w st) = snd (findRouteByName (Some a) w st) /\
    at_path ["name"] endpoint = at_path ["route_name"] route /\
    at_path ["method"] endpoint = at_path ["method"] route /\
    at_path ["uri"] endpoint = at_path ["uri"] route /\
    at_path ["controller"] endpoint = at_path ["controller"] route /\
    at_path ["middleware"] endpoint = at_path ["middleware"] route /\
    at_path ["domain"] endpoint = at_path ["domain"] route.
Proof.
  intros w st st' table a n H Hu Hn Hne endpoint route. subst endpoint route.
  assert (K : is_truthy_string (field "uri" a) || is_truthy_string (field "route_name" a)
              = true).
  { rewrite Hu, Hn. destruct n; [contradiction Hne; reflexivity|reflexivity]. }
  rewrite (findEndpointDetails_table w st st' table a H K).
  rewrite (endpoint_details_table a table K).
  rewrite (findRouteByName_table w st st' table a n Hn H).
  unfold endpoint_choice. rewrite Hu, Hn. simpl template.
  destruct (List.find (named n) table) as [r|] eqn:F.
  - pose proof (find_named n table r F) as N.
    unfold answer. simpl. unfold name_or_null. rewrite N.
    destruct n; [contradiction Hne; reflexivity|]. simpl.
    repeat split; reflexivity.
  - unfold answer. simpl. repeat split; reflexivity.
Qed.

Lemma findEndpointDetails_agrees_with_findRouteByName_witness :
  at_path ["endpoint"; "uri"]
          (answer (findEndpointDetails (Some [("route_name", "fleet.orders.show")])
                     (Cases.routes_at 1000) initial_state))
  = at_path ["uri"]
            (answer (findRouteByName (Some [("route_name", "fleet.orders.show")])
                       (Cases.routes_at 1000) initial_state)).
Proof.
  assert (H : getRoutes (Cases.routes_at 1000) initial_state
              = (Return (VArr (map route_object Cases.table)), Cases.cached))
    by (vm_compute; reflexivity).
  assert (N : "fleet.orders.show" <> EmptyString) by discriminate.
  pose proof (findEndpointDetails_agrees_with_findRouteByName (Cases.routes_at 1000)
                initial_state Cases.cached Cases.table
                [("route_name", "fleet.orders.show")] "fleet.orders.show"
                H eq_refl eq_refl N) as G.
  cbv zeta in G. destruct G as [_ [_ [_ [_ [G _]]]]].
  exact G.
Defined.

(** ** find_unused_components *)

Lemma imported_elsewhere_scan : forall w name componentFile allVueFiles,
  (forall v, In v allVueFiles -> v <> componentFile -> scannable w name v) ->
  imported_elsewhere w name componentFile allVueFiles
  = Return (existsb (fun v => negb (String.eqb v componentFile) && imports w name v)
                    allVueFiles).
Proof.
  intros w name cf all. induction all as [|v all IH]; intro H; [reflexivity|].
  simpl imported_elsewhere. simpl existsb.
  destruct (String.eqb v cf) eqn:E.
  - simpl. apply IH. intros v' Hin. apply H. right. exact Hin.
  - assert (N : v <> cf) by (apply String.eqb_neq; exact E).
    destruct (H v (or_introl eq_refl) N) as [content [hit [R T]]].
    unfold imports at 1. rewrite R. simpl obind. rewrite T. simpl obind.
    destruct hit; [reflexivity|].
    simpl. apply IH. intros v' Hin. apply H. right. exact Hin.
Qed.

Lemma unused_loop_scan : forall p w allVueFiles componentFiles acc,
  (forall c v, In c componentFiles -> In v allVueFiles -> v <> c ->
               scannable w (extractClassName w c) v) ->
  (forall c, In c componentFiles -> exists t, statSync_mtime p c = Return t) ->
  exists entries,
    unused_loop p w allVueFiles componentFiles acc
    = Return ((fst acc ++ entries)%list,
              snd acc + List.length (filter (used_elsewhere w allVueFiles) componentFiles)) /\
    map (at_path ["file"]) entries
    = map (fun c => VStr (relativePath w c))
          (filter (unused_elsewhere w allVueFiles) componentFiles).
Proof.
  intros p w all components. induction components as [|c components IH]; intros acc Hs Ht.
  - exists []. simpl. rewrite app_nil_r, Nat.add_0_r. destruct acc; split; reflexivity.
  - assert (Hs' : forall c' v, In c' components -> In v all -> v <> c' ->
                               scannable w (extractClassName w c') v)
      by (intros c' v Hc; apply Hs; right; exact Hc).
    assert (Ht' : forall c', In c' components -> exists t, statSync_mtime p c' = Return t)
      by (intros c' Hc; apply Ht; right; exact Hc).
    simpl unused_loop.
    rewrite (imported_elsewhere_scan w (extractClassName w c) c all
               (fun v Hv Hn => Hs c v (or_introl eq_refl) Hv Hn)).
    simpl obind. fold (used_elsewhere w all c).
    simpl filter. unfold unused_elsewhere at 1.
    destruct (used_elsewhere w all c).
    + destruct (IH (fst acc, S (snd acc)) Hs' Ht') as [entries [E F]].
      exists entries. rewrite E. simpl. split; [|exact F].
      rewrite Nat.add_succ_r. reflexivity.
    + destruct (Ht c (or_introl eq_refl)) as [t T].
      unfold unused_entry. rewrite T. simpl obind.
      destruct (IH ((fst acc ++ [VObj [ ("component_name", VStr (extractClassName w c));
                                         ("file", VStr (relativePath w c));
                                         ("domain", VDomain (extractDomain c));
                                         ("last_modified", VStr t);
                                         ("lines_of_code", VInt (countLines w c)) ]])%list,
                    snd acc) Hs' Ht') as [entries [E F]].
      eexists. rewrite E. simpl fst. simpl snd. rewrite <- app_assoc. simpl app.
      split; [reflexivity|]. cbn [negb map]. rewrite F. reflexivity.
Qed.

(** X16: when every Vue file can be scanned for every component and
    every component file has a modification time, find_unused_components
    returns; a component is counted as used exactly when a Vue file other
    than its own can be read and matches its import pattern, so a component
    imported by its own file only is listed as unused; the unused components
    are listed in the order of the component files; and used_components
    plus unused_components is total_components. *)
Theorem findUnusedComponents_partition :
  forall (p : Platform) (w : World) (a : Arguments),
    let components := component_files w (field "domain" a) in
    let everywhere := all_vue_files w in
    (forall c v, In c components -> In v everywhere -> v <> c ->
                 scannable w (extractClassName w c) v) ->
    (forall c, In c components -> exists t, statSync_mtime p c = Return t) ->
    let result := body (findUnusedComponents p (Some a) w) in
    let used := List.length (filter (used_elsewhere w everywhere) components) in
    let unused := List.length (filter (unused_elsewhere w everywhere) components) in
    returned (findUnusedComponents p (Some a) w) = true /\
    at_path ["summary"; "total_components"] result = VInt (List.length components) /\
    at_path ["summary"; "used_components"] result = VInt used /\
    at_path ["summary"; "unused_components"] result = VInt unused /\
    used + unused = List.length components /\
    exists entries,
      at_path ["unused_components"] result = VArr entries /\
      map (at_path ["file"]) entries
      = map (fun c => VStr (relativePath w c))
            (filter (unused_elsewhere w everywhere) components).
Proof.
  intros p w a components everywhere Hs Ht result used unused.
  destruct (unused_loop_scan p w everywhere components ([], 0) Hs Ht) as [entries [E F]].
  assert (L : List.length entries = unused).
  { unfold unused. rewrite <- (length_map (at_path ["file"]) entries), F.
    apply length_map. }
  assert (R : findUnusedComponents p (Some a) w
              = Return (reply (Stringified
                  (VObj [ ("domain", VStr (or_string (field "domain" a) "all domains"));
                          ("unused_components", VArr entries);
                          ("summary",
                           VObj [ ("total_components", VInt (List.length components));
                                  ("used_components", VInt used);
                                  ("unused_components", VInt unused) ]) ])))).
  { unfold findUnusedComponents. simpl destructure. unfold obind at 1. cbv zeta.
    unfold components, everywhere in E. rewrite E. simpl. rewrite L. reflexivity. }
  subst result. rewrite R. simpl.
  split; [reflexivity|]. split; [reflexivity|]. split; [reflexivity|].
  split; [reflexivity|]. split; [apply filter_length|].
  exists entries. split; [reflexivity|exact F].
Qed.

(** The panel is imported by the page; the badge only by itself. *)
Lemma findUnusedComponents_partition_witness :
  let result := body (findUnusedComponents Cases.v8 (Some []) Components.app) in
  at_path ["summary"; "total_components"] result = VInt 2 /\
  at_path ["summary"; "used_components"] result = VInt 1 /\
  at_path ["summary"; "unused_components"] result = VInt 1.
Proof.
  assert (Hs : forall c v, In c (component_files Components.app (field "domain" [])) ->
                           In v (all_vue_files Components.app) -> v <> c ->
                           scannable Components.app (extractClassName Components.app c) v).
  { intros c v _ Hv _. unfold scannable.
    destruct Hv as [Hv|[Hv|[Hv|[]]]]; subst v; eexists; eexists; split; reflexivity. }
  assert (Ht : forall c, In c (component_files Components.app (field "domain" [])) ->
                         exists t, statSync_mtime Cases.v8 c = Return t).
  { intros c _. eexists. reflexivity. }
  pose proof (findUnusedComponents_partition Cases.v8 Components.app [] Hs Ht) as G.
  cbv zeta in G. destruct G as [_ [G1 [G2 [G3 _]]]].
  cbv zeta. split; [exact G1|]. split; [exact G2|exact G3].
Defined.

(** X17: the search for an importer of a component stops at the first
    Vue file, other than the component's own, that imports it: it answers
    true whatever files are listed after that one, also when one of them
    cannot be read, while a file that cannot be read and is listed before any
    importer makes the search throw the error of that read. *)
Theorem imported_elsewhere_stops_at_first_importer :
  forall (w : World) (name componentFile : string) (before : list string)
         (vueFile : string) (rest : list string),
    Forall (fun f => f = componentFile \/
                     (scannable w name f /\ imports w name f = false)) before ->
    vueFile <> componentFile ->
    (imports w name vueFile = true ->
     imported_elsewhere w name componentFile (before ++ vueFile :: rest) = Return true) /\
    (forall e, readFileSync w vueFile = Throw e ->
               imported_elsewhere w name componentFile (before ++ vueFile :: rest)
               = Throw e).
Proof.
  intros w name cf before v rest Hb Hn.
  assert (step : forall o,
            imported_elsewhere w name cf (v :: rest) = o ->
            imported_elsewhere w name cf (before ++ v :: rest) = o).
  { intros o Ho. induction Hb as [|f before Hf Hb IH]; [exact Ho|].
    simpl app. simpl imported_elsewhere.
    destruct Hf as [Hf|[[content [hit [R T]]] Hi]].
    - subst f. rewrite String.eqb_refl. exact IH.
    - destruct (String.eqb f cf); [exact IH|].
      unfold imports in Hi. rewrite R, T in Hi. subst hit.
      rewrite R. simpl obind. rewrite T. simpl obind. exact IH. }
  apply String.eqb_neq in Hn. split.
  - intro Hi. apply step. simpl imported_elsewhere. rewrite Hn.
    unfold imports in Hi. destruct (readFileSync w v) as [content|e]; [|discriminate Hi].
    simpl obind.
    destruct (RegExp_test w (import_pattern name) "i" content) as [hit|e];
      [|discriminate Hi].
    simpl obind. rewrite Hi. reflexivity.
  - intros e He. apply step. simpl imported_elsewhere. rewrite Hn, He. reflexivity.
Qed.

(** The panel, imported by the page, with an unreadable file after it. *)
Lemma imported_elsewhere_stops_at_first_importer_witness :
  imported_elsewhere Components.with_lost_file "OrderPanel" Components.order_panel
                     (all_vue_files Components.with_lost_file)
  = Return true /\
  imports Components.with_lost_file "OrderPanel"
          "/srv/o2o/app/Employer/UI/resources/js/Lost.vue" = false.
Proof.
  assert (Hn : Components.orders_page <> Components.order_panel) by discriminate.
  split; [|reflexivity].
  apply (proj1 (imported_elsewhere_stops_at_first_importer Components.with_lost_file
                  "OrderPanel" Components.order_panel [Components.order_panel]
                  Components.orders_page
                  ["/srv/o2o/app/Employer/UI/resources/js/Lost.vue"]
                  (Forall_cons _ (or_introl eq_refl) (Forall_nil _)) Hn)).
  reflexivity.
Defined.

(** ** list_inertia_pages *)

















(** ** The tool list and the switch *)

(** X20: every tool but get_test_structure_info reads its arguments
    first: called without arguments it answers with an isError envelope
    whose text says that the first property of the tool cannot be
    destructured from undefined, and it leaves the module state as it was;
    get_test_structure_info takes no arguments and answers without them. *)
Theorem server_needs_arguments :
  forall (p : Platform) (w : World) (st : ServerState) (name : string),
    In name (map tool_name tools) ->
    (name <> "get_test_structure_info" ->
     server p name None w st
     = (Return (mkEnvelope
                  (Plain ("Error executing " ++ name ++ ": Cannot destructure property '"
                          ++ first_property name ++ "' of 'args' as it is undefined."))
                  true), st)) /\
    server p "get_test_structure_info" None w st = (getTestStructureInfo, st).
Proof.
  intros p w st name H. split; [|reflexivity].
  intro N. simpl in H.
  repeat (destruct H as [H|H]; [subst name; first [reflexivity|contradiction N; reflexivity]|]).
  contradiction H.
Qed.

Lemma server_needs_arguments_witness :
  fst (server Cases.v8 "run_phpstan" None (Cases.routes_at 1000) initial_state)
  = Return (mkEnvelope
              (Plain "Error executing run_phpstan: Cannot destructure property 'path' of 'args' as it is undefined.")
              true).
Proof.
  assert (N : "run_phpstan" <> "get_test_structure_info") by discriminate.
  assert (I : In "run_phpstan" (map tool_name tools))
    by (simpl; right; right; right; left; reflexivity).
  exact (f_equal fst
           (proj1 (server_needs_arguments Cases.v8 (Cases.routes_at 1000) initial_state
                     "run_phpstan" I) N)).
Defined.

(** X21: the tools that ListTools announces are the tools that the switch
    of the CallTool handler has a case for: a name is announced exactly when
    it is known to the switch, no name is announced twice, and every
    property that a tool requires is one of the properties it declares. *)
Theorem announced_tools_are_handled :
  (forall name, In name (map tool_name tools) <-> known_tool name = true) /\
  NoDup (map tool_name tools) /\
  (forall t, In t tools -> incl (tool_required t) (map fst (tool_properties t))).
Proof.
  split; [|split].
  - intro name. split.
    + intro H. simpl in H.
      repeat (destruct H as [H|H]; [subst name; reflexivity|]). contradiction H.
    + intro H. unfold known_tool in H. apply existsb_exists in H.
      destruct H as [x [Hin Heq]]. apply String.eqb_eq in Heq. subst x.
      simpl in Hin.
      repeat (destruct Hin as [Hin|Hin];
              [subst name; simpl; repeat (first [left; reflexivity|right])|]).
      contradiction Hin.
  - simpl.
    repeat (apply NoDup_cons;
            [simpl; intro H; repeat (destruct H as [H|H]; [discriminate H|]); exact H|]).
    apply NoDup_nil.
  - intros t H. simpl in H.
    repeat (destruct H as [H|H];
            [subst t; intros r Hr; simpl in Hr |- *;
             repeat (destruct Hr as [Hr|Hr];
                     [subst r; repeat (first [left; reflexivity|right])|]);
             contradiction Hr|]).
    contradiction H.
Qed.

(** ** run_phpstan *)



(** ** find_eloquent_scopes *)










(** ** find_page_props *)

Lemma matches_of : forall w pattern flags file content hit,
  readFileSync w file = Return content ->
  RegExp_test w pattern flags content = Return hit ->
  matches w pattern flags file = hit.
Proof.
  intros w pattern flags file content hit R T. unfold matches, content_of.
  rewrite R, T. reflexivity.
Qed.

Lemma controllers_rendering_scan : forall w page_name controllerFiles,
  (forall c, In c controllerFiles -> testable w (render_pattern page_name) "i" c) ->
  controllers_rendering w page_name controllerFiles
  = Return (map (controller_entry w)
                (filter (matches w (render_pattern page_name) "i") controllerFiles)).
Proof.
  intros w page_name files. induction files as [|c files IH]; intro H; [reflexivity|].
  simpl controllers_rendering.
  destruct (H c (or_introl eq_refl)) as [content [hit [R T]]].
  rewrite R. simpl obind. rewrite T. simpl obind.
  rewrite (IH (fun c' Hc => H c' (or_intror Hc))). simpl obind.
  simpl filter. rewrite (matches_of w _ _ c content hit R T).
  destruct hit; reflexivity.
Qed.

Lemma controllers_rendering_fails : forall w page_name before c rest e,
  (forall f, In f before -> testable w (render_pattern page_name) "i" f) ->
  readFileSync w c = Throw e ->
  controllers_rendering w page_name (before ++ c :: rest) = Throw e.
Proof.
  intros w page_name before c rest e. induction before as [|f before IH]; intros H R.
  - simpl. rewrite R. reflexivity.
  - simpl app. simpl controllers_rendering.
    destruct (H f (or_introl eq_refl)) as [content [hit [Rf T]]].
    rewrite Rf. simpl obind. rewrite T. simpl obind.
    rewrite (IH (fun f' Hf => H f' (or_intror Hf)) R). reflexivity.
Qed.

(** X24: find_page_props throws Page not found, whatever the controllers
    hold, when no page file of the name is found. Otherwise it answers with the
    first page file, relative to the base, and with the controllers, in the
    order found, whose text matches the render pattern of the page name;
    and a controller that cannot be read makes the call throw the error of
    the read, whether or not another controller renders the page. *)
Theorem findPageProps_answer :
  forall (w : World) (a : Arguments),
    let pattern := render_pattern (field "page_name" a) in
    (page_files_named w a = [] ->
     findPageProps (Some a) w
     = Throw (new_Error ("Page '" ++ template (field "page_name" a) ++ "' not found"))) /\
    (forall page others,
        page_files_named w a = page :: others ->
        (forall c, In c (controller_files w) -> testable w pattern "i" c) ->
        findPageProps (Some a) w
        = Return (reply (Stringified
            (VObj [ ("page_name", VOpt (field "page_name" a));
                    ("page_file", VStr (relativePath w page));
                    ("controllers_using_page",
                     VArr (map (controller_entry w)
                               (filter (matches w pattern "i")
                                       (controller_files w)))) ])))) /\
    (forall page others before c rest e,
        page_files_named w a = page :: others ->
        controller_files w = (before ++ c :: rest)%list ->
        (forall f, In f before -> testable w pattern "i" f) ->
        readFileSync w c = Throw e ->
        findPageProps (Some a) w = Throw e).
Proof.
  intros w a pattern. subst pattern. split; [|split].
  - intro H. unfold findPageProps. simpl destructure. unfold obind. cbv zeta.
    unfold page_files_named in H. rewrite H. reflexivity.
  - intros page others H T. unfold findPageProps. simpl destructure.
    unfold obind at 1. cbv zeta. unfold page_files_named in H. rewrite H.
    fold (controller_files w). rewrite (controllers_rendering_scan w _ _ T). reflexivity.
  - intros page others before c rest e H C T R. unfold findPageProps. simpl destructure.
    unfold obind at 1. cbv zeta. unfold page_files_named in H. rewrite H.
    fold (controller_files w). rewrite C.
    rewrite (controllers_rendering_fails w _ before c rest e T R). reflexivity.
Qed.

Lemma findPageProps_answer_witness :
  findPageProps (Some [("page_name", "Orders/Index")]) Props.app
  = Return (reply (Stringified
      (VObj [ ("page_name", VStr "Orders/Index");
              ("page_file", VStr "app/Employer/UI/resources/js/pages/Orders/Index.vue");
              ("controllers_using_page",
               VArr [ VObj [ ("controller",
                              VStr "app/Employer/Controllers/OrderPageController.php");
                             ("class_name", VStr "OrderPageController") ] ]) ]))) /\
  findPageProps (Some [("page_name", "Orders/Show")]) Props.app
  = Throw (new_Error "Page 'Orders/Show' not found").
Proof.
  split.
  - refine (eq_trans
              (proj1 (proj2 (findPageProps_answer Props.app [("page_name", "Orders/Index")]))
                     Props.orders_index [] eq_refl _)
              eq_refl).
    intros c Hc. unfold testable.
    destruct Hc as [Hc|[Hc|[]]]; subst c; eexists; eexists; split; reflexivity.
  - exact (proj1 (findPageProps_answer Props.app [("page_name", "Orders/Show")]) eq_refl).
Defined.

(** ** find_table_usage *)

Lemma model_of_table_scan : forall w table_name modelFiles,
  (forall f, In f modelFiles -> testable w (table_pattern table_name) EmptyString f) ->
  model_of_table w table_name modelFiles
  = Return (List.find (matches w (table_pattern table_name) EmptyString) modelFiles).
Proof.
  intros w table_name files. induction files as [|f files IH]; intro H; [reflexivity|].
  simpl model_of_table.
  destruct (H f (or_introl eq_refl)) as [content [hit [R T]]].
  rewrite R. simpl obind. rewrite T. simpl obind.
  simpl List.find. rewrite (matches_of w _ _ f content hit R T).
  destruct hit; [reflexivity|]. apply IH. intros f' Hf. apply H. right. exact Hf.
Qed.

Lemma direct_queries_scan : forall w table_name phpFiles,
  (forall f, In f phpFiles -> exists content, readFileSync w f = Return content) ->
  direct_queries w table_name phpFiles
  = Return (map (query_entry w) (filter (queries_table w table_name) phpFiles)).
Proof.
  intros w table_name files. induction files as [|f files IH]; intro H; [reflexivity|].
  simpl direct_queries.
  destruct (H f (or_introl eq_refl)) as [content R].
  rewrite R. simpl obind.
  rewrite (IH (fun f' Hf => H f' (or_intror Hf))). simpl obind.
  simpl filter.
  assert (Q : queries_table w table_name f = includes content (table_call table_name))
    by (unfold queries_table, content_of; rewrite R; reflexivity).
  rewrite Q. destruct (includes content (table_call table_name)); reflexivity.
Qed.

(** X25: when the model files and the PHP files can be read,
    find_table_usage returns, also when nothing is found: the model is the
    first model file whose text matches the table pattern, and null when no
    model declares the table; direct_queries are the PHP files, in the order
    found, whose text holds the call DB::table('<table>') in single quotes;
    migrations are the migration files found, whether or not they can be
    read. *)
Theorem findTableUsage_answer :
  forall (w : World) (a : Arguments),
    let table_name := field "table_name" a in
    (forall f, In f (model_files w) ->
               testable w (table_pattern table_name) EmptyString f) ->
    (forall f, In f (php_files w) -> exists content, readFileSync w f = Return content) ->
    findTableUsage (Some a) w
    = Return (reply (Stringified
        (VObj [ ("table_name", VOpt table_name);
                ("model",
                 model_entry w (List.find (matches w (table_pattern table_name) EmptyString)
                                          (model_files w)));
                ("direct_queries",
                 VArr (map (query_entry w)
                           (filter (queries_table w table_name) (php_files w))));
                ("migrations",
                 VArr (map (migration_entry w) (migration_files w a))) ]))).
Proof.
  intros w a table_name Hm Hp. subst table_name.
  unfold findTableUsage. simpl destructure. unfold obind at 1. cbv zeta.
  fold (model_files w). rewrite (model_of_table_scan w _ _ Hm). unfold obind at 1.
  fold (php_files w). rewrite (direct_queries_scan w _ _ Hp). reflexivity.
Qed.

(** A table whose model names it by convention only: no model is
    reported, the report that queries the table is. *)
Lemma findTableUsage_answer_witness :
  findTableUsage (Some [("table_name", "orders")]) Tables.app
  = Return (reply (Stringified
      (VObj [ ("table_name", VStr "orders");
              ("model", VNull);
              ("direct_queries",
               VArr [ VObj [ ("file", VStr "app/Employer/Reports/OrderReport.php");
                             ("query_type", VStr "query_builder") ] ]);
              ("migrations",
               VArr [ VObj [ ("file",
                              VStr "database/migrations/2024_01_01_000000_create_orders_table.php");
                             ("migration_name",
                              VStr "2024_01_01_000000_create_orders_table") ] ]) ]))).
Proof.
  refine (eq_trans (findTableUsage_answer Tables.app [("table_name", "orders")] _ _) eq_refl).
  - intros f Hf. unfold testable.
    destruct Hf as [Hf|[]]; subst f; eexists; eexists; split; reflexivity.
  - intros f Hf.
    destruct Hf as [Hf|[Hf|[]]]; subst f; eexists; reflexivity.
Defined.

(** ** find_service_chain *)










(** ** countLines *)

Lemma split_newline_length_feeds : forall content,
  split_newline_length content = S (line_feeds content).
Proof.
  induction content as [|c content IH]; simpl; [reflexivity|].
  rewrite IH. destruct (Ascii.eqb c newline); reflexivity.
Qed.

Lemma line_feeds_append : forall a b,
  line_feeds (a ++ b) = line_feeds a + line_feeds b.
Proof.
  induction a as [|c a IH]; intro b; simpl; [reflexivity|].
  rewrite IH. destruct (Ascii.eqb c newline); reflexivity.
Qed.

(** X27: countLines never fails: for a file that cannot be read it
    answers 0, and for one that can be read one more than the number of line
    feeds in its text, so 1 for an empty file; it answers 0 only for a file
    that cannot be read, and the counts of two texts joined by a line feed
    add up. *)
Theorem countLines_counts :
  forall (w : World) (file : string),
    (forall e, readFileSync w file = Throw e -> countLines w file = 0) /\
    (forall content, readFileSync w file = Return content ->
                     countLines w file = S (line_feeds content)) /\
    (countLines w file = 0 <-> exists e, readFileSync w file = Throw e) /\
    (forall first second,
        readFileSync w file = Return (first ++ String newline second) ->
        countLines w file = split_newline_length first + split_newline_length second).
Proof.
  intros w file. unfold countLines. split; [|split; [|split]].
  - intros e H. rewrite H. reflexivity.
  - intros content H. rewrite H. apply split_newline_length_feeds.
  - destruct (readFileSync w file) as [content|e].
    + rewrite split_newline_length_feeds. split; [discriminate|].
      intros [e H]. discriminate H.
    + split; [|reflexivity]. intros _. exists e. reflexivity.
  - intros first second H. rewrite H, !split_newline_length_feeds, line_feeds_append.
    change (line_feeds (String newline second)) with (1 + line_feeds second). lia.
Qed.

Lemma countLines_counts_witness :
  countLines Tables.app Tables.order_model = 1 /\
  countLines Tables.app Tables.order_migration = 0.
Proof.
  split.
  - exact (proj1 (proj2 (countLines_counts Tables.app Tables.order_model)) _ eq_refl).
  - exact (proj1 (countLines_counts Tables.app Tables.order_migration) _ eq_refl).
Defined.

Lemma announced_tools_are_handled_witness :
  known_tool "find_table_usage" = true /\
  incl ["model_name"] ["model_name"; "domain"].
Proof.
  split.
  - apply (proj1 announced_tools_are_handled "find_table_usage").
    simpl. repeat (first [left; reflexivity|right]).
  - apply (proj2 (proj2 announced_tools_are_handled)
             (mkTool "find_eloquent_scopes"
                     [("model_name", None); ("domain", Some VALID_DOMAINS)]
                     ["model_name"])).
    simpl. repeat (first [left; reflexivity|right]).
Defined.
